(** * Video teleprompter: a shallow embedding of the in-page logic

  The development follows the JavaScript sources: the single-class
  [VideoTeleprompter] of [src/script.js] (first copy, the one with the
  camera switch and the MIME probe; the second copy where it differs),
  and the component split [VideoComponent] / [ScriptComponent] /
  [ControlsComponent] / [VideoTeleprompterApp].

  What the browser does is kept explicit: interval timers, the streams
  handed out by [getUserMedia] with the state of their tracks,
  [localStorage], downloads and alerts are part of the state; the
  outcome of a camera request, the clock and the layout of the script
  view are inputs of the handlers.  A handler runs to its end before
  the next event is taken.

  JavaScript numbers are modelled by exact rationals extended with the
  non-finite values ([JsNum]); binary64 rounding is not modelled.
  Strings are sequences of 8-bit code units.  A text in storage that
  [JSON.stringify] produced is identified with the JSON document it
  holds. *)

From Stdlib Require Import ZArith QArith Qminmax String Ascii List Bool Lia Lqa
Sorted.
From stdpp Require Import base option list gmap strings.
Import ListNotations.

Local Open Scope string_scope.

(** ** Text: [trim], [split(/\s+/)], [parseInt] *)

Module Text.

(** The code units matched by [\s] and stripped by [trim] (those below
    256): TAB, LF, VT, FF, CR, SPACE, NBSP. *)
Definition isWhiteSpace (c : ascii) : bool :=
  let n := nat_of_ascii c in
  (Nat.eqb n 9 || Nat.eqb n 10 || Nat.eqb n 11 || Nat.eqb n 12
   || Nat.eqb n 13 || Nat.eqb n 32 || Nat.eqb n 160)%bool.

Fixpoint trimStart (s : string) : string :=
  match s with
  | EmptyString => EmptyString
  | String c s' => if isWhiteSpace c then trimStart s' else s
  end.

Fixpoint trimEnd (s : string) : string :=
  match s with
  | EmptyString => EmptyString
  | String c s' =>
      match trimEnd s' with
      | EmptyString => if isWhiteSpace c then EmptyString else String c EmptyString
      | t => String c t
      end
  end.

(** [String.prototype.trim] *)
Definition trim (s : string) : string := trimEnd (trimStart s).

Definition startsWithWs (s : string) : bool :=
  match s with
  | EmptyString => false
  | String c _ => isWhiteSpace c
  end.

(** [s.split(/\s+/)]: the pieces between maximal runs of white space.
    The result is never empty; a leading or trailing run yields an
    empty first or last piece, and the empty string yields [[""]]. *)
Fixpoint splitWs (s : string) : list string :=
  match s with
  | EmptyString => [EmptyString]
  | String c s' =>
      if isWhiteSpace c then
        (if startsWithWs s' then splitWs s' else EmptyString :: splitWs s')
      else
        match splitWs s' with
        | t :: r => String c t :: r
        | [] => [String c EmptyString]
        end
  end.

(** [word => word.length > 0] *)
Definition nonEmpty (w : string) : bool := negb (Nat.eqb (String.length w) 0).

(** [script.split(/\s+/).filter(word => word.length > 0).length],
    where [script] is the trimmed text. *)
Definition wordCount (script : string) : nat :=
  List.length (List.filter nonEmpty (splitWs script)).

(** The words of a text, read off directly: a word starts at every code
    unit that is not white space and is preceded by white space or by
    the start of the text. *)
Fixpoint wordStarts (prevWs : bool) (s : string) : nat :=
  match s with
  | EmptyString => 0
  | String c s' =>
      if isWhiteSpace c then wordStarts true s'
      else (if prevWs then 1 else 0) + wordStarts false s'
  end.

Definition tokenCount (s : string) : nat := wordStarts true s.

(** The text starts with a word. *)
Definition headIsWord (s : string) : bool :=
  match s with
  | EmptyString => false
  | String c _ => negb (isWhiteSpace c)
  end.

(** Digits for [parseInt]. *)
Definition digitVal (radix : Z) (c : ascii) : option Z :=
  (let n := Z.of_nat (nat_of_ascii c) in
   let v := if (48 <=? n) && (n <=? 57) then Some (n - 48)
            else if (97 <=? n) && (n <=? 122) then Some (n - 87)
            else if (65 <=? n) && (n <=? 90) then Some (n - 55)
            else None in
   match v with
   | Some d => if d <? radix then Some d else None
   | None => None
   end)%Z.

(** The longest prefix of digits, most significant first; [None] when
    there is no digit at all. *)
Fixpoint digitsPrefix (radix : Z) (acc : option Z) (s : string) : option Z :=
  match s with
  | EmptyString => acc
  | String c s' =>
      match digitVal radix c with
      | Some d => digitsPrefix radix (Some (match acc with Some a => a * radix + d | None => d end)%Z) s'
      | None => acc
      end
  end.

Definition stripHexPrefix (s : string) : option string :=
  match s with
  | String "0" (String "x" r) => Some r
  | String "0" (String "X" r) => Some r
  | _ => None
  end.

(** [parseInt(s)] with no radix argument; [None] is [NaN]. *)
Definition parseInt (s : string) : option Z :=
  let t := trimStart s in
  let '(neg, u) :=
    match t with
    | String "-" r => (true, r)
    | String "+" r => (false, r)
    | _ => (false, t)
    end in
  let mag :=
    match stripHexPrefix u with
    | Some r => digitsPrefix 16 None r
    | None => digitsPrefix 10 None u
    end in
  match mag with
  | Some m => Some (if neg then - m else m)%Z
  | None => None
  end.

End Text.

(** ** Numbers *)

Module Num.

(** A JavaScript number: a finite value, an infinity, or [NaN]. *)
Inductive JsNum :=
| Fin (q : Q)
| Inf (negative : bool)
| NaN.

Definition ofZ (z : Z) : JsNum := Fin (inject_Z z).
Definition ofNat (n : nat) : JsNum := Fin (inject_Z (Z.of_nat n)).

Definition isNeg (q : Q) : bool := negb (Qle_bool 0 q).
Definition isZero (q : Q) : bool := Qeq_bool q 0.

(** [a / b] *)
Definition div (a b : JsNum) : JsNum :=
  match a, b with
  | NaN, _ | _, NaN => NaN
  | Inf _, Inf _ => NaN
  | Inf n, Fin q => Inf (xorb n (isNeg q))
  | Fin _, Inf _ => Fin 0
  | Fin p, Fin q =>
      if isZero q then (if isZero p then NaN else Inf (isNeg p))
      else Fin (p / q)
  end.

(** [a * b] *)
Definition mul (a b : JsNum) : JsNum :=
  match a, b with
  | NaN, _ | _, NaN => NaN
  | Inf n, Inf m => Inf (xorb n m)
  | Inf n, Fin q | Fin q, Inf n => if isZero q then NaN else Inf (xorb n (isNeg q))
  | Fin p, Fin q => Fin (p * q)
  end.

(** [a - b] on finite operands (the only ones subtracted here). *)
Definition sub (a b : JsNum) : JsNum :=
  match a, b with
  | Fin p, Fin q => Fin (p - q)
  | NaN, _ | _, NaN => NaN
  | Inf n, Inf m => if Bool.eqb n m then NaN else Inf n
  | Inf n, Fin _ => Inf n
  | Fin _, Inf m => Inf (negb m)
  end.

(** [a >= b]; comparisons with [NaN] are false. *)
Definition geb (a b : JsNum) : bool :=
  match a, b with
  | NaN, _ | _, NaN => false
  | Inf n, Inf m => orb (negb n) m
  | Inf n, Fin _ => negb n
  | Fin _, Inf m => m
  | Fin p, Fin q => Qle_bool q p
  end.

End Num.

(** ** JavaScript values, JSON and [localStorage] *)

Module Js.

(** The values that occur in the settings object: [undefined],
    booleans, strings and objects (an object keeps its properties in
    insertion order). *)
#[warnings="-register-all"]
Inductive JsVal :=
| JUndefined
| JBool (b : bool)
| JStr (s : string)
| JObj (props : list (string * JsVal)).

Definition isEmptyStr (s : string) : bool :=
  match s with EmptyString => true | _ => false end.

(** Truthiness, as tested by [if (v)]. *)
Definition truthy (v : JsVal) : bool :=
  match v with
  | JUndefined => false
  | JBool b => b
  | JStr s => negb (isEmptyStr s)
  | JObj _ => true
  end.

Fixpoint assoc (k : string) (props : list (string * JsVal)) : JsVal :=
  match props with
  | [] => JUndefined
  | (k', v) :: r => if String.eqb k k' then v else assoc k r
  end.

(** Property read [v.k]; a missing property reads as [undefined]. *)
Definition get (v : JsVal) (k : string) : JsVal :=
  match v with
  | JObj props => assoc k props
  | _ => JUndefined
  end.

(** The string stored when a value is assigned to a DOM string
    attribute such as [input.value] or [style.left]. *)
Definition toString (v : JsVal) : string :=
  match v with
  | JUndefined => "undefined"
  | JBool true => "true"
  | JBool false => "false"
  | JStr s => s
  | JObj _ => "[object Object]"
  end.

(** [a === b] on the two values compared by the code. *)
Definition strictEqStr (v : JsVal) (s : string) : bool :=
  match v with
  | JStr t => String.eqb t s
  | _ => false
  end.

(** The string a guarded assignment [if (saved) target = saved] leaves
    in [target]. *)
Definition orKeep (saved current : string) : string :=
  if isEmptyStr saved then current else saved.

(** What [JSON.parse(JSON.stringify(v))] returns: properties whose value
    is [undefined] are left out, everything else comes back as it
    was. *)
Fixpoint jsonImage (v : JsVal) : JsVal :=
  match v with
  | JObj props =>
      JObj ((fix go (ps : list (string * JsVal)) : list (string * JsVal) :=
               match ps with
               | [] => []
               | (k, JUndefined) :: r => go r
               | (k, x) :: r => (k, jsonImage x) :: go r
               end) props)
  | _ => v
  end.

(** The text held under a storage key: either the serialisation of a
    JSON document, identified with the document, or some other text. *)
Inductive StoredText :=
| JsonText (doc : JsVal)
| RawText (raw : string).

Definition JSON_stringify (v : JsVal) : StoredText := JsonText (jsonImage v).

(** [JSON.parse]; [None] stands for the thrown [SyntaxError]. *)
Definition JSON_parse (t : StoredText) : option JsVal :=
  match t with
  | JsonText doc => Some doc
  | RawText _ => None
  end.

(** [!saved] for the result of [localStorage.getItem]. *)
Definition absent (saved : option StoredText) : bool :=
  match saved with
  | None => true
  | Some (RawText raw) => isEmptyStr raw
  | Some (JsonText _) => false
  end.

End Js.

(** ** Media objects *)

Module Media.

(** A [Blob]: its bytes and its [type]. *)
Record Blob := mkBlob { blob_bytes : list Byte.byte; blob_type : string }.

Definition size (b : Blob) : nat := List.length (blob_bytes b).

(** [data.size > 0] *)
Definition hasData (b : Blob) : bool := Nat.ltb 0 (size b).

(** Every blob of a chunk sequence holds bytes. *)
Definition chunksHoldBytes (chunks : list Blob) : Prop :=
  Forall (fun b => 0 < size b) chunks.

(** [new Blob(parts, { type })] *)
Definition newBlob (parts : list Blob) (type : string) : Blob :=
  mkBlob (List.concat (List.map blob_bytes parts)) type.

(** A [MediaRecorder]: the options it was constructed with, the
    [mimeType] attribute it reports, and whether it is recording. *)
Record MediaRecorder := mkRecorder {
  mr_stream : nat;
  mr_requested : option string;
  mimeType : string;
  mr_recording : bool
}.

(** A [MediaStream] is the list of its tracks; a track is [true] while
    live and [false] once stopped. *)
Definition MediaStream := list bool.

Definition isLive (st : MediaStream) : bool := existsb (fun t => t) st.

(** [stream.getTracks().forEach(track => track.stop())] *)
Definition stopTracks (st : MediaStream) : MediaStream := List.map (fun _ => false) st.

(** The outcome of [getUserMedia]: a fresh stream with [tracks] live
    tracks, or a rejection. *)
Inductive Acquire :=
| Granted (tracks : nat)
| Denied.

(** What the browser provides. *)
Record Platform := mkPlatform {
  (* [window.MediaRecorder] exists *)
  hasMediaRecorder : bool;
  isTypeSupported : string -> bool;
  (* the [mimeType] attribute of a recorder constructed with the given
     [mimeType] option *)
  recorderMimeType : option string -> string;
  (* [navigator.userAgent] names an iPhone or an iPad *)
  isIOS : bool
}.

(** A file handed to the browser for download. *)
Record Download := mkDownload {
  dl_blob : Blob;
  dl_extension : string;
  dl_newTab : bool
}.

End Media.

(** ** [VideoTeleprompter] ([src/script.js], first copy) *)

Module VideoTeleprompter.
Import Text Num Js Media.

(** The closure that [startScrolling] registers with [setInterval]: it
    captures [durationMs] and [maxScroll]. *)
Record ScrollJob := mkJob { durationMs : JsNum; maxScroll : Q }.

(** The object's fields, the DOM attributes the methods read and
    write, and the page state behind the browser calls: the interval
    timers ([setInterval] hands out identifiers greater than zero), the
    streams handed out by [getUserMedia], [localStorage], the files
    sent to download and the alerts shown.  Class lists, button
    titles and the font size are presentation only and left out. *)
Record State := mkState {
  mediaRecorder : option MediaRecorder;
  recordedChunks : list Blob;
  isRecording : bool;
  isScrolling : bool;
  stream : option nat;
  currentCamera : JsVal;
  isTextRotated : JsVal;
  scrollInterval : option positive;
  scrollStartTime : option Q;
  scriptInput_value : string;
  scriptInput_scrollTop : JsNum;
  speedSlider_value : string;
  textSizeSlider_value : string;
  timers : gmap positive ScrollJob;
  nextTimer : positive;
  streams : list MediaStream;
  localStorage : gmap string StoredText;
  downloads : list Download;
  alerts : list string
}.


Definition set_mediaRecorder (v : option MediaRecorder) (s : State) : State :=
  mkState v (recordedChunks s) (isRecording s) (isScrolling s) (stream s)
    (currentCamera s) (isTextRotated s) (scrollInterval s)
    (scrollStartTime s) (scriptInput_value s) (scriptInput_scrollTop s)
    (speedSlider_value s) (textSizeSlider_value s) (timers s) (nextTimer s)
    (streams s) (localStorage s) (downloads s) (alerts s).

Definition set_recordedChunks (v : list Blob) (s : State) : State :=
  mkState (mediaRecorder s) v (isRecording s) (isScrolling s) (stream s)
    (currentCamera s) (isTextRotated s) (scrollInterval s)
    (scrollStartTime s) (scriptInput_value s) (scriptInput_scrollTop s)
    (speedSlider_value s) (textSizeSlider_value s) (timers s) (nextTimer s)
    (streams s) (localStorage s) (downloads s) (alerts s).

Definition set_isRecording (v : bool) (s : State) : State :=
  mkState (mediaRecorder s) (recordedChunks s) v (isScrolling s) (stream s)
    (currentCamera s) (isTextRotated s) (scrollInterval s)
    (scrollStartTime s) (scriptInput_value s) (scriptInput_scrollTop s)
    (speedSlider_value s) (textSizeSlider_value s) (timers s) (nextTimer s)
    (streams s) (localStorage s) (downloads s) (alerts s).

Definition set_isScrolling (v : bool) (s : State) : State :=
  mkState (mediaRecorder s) (recordedChunks s) (isRecording s) v (stream s)
    (currentCamera s) (isTextRotated s) (scrollInterval s)
    (scrollStartTime s) (scriptInput_value s) (scriptInput_scrollTop s)
    (speedSlider_value s) (textSizeSlider_value s) (timers s) (nextTimer s)
    (streams s) (localStorage s) (downloads s) (alerts s).

Definition set_stream (v : option nat) (s : State) : State :=
  mkState (mediaRecorder s) (recordedChunks s) (isRecording s)
    (isScrolling s) v (currentCamera s) (isTextRotated s) (scrollInterval s)
    (scrollStartTime s) (scriptInput_value s) (scriptInput_scrollTop s)
    (speedSlider_value s) (textSizeSlider_value s) (timers s) (nextTimer s)
    (streams s) (localStorage s) (downloads s) (alerts s).

Definition set_currentCamera (v : JsVal) (s : State) : State :=
  mkState (mediaRecorder s) (recordedChunks s) (isRecording s)
    (isScrolling s) (stream s) v (isTextRotated s) (scrollInterval s)
    (scrollStartTime s) (scriptInput_value s) (scriptInput_scrollTop s)
    (speedSlider_value s) (textSizeSlider_value s) (timers s) (nextTimer s)
    (streams s) (localStorage s) (downloads s) (alerts s).

Definition set_isTextRotated (v : JsVal) (s : State) : State :=
  mkState (mediaRecorder s) (recordedChunks s) (isRecording s)
    (isScrolling s) (stream s) (currentCamera s) v (scrollInterval s)
    (scrollStartTime s) (scriptInput_value s) (scriptInput_scrollTop s)
    (speedSlider_value s) (textSizeSlider_value s) (timers s) (nextTimer s)
    (streams s) (localStorage s) (downloads s) (alerts s).

Definition set_scrollInterval (v : option positive) (s : State) : State :=
  mkState (mediaRecorder s) (recordedChunks s) (isRecording s)
    (isScrolling s) (stream s) (currentCamera s) (isTextRotated s) v
    (scrollStartTime s) (scriptInput_value s) (scriptInput_scrollTop s)
    (speedSlider_value s) (textSizeSlider_value s) (timers s) (nextTimer s)
    (streams s) (localStorage s) (downloads s) (alerts s).

Definition set_scrollStartTime (v : option Q) (s : State) : State :=
  mkState (mediaRecorder s) (recordedChunks s) (isRecording s)
    (isScrolling s) (stream s) (currentCamera s) (isTextRotated s)
    (scrollInterval s) v (scriptInput_value s) (scriptInput_scrollTop s)
    (speedSlider_value s) (textSizeSlider_value s) (timers s) (nextTimer s)
    (streams s) (localStorage s) (downloads s) (alerts s).

Definition set_scriptInput_value (v : string) (s : State) : State :=
  mkState (mediaRecorder s) (recordedChunks s) (isRecording s)
    (isScrolling s) (stream s) (currentCamera s) (isTextRotated s)
    (scrollInterval s) (scrollStartTime s) v (scriptInput_scrollTop s)
    (speedSlider_value s) (textSizeSlider_value s) (timers s) (nextTimer s)
    (streams s) (localStorage s) (downloads s) (alerts s).

Definition set_scriptInput_scrollTop (v : JsNum) (s : State) : State :=
  mkState (mediaRecorder s) (recordedChunks s) (isRecording s)
    (isScrolling s) (stream s) (currentCamera s) (isTextRotated s)
    (scrollInterval s) (scrollStartTime s) (scriptInput_value s) v
    (speedSlider_value s) (textSizeSlider_value s) (timers s) (nextTimer s)
    (streams s) (localStorage s) (downloads s) (alerts s).

Definition set_speedSlider_value (v : string) (s : State) : State :=
  mkState (mediaRecorder s) (recordedChunks s) (isRecording s)
    (isScrolling s) (stream s) (currentCamera s) (isTextRotated s)
    (scrollInterval s) (scrollStartTime s) (scriptInput_value s)
    (scriptInput_scrollTop s) v (textSizeSlider_value s) (timers s)
    (nextTimer s) (streams s) (localStorage s) (downloads s) (alerts s).

Definition set_textSizeSlider_value (v : string) (s : State) : State :=
  mkState (mediaRecorder s) (recordedChunks s) (isRecording s)
    (isScrolling s) (stream s) (currentCamera s) (isTextRotated s)
    (scrollInterval s) (scrollStartTime s) (scriptInput_value s)
    (scriptInput_scrollTop s) (speedSlider_value s) v (timers s)
    (nextTimer s) (streams s) (localStorage s) (downloads s) (alerts s).

Definition set_timers (v : gmap positive ScrollJob) (s : State) : State :=
  mkState (mediaRecorder s) (recordedChunks s) (isRecording s)
    (isScrolling s) (stream s) (currentCamera s) (isTextRotated s)
    (scrollInterval s) (scrollStartTime s) (scriptInput_value s)
    (scriptInput_scrollTop s) (speedSlider_value s) (textSizeSlider_value s)
    v (nextTimer s) (streams s) (localStorage s) (downloads s) (alerts s).

Definition set_nextTimer (v : positive) (s : State) : State :=
  mkState (mediaRecorder s) (recordedChunks s) (isRecording s)
    (isScrolling s) (stream s) (currentCamera s) (isTextRotated s)
    (scrollInterval s) (scrollStartTime s) (scriptInput_value s)
    (scriptInput_scrollTop s) (speedSlider_value s) (textSizeSlider_value s)
    (timers s) v (streams s) (localStorage s) (downloads s) (alerts s).

Definition set_streams (v : list MediaStream) (s : State) : State :=
  mkState (mediaRecorder s) (recordedChunks s) (isRecording s)
    (isScrolling s) (stream s) (currentCamera s) (isTextRotated s)
    (scrollInterval s) (scrollStartTime s) (scriptInput_value s)
    (scriptInput_scrollTop s) (speedSlider_value s) (textSizeSlider_value s)
    (timers s) (nextTimer s) v (localStorage s) (downloads s) (alerts s).

Definition set_localStorage (v : gmap string StoredText) (s : State) : State :=
  mkState (mediaRecorder s) (recordedChunks s) (isRecording s)
    (isScrolling s) (stream s) (currentCamera s) (isTextRotated s)
    (scrollInterval s) (scrollStartTime s) (scriptInput_value s)
    (scriptInput_scrollTop s) (speedSlider_value s) (textSizeSlider_value s)
    (timers s) (nextTimer s) (streams s) v (downloads s) (alerts s).

Definition set_downloads (v : list Download) (s : State) : State :=
  mkState (mediaRecorder s) (recordedChunks s) (isRecording s)
    (isScrolling s) (stream s) (currentCamera s) (isTextRotated s)
    (scrollInterval s) (scrollStartTime s) (scriptInput_value s)
    (scriptInput_scrollTop s) (speedSlider_value s) (textSizeSlider_value s)
    (timers s) (nextTimer s) (streams s) (localStorage s) v (alerts s).

Definition set_alerts (v : list string) (s : State) : State :=
  mkState (mediaRecorder s) (recordedChunks s) (isRecording s)
    (isScrolling s) (stream s) (currentCamera s) (isTextRotated s)
    (scrollInterval s) (scrollStartTime s) (scriptInput_value s)
    (scriptInput_scrollTop s) (speedSlider_value s) (textSizeSlider_value s)
    (timers s) (nextTimer s) (streams s) (localStorage s) (downloads s) v.

(** The state the constructor leaves, over the page it finds: the
    initial content of the inputs comes from the document. *)
Definition construct (script speed textSize : string)
    (storage : gmap string StoredText) : State :=
  {| mediaRecorder := None; recordedChunks := []; isRecording := false;
     isScrolling := false; stream := None; currentCamera := JStr "user";
     isTextRotated := JBool false;
     scrollInterval := None; scrollStartTime := None;
     scriptInput_value := script; scriptInput_scrollTop := Fin 0;
     speedSlider_value := speed; textSizeSlider_value := textSize;
     timers := ∅; nextTimer := 1%positive; streams := [];
     localStorage := storage; downloads := []; alerts := [] |}.

(** *** Timers *)

Definition setInterval (job : ScrollJob) (s : State) : positive * State :=
  (nextTimer s,
   set_nextTimer (Pos.succ (nextTimer s))
     (set_timers (<[nextTimer s := job]> (timers s)) s)).

Definition clearInterval (id : option positive) (s : State) : State :=
  match id with
  | Some i => set_timers (delete i (timers s)) s
  | None => s
  end.

Definition alert (msg : string) (s : State) : State :=
  set_alerts (alerts s ++ [msg]) s.

(** *** Autoscroll *)

(** Layout of the script view as read by [startScrolling]. *)
Record Layout := mkLayout { scrollHeight : Q; clientHeight : Q }.

(** [durationMs] as [startScrolling] computes it from the trimmed
    script and the slider value. *)
Definition scrollDuration (script speed : string) : JsNum :=
  let wpm := match parseInt speed with Some z => ofZ z | None => NaN end in
  let wordCount := ofNat (Text.wordCount script) in
  let readingTimeMinutes := div (div wordCount wpm) (Fin 10) in
  mul (mul readingTimeMinutes (Fin 60)) (Fin 1000).

Definition startScrolling (now : Q) (lay : Layout) (s : State) : State :=
  if isScrolling s then s else
  let script := trim (scriptInput_value s) in
  if isEmptyStr script then s else
  let s := set_isScrolling true s in
  let durationMs := scrollDuration script (speedSlider_value s) in
  let s := set_scriptInput_scrollTop (Fin 0) s in
  let maxScroll := (scrollHeight lay - clientHeight lay)%Q in
  if negb (Qle_bool maxScroll 0) then
    let '(id, s) := setInterval (mkJob durationMs maxScroll) s in
    set_scrollStartTime (Some now) (set_scrollInterval (Some id) s)
  else s.

(** The interval callback, run at time [now]. *)
Definition scrollTick (job : ScrollJob) (now : Q) (s : State) : State :=
  let start := match scrollStartTime s with Some t => Fin t | None => NaN end in
  let progress := div (sub (Fin now) start) (durationMs job) in
  if geb progress (Fin 1) then
    clearInterval (scrollInterval s)
      (set_scriptInput_scrollTop (Fin (maxScroll job)) s)
  else
    set_scriptInput_scrollTop (mul (Fin (maxScroll job)) progress) s.

(** The browser fires timer [id]; a cleared timer does nothing. *)
Definition fireTimer (id : positive) (now : Q) (s : State) : State :=
  match timers s !! id with
  | Some job => scrollTick job now s
  | None => s
  end.

Definition stopScrolling (s : State) : State :=
  let s := set_isScrolling false s in
  let s := match scrollInterval s with
           | Some id => set_scrollInterval None (clearInterval (Some id) s)
           | None => s
           end in
  set_scriptInput_scrollTop (Fin 0) s.

Definition updateSpeedDisplay (now : Q) (lay : Layout) (s : State) : State :=
  if isScrolling s then startScrolling now lay (stopScrolling s) else s.

(** *** Camera *)

(** A method that ran to its end, or left with an exception. *)
Inductive Outcome :=
| Returned (s : State)
| Threw (s : State).

(** [setupCamera] up to its [await]: the existing stream, if any, has
    all its tracks stopped, then [getUserMedia] is called. *)
Definition setupCamera_request (s : State) : State :=
  match stream s with
  | Some h => set_streams (alter stopTracks h (streams s)) s
  | None => s
  end.

(** [setupCamera] from the [await] on: the new stream is stored (and
    bound to the preview); a rejection is thrown to the caller. *)
Definition setupCamera_resume (acq : Acquire) (s : State) : Outcome :=
  match acq with
  | Granted n =>
      Returned (set_stream (Some (List.length (streams s)))
                  (set_streams (streams s ++ [replicate n true]) s))
  | Denied => Threw s
  end.

Definition setupCamera (acq : Acquire) (s : State) : Outcome :=
  setupCamera_resume acq (setupCamera_request s).

(** [c === 'user' ? 'environment' : 'user'] *)
Definition otherCamera (c : JsVal) : JsVal :=
  if strictEqStr c "user" then JStr "environment" else JStr "user".

Definition switchCamera (acq : Acquire) (s : State) : State :=
  let s := set_currentCamera (otherCamera (currentCamera s)) s in
  match setupCamera acq s with
  | Returned s' => s'
  | Threw s' => set_currentCamera (otherCamera (currentCamera s')) s'
  end.

(** *** Recording *)

(** The MIME type chosen by the nested capability tests of
    [startRecording]; the empty string stands for the device default. *)
Definition probeMimeType (P : Platform) : string :=
  if isTypeSupported P "video/webm;codecs=vp9,opus" then "video/webm;codecs=vp9,opus"
  else if isTypeSupported P "video/mp4" then "video/mp4"
  else if isTypeSupported P "video/webm;codecs=vp8,opus" then "video/webm;codecs=vp8,opus"
  else if isTypeSupported P "video/webm" then "video/webm"
  else "".

(** [mimeType ? { mimeType } : {}] *)
Definition recorderOptions (mimeType : string) : option string :=
  if isEmptyStr mimeType then None else Some mimeType.

(** [new MediaRecorder(stream, options)] followed by [start(1000)]. *)
Definition newRecorder (P : Platform) (h : nat) (options : option string) : MediaRecorder :=
  mkRecorder h options (recorderMimeType P options) true.

(** [mediaRecorder.stop()] *)
Definition stopRecorder (r : MediaRecorder) : MediaRecorder :=
  mkRecorder (mr_stream r) (mr_requested r) (mimeType r) false.

(** The whole body runs in a [try]: a refused camera, a missing
    [MediaRecorder] (the probe then throws) or a missing stream end in
    the [catch], which alerts.  The device is taken to accept the
    recorder and its start. *)
Definition startRecording (P : Platform) (acq : Acquire) (now : Q) (lay : Layout)
    (s : State) : State :=
  let r := match stream s with
           | None => setupCamera acq s
           | Some _ => Returned s
           end in
  match r with
  | Threw s => alert "Recording failed" s
  | Returned s =>
      let s := set_recordedChunks [] s in
      if negb (hasMediaRecorder P) then alert "Recording failed" s else
      match stream s with
      | None => alert "Recording failed" s
      | Some h =>
          let mimeType := probeMimeType P in
          let options := recorderOptions mimeType in
          let s := set_mediaRecorder (Some (newRecorder P h options)) s in
          let s := set_isRecording true s in
          startScrolling now lay s
      end
  end.

Definition stopRecording (s : State) : State :=
  match mediaRecorder s with
  | Some r =>
      if isRecording s then
        let s := set_mediaRecorder (Some (stopRecorder r)) s in
        let s := set_isRecording false s in
        stopScrolling s
      else s
  | None => s
  end.

Definition toggleRecording (P : Platform) (acq : Acquire) (now : Q) (lay : Layout)
    (s : State) : State :=
  if isRecording s then stopRecording s else startRecording P acq now lay s.

(** The [ondataavailable] handler. *)
Definition ondataavailable (data : Blob) (s : State) : State :=
  if hasData data then set_recordedChunks (recordedChunks s ++ [data]) s
  else s.

(** [text.includes(needle)] *)
Definition includes (needle text : string) : bool :=
  match String.index 0 needle text with Some _ => true | None => false end.

(** The MIME type and the file extension [saveRecording] settles on. *)
Definition outputType (r : option MediaRecorder) : string * string :=
  match r with
  | Some r =>
      if isEmptyStr (mimeType r) then ("video/webm", "webm")
      else (mimeType r, if includes "mp4" (mimeType r) then "mp4" else "webm")
  | None => ("video/webm", "webm")
  end.

(** The [onstop] handler calls [saveRecording]. *)
Definition saveRecording (P : Platform) (s : State) : State :=
  if Nat.eqb (List.length (recordedChunks s)) 0 then
    alert "No recording data available. Recording may have failed." s
  else
    let '(mimeType, extension) := outputType (mediaRecorder s) in
    let blob := newBlob (recordedChunks s) mimeType in
    if Nat.eqb (size blob) 0 then
      alert "Recording failed: No data recorded" s
    else
      set_downloads (downloads s ++ [mkDownload blob extension (isIOS P)]) s.

(** *** Settings *)

Definition settingsKey : string := "teleprompter-settings".

Definition settingsObject (s : State) : JsVal :=
  JObj [ ("scriptText", JStr (scriptInput_value s));
         ("scrollSpeed", JStr (speedSlider_value s));
         ("textSize", JStr (textSizeSlider_value s));
         ("currentCamera", currentCamera s);
         ("isTextRotated", isTextRotated s) ].

Definition saveSettings (s : State) : State :=
  set_localStorage
    (<[settingsKey := JSON_stringify (settingsObject s)]> (localStorage s)) s.

(** The assignments of [loadSettings] once the document is parsed. *)
Definition applySettings (settings : JsVal) (s : State) : State :=
  let s := if truthy (get settings "scriptText")
           then set_scriptInput_value (toString (get settings "scriptText")) s
           else s in
  let s := if truthy (get settings "scrollSpeed")
           then set_speedSlider_value (toString (get settings "scrollSpeed")) s
           else s in
  let s := if truthy (get settings "textSize")
           then set_textSizeSlider_value (toString (get settings "textSize")) s
           else s in
  let s := if truthy (get settings "currentCamera")
           then set_currentCamera (get settings "currentCamera") s
           else s in
  if truthy (get settings "isTextRotated")
  then set_isTextRotated (get settings "isTextRotated") s
  else s.

Definition loadSettings (s : State) : State :=
  let saved := localStorage s !! settingsKey in
  if absent saved then s else
  match saved ≫= JSON_parse with
  | Some settings => applySettings settings s
  | None => s
  end.

(** The preferences a state holds: script text, scroll speed, text
    size, camera and rotation. *)
Definition preferences (s : State) : string * string * string * JsVal * JsVal :=
  (scriptInput_value s, speedSlider_value s, textSizeSlider_value s,
   currentCamera s, isTextRotated s).

(** The startup page [s0] already has what [s] holds in each field
    that [s] holds empty, or, for the rotation, off. *)
Definition startupAgrees (s s0 : State) : Prop :=
  (scriptInput_value s = "" -> scriptInput_value s0 = "")
  /\ (speedSlider_value s = "" -> speedSlider_value s0 = "")
  /\ (textSizeSlider_value s = "" -> textSizeSlider_value s0 = "")
  /\ (isTextRotated s = JBool false -> isTextRotated s0 = JBool false).

(** [toggleTextRotation] *)
Definition toggleTextRotation (s : State) : State :=
  saveSettings (set_isTextRotated (JBool (negb (truthy (isTextRotated s)))) s).

(** *** The page as a state machine *)

(** The types listed by [checkCompatibility]. *)
Definition typesToCheck : list string :=
  [ "video/webm;codecs=vp9,opus"; "video/webm;codecs=vp8,opus"; "video/webm";
    "video/mp4" ].

Definition checkCompatibility (P : Platform) (s : State) : State :=
  if negb (hasMediaRecorder P) then
    alert "Your browser does not support video recording. Please use a modern browser like Chrome, Firefox, or Safari." s
  else if Nat.eqb (List.length (List.filter (isTypeSupported P) typesToCheck)) 0 then
    alert "Your browser may have limited video recording support. Recording may not work properly." s
  else s.

(** [init]: the browser is checked, the settings are loaded, the
    displays refreshed and the camera requested; a refusal is caught. *)
Definition init (P : Platform) (acq : Acquire) (now : Q) (lay : Layout)
    (s : State) : State :=
  let s := checkCompatibility P s in
  let s := loadSettings s in
  let s := updateSpeedDisplay now lay s in
  match setupCamera acq s with
  | Returned s' => s'
  | Threw s' => s'
  end.

(** What can happen to the page, with what the handler reads from the
    outside: the outcome of a camera request it may make, the clock and
    the layout of the script view.  Each handler runs to its end before
    the next event is taken. *)
Inductive Event :=
| RecordClick (acq : Acquire) (now : Q) (lay : Layout)
| RotateClick
| CameraClick (acq : Acquire)
| SpeedInput (v : string) (now : Q) (lay : Layout)
| TextSizeInput (v : string)
| ScriptInput (text : string)
| SettingsChange
| DataAvailable (data : Blob)
| RecorderStop
| TimerFired (id : positive) (now : Q).

Definition handle (P : Platform) (e : Event) (s : State) : State :=
  match e with
  | RecordClick acq now lay => toggleRecording P acq now lay s
  | RotateClick => toggleTextRotation s
  | CameraClick acq => switchCamera acq s
  | SpeedInput v now lay => updateSpeedDisplay now lay (set_speedSlider_value v s)
  | TextSizeInput v => set_textSizeSlider_value v s
  | ScriptInput text => saveSettings (set_scriptInput_value text s)
  | SettingsChange => saveSettings s
  | DataAvailable data => ondataavailable data s
  | RecorderStop => saveRecording P s
  | TimerFired id now => fireTimer id now s
  end.

Inductive reachable (P : Platform) : State -> Prop :=
| reachable_init script speed textSize storage acq now lay :
    reachable P (init P acq now lay (construct script speed textSize storage))
| reachable_step s e :
    reachable P s -> reachable P (handle P e s).

(** A recording can start: the browser has [MediaRecorder], and a
    stream is held or the request that [startRecording] makes for one
    is granted. *)
Definition canRecord (P : Platform) (acq : Acquire) (s : State) : bool :=
  hasMediaRecorder P &&
  match stream s, acq with
  | Some _, _ => true
  | None, Granted _ => true
  | None, Denied => false
  end.

(** The data events of a recorder, delivered in order. *)
Definition deliver (data : list Blob) (s : State) : State :=
  fold_left (fun s b => ondataavailable b s) data s.

(** One recording session: the start, the data events while recording,
    the stop, the data flushed after it, and the recorder's stop
    event. *)
Definition session (P : Platform) (acq : Acquire) (now : Q) (lay : Layout)
    (during flushed : list Blob) (s : State) : State :=
  saveRecording P
    (deliver flushed (stopRecording (deliver during (startRecording P acq now lay s)))).

(** The order in which [startRecording] tests the MIME types. *)
Definition probeOrder : list string :=
  [ "video/webm;codecs=vp9,opus"; "video/mp4"; "video/webm;codecs=vp8,opus";
    "video/webm" ].




(** Invariants of the page.  For the scroller: every interval timer
    still set is the one [scrollInterval] names, and none is set while
    [isScrolling] is off. *)
Definition ScrollInv (s : State) : Prop :=
  (forall id job, timers s !! id = Some job -> scrollInterval s = Some id)
  /\ (isScrolling s = false -> timers s = ∅).

(** For the recorder: every chunk kept holds bytes, and a recorder
    exists while [isRecording] is on. *)
Definition RecInv (s : State) : Prop :=
  Forall (fun b => 0 < size b) (recordedChunks s)
  /\ (isRecording s = true -> mediaRecorder s <> None).

(** For the camera: a stream with a live track is the one the page
    holds in [stream]. *)
Definition CamInv (s : State) : Prop :=
  forall i st, streams s !! i = Some st -> isLive st = true -> stream s = Some i.


End VideoTeleprompter.

(** ** Dragging and resizing the script box ([setupDragAndResize]) *)

Module Geometry.

Local Open Scope Q_scope.

(** [window.innerWidth], [window.innerHeight] *)
Record Viewport := mkViewport { innerWidth : Q; innerHeight : Q }.

(** The pointer position of a mouse event, or of the first touch. *)
Record Pointer := mkPointer { clientX : Q; clientY : Q }.

(** The layout box of [scriptBox] as read through [offsetLeft],
    [offsetTop], [offsetWidth], [offsetHeight]. *)
Record Rect := mkRect {
  offsetLeft : Q; offsetTop : Q; offsetWidth : Q; offsetHeight : Q
}.

(** The inline style written by the handlers, in pixels; [None] is a
    property never written. *)
Record Style := mkStyle {
  left : option Q; top : option Q; width : option Q; height : option Q
}.

(** The variables closed over by the handlers, the [lastDistance] field
    and the style.  The [start...] variables are unset until the first
    gesture starts; they are only read while the flag set together
    with them is on. *)
Record Gesture := mkGesture {
  isDragging : bool;
  isResizing : bool;
  startX : Q; startY : Q;
  startLeft : Q; startTop : Q;
  startWidth : Q; startHeight : Q;
  lastDistance : option Q;
  style : Style
}.

Definition initial : Gesture :=
  mkGesture false false 0 0 0 0 0 0 None (mkStyle None None None None).

(** [e.target === resizeHandle] is passed as [onHandle]. *)
Definition startDrag (onHandle : bool) (e : Pointer) (box : Rect) (g : Gesture) : Gesture :=
  if onHandle then g else
  mkGesture true (isResizing g) (clientX e) (clientY e)
    (offsetLeft box) (offsetTop box) (startWidth g) (startHeight g)
    (lastDistance g) (style g).

(** [Math.max(0, Math.min(v, limit))] *)
Definition keepWithin (v limit : Q) : Q := Qmax 0 (Qmin v limit).

Definition drag (vp : Viewport) (e : Pointer) (box : Rect) (g : Gesture) : Gesture :=
  if negb (isDragging g) then g else
  let deltaX := clientX e - startX g in
  let deltaY := clientY e - startY g in
  let newLeft := startLeft g + deltaX in
  let newTop := startTop g + deltaY in
  let newLeft := keepWithin newLeft (innerWidth vp - offsetWidth box) in
  let newTop := keepWithin newTop (innerHeight vp - offsetHeight box) in
  mkGesture (isDragging g) (isResizing g) (startX g) (startY g)
    (startLeft g) (startTop g) (startWidth g) (startHeight g) (lastDistance g)
    (mkStyle (Some newLeft) (Some newTop) (width (style g)) (height (style g))).

Definition endDrag (g : Gesture) : Gesture :=
  if isDragging g then
    mkGesture false (isResizing g) (startX g) (startY g)
      (startLeft g) (startTop g) (startWidth g) (startHeight g)
      (lastDistance g) (style g)
  else g.

Definition startResize (e : Pointer) (box : Rect) (g : Gesture) : Gesture :=
  mkGesture (isDragging g) true (clientX e) (clientY e)
    (startLeft g) (startTop g) (offsetWidth box) (offsetHeight box)
    (lastDistance g) (style g).

(** [Math.max(300, Math.min(w, window.innerWidth * 0.9))] *)
Definition clampWidth (vp : Viewport) (w : Q) : Q :=
  Qmax 300 (Qmin w (innerWidth vp * (9 # 10))).

(** [Math.max(200, Math.min(h, window.innerHeight * 0.9))] *)
Definition clampHeight (vp : Viewport) (h : Q) : Q :=
  Qmax 200 (Qmin h (innerHeight vp * (9 # 10))).

Definition setSize (w h : Q) (g : Gesture) : Gesture :=
  mkGesture (isDragging g) (isResizing g) (startX g) (startY g)
    (startLeft g) (startTop g) (startWidth g) (startHeight g) (lastDistance g)
    (mkStyle (left (style g)) (top (style g)) (Some w) (Some h)).

Definition resize (vp : Viewport) (e : Pointer) (g : Gesture) : Gesture :=
  if negb (isResizing g) then g else
  let deltaX := clientX e - startX g in
  let deltaY := clientY e - startY g in
  let newWidth := startWidth g + deltaX in
  let newHeight := startHeight g + deltaY in
  let newWidth := clampWidth vp newWidth in
  let newHeight := clampHeight vp newHeight in
  setSize newWidth newHeight g.

Definition endResize (g : Gesture) : Gesture :=
  if isResizing g then
    mkGesture (isDragging g) false (startX g) (startY g)
      (startLeft g) (startTop g) (startWidth g) (startHeight g)
      (lastDistance g) (style g)
  else g.

Definition setLastDistance (d : option Q) (g : Gesture) : Gesture :=
  mkGesture (isDragging g) (isResizing g) (startX g) (startY g)
    (startLeft g) (startTop g) (startWidth g) (startHeight g) d (style g).

(** [!this.lastDistance] *)
Definition noDistance (d : option Q) : bool :=
  match d with
  | Some q => Qeq_bool q 0
  | None => true
  end.

(** The two-finger branch of the [touchmove] listener; [distance] is the
    distance between the two touches (the square root is taken by the
    caller). *)
Definition pinch (vp : Viewport) (distance : Q) (box : Rect) (g : Gesture) : Gesture :=
  if isDragging g then g else
  if noDistance (lastDistance g) then setLastDistance (Some distance) g else
  let scale := distance / match lastDistance g with Some d => d | None => 0 end in
  let newWidth := offsetWidth box * scale in
  let newHeight := offsetHeight box * scale in
  let newWidth := clampWidth vp newWidth in
  let newHeight := clampHeight vp newHeight in
  setLastDistance (Some distance) (setSize newWidth newHeight g).

(** [mousemove], and [touchmove] with one touch: [drag] then [resize]. *)
Definition pointerMove (vp : Viewport) (e : Pointer) (box : Rect) (g : Gesture) : Gesture :=
  resize vp e (drag vp e box g).

(** [mouseup]; [touchend] also forgets the pinch distance. *)
Definition pointerUp (g : Gesture) : Gesture := endResize (endDrag g).
Definition touchEnd (g : Gesture) : Gesture := setLastDistance None (pointerUp g).

(** The size written is within the configured bounds. *)
Definition sizeWithin (vp : Viewport) (st : Style) : Prop :=
  exists w h,
    width st = Some w /\ height st = Some h
    /\ 300 <= w /\ 200 <= h
    /\ (300 <= innerWidth vp * (9 # 10) -> w <= innerWidth vp * (9 # 10))
    /\ (200 <= innerHeight vp * (9 # 10) -> h <= innerHeight vp * (9 # 10)).

(** The position written keeps the box inside the viewport. *)
Definition positionWithin (vp : Viewport) (box : Rect) (st : Style) : Prop :=
  exists l t,
    left st = Some l /\ top st = Some t
    /\ 0 <= l /\ 0 <= t
    /\ (offsetWidth box <= innerWidth vp -> l <= innerWidth vp - offsetWidth box)
    /\ (offsetHeight box <= innerHeight vp -> t <= innerHeight vp - offsetHeight box).

End Geometry.

(** ** Settings of the second copy of [VideoTeleprompter] in
  [src/script.js], which stores the box geometry *)

Module VideoTeleprompterV2.
Import Js.

(** [scriptBox.style]: the inline CSS texts; the empty string is a
    property that is not set. *)
Record BoxStyle := mkBoxStyle {
  left : string; top : string; width : string; height : string;
  transform : string
}.

(** The part of the page and of storage that [saveSettings] and
    [loadSettings] touch. *)
Record State := mkState {
  scriptInput_value : string;
  speedSlider_value : string;
  textSizeSlider_value : string;
  scriptBox_style : BoxStyle;
  localStorage : gmap string StoredText
}.

Definition settingsKey : string := "teleprompter-settings".

Definition settingsObject (s : State) : JsVal :=
  JObj [ ("scriptText", JStr (scriptInput_value s));
         ("scrollSpeed", JStr (speedSlider_value s));
         ("textSize", JStr (textSizeSlider_value s));
         ("scriptBoxPosition",
          JObj [ ("left", JStr (left (scriptBox_style s)));
                 ("top", JStr (top (scriptBox_style s)));
                 ("width", JStr (width (scriptBox_style s)));
                 ("height", JStr (height (scriptBox_style s)));
                 ("transform", JStr (transform (scriptBox_style s))) ]) ].

Definition saveSettings (s : State) : State :=
  mkState (scriptInput_value s) (speedSlider_value s) (textSizeSlider_value s)
    (scriptBox_style s)
    (<[settingsKey := JSON_stringify (settingsObject s)]> (localStorage s)).

(** [if (pos.k) style.k = pos.k] *)
Definition applyProp (pos : JsVal) (k : string) (current : string) : string :=
  if truthy (get pos k) then toString (get pos k) else current.

Definition applyPosition (pos : JsVal) (st : BoxStyle) : BoxStyle :=
  mkBoxStyle (applyProp pos "left" (left st)) (applyProp pos "top" (top st))
    (applyProp pos "width" (width st)) (applyProp pos "height" (height st))
    (applyProp pos "transform" (transform st)).

Definition applySettings (settings : JsVal) (s : State) : State :=
  mkState
    (if truthy (get settings "scriptText")
     then toString (get settings "scriptText") else scriptInput_value s)
    (if truthy (get settings "scrollSpeed")
     then toString (get settings "scrollSpeed") else speedSlider_value s)
    (if truthy (get settings "textSize")
     then toString (get settings "textSize") else textSizeSlider_value s)
    (if truthy (get settings "scriptBoxPosition")
     then applyPosition (get settings "scriptBoxPosition") (scriptBox_style s)
     else scriptBox_style s)
    (localStorage s).

Definition loadSettings (s : State) : State :=
  let saved := localStorage s !! settingsKey in
  if absent saved then s else
  match saved ≫= JSON_parse with
  | Some settings => applySettings settings s
  | None => s
  end.

(** The preferences a state holds: script text, scroll speed, text
    size and the box geometry. *)
Definition preferences (s : State) : string * string * string * BoxStyle :=
  (scriptInput_value s, speedSlider_value s, textSizeSlider_value s,
   scriptBox_style s).

(** The startup page [t0] already has the empty string in each field
    that [t] holds empty. *)
Definition startupAgrees (t t0 : State) : Prop :=
  (scriptInput_value t = "" -> scriptInput_value t0 = "")
  /\ (speedSlider_value t = "" -> speedSlider_value t0 = "")
  /\ (textSizeSlider_value t = "" -> textSizeSlider_value t0 = "")
  /\ (left (scriptBox_style t) = "" -> left (scriptBox_style t0) = "")
  /\ (top (scriptBox_style t) = "" -> top (scriptBox_style t0) = "")
  /\ (width (scriptBox_style t) = "" -> width (scriptBox_style t0) = "")
  /\ (height (scriptBox_style t) = "" -> height (scriptBox_style t0) = "")
  /\ (transform (scriptBox_style t) = "" -> transform (scriptBox_style t0) = "").

(** The camera of this copy: [stream] and the streams handed out by
    [getUserMedia].  There is no camera switch here; [setupCamera]
    requests a stream and stores it, and is called by [init] and, when
    no stream is held, by [startRecording]. *)
Record Camera := mkCamera {
  stream : option nat;
  streams : list Media.MediaStream
}.

(** [None] stands for the rejection thrown to the caller. *)
Definition setupCamera (acq : Media.Acquire) (c : Camera) : option Camera :=
  match acq with
  | Media.Granted n =>
      Some (mkCamera (Some (List.length (streams c))) (streams c ++ [replicate n true]))
  | Media.Denied => None
  end.

Definition init (acq : Media.Acquire) : Camera :=
  match setupCamera acq (mkCamera None []) with
  | Some c => c
  | None => mkCamera None []
  end.



End VideoTeleprompterV2.

(** ** The component split: [VideoComponent] *)

Module VideoComponent.
Import Js Media.

(** The component's fields and, behind the browser calls, the streams
    handed out so far, the files sent to download and the alerts
    shown by the page. *)
Record State := mkState {
  stream : option nat;
  mediaRecorder : option MediaRecorder;
  recordedChunks : list Blob;
  isRecording : bool;
  currentCamera : string;
  streams : list MediaStream;
  downloads : list Download;
  alerts : list string
}.

Definition alert (msg : string) (s : State) : State :=
  mkState (stream s) (mediaRecorder s) (recordedChunks s) (isRecording s)
    (currentCamera s) (streams s) (downloads s) (alerts s ++ [msg]).

Definition setRecording (r : option MediaRecorder) (chunks : list Blob)
    (on : bool) (s : State) : State :=
  mkState (stream s) r chunks on (currentCamera s) (streams s) (downloads s)
    (alerts s).

Definition construct : State :=
  mkState None None [] false "user" [] [] [].

(** [setupCamera] up to its [await]. *)
Definition setupCamera_request (s : State) : State :=
  match stream s with
  | Some h =>
      mkState (stream s) (mediaRecorder s) (recordedChunks s) (isRecording s)
        (currentCamera s) (alter stopTracks h (streams s)) (downloads s) (alerts s)
  | None => s
  end.

(** [setupCamera] from the [await] on; the rejection is caught here. *)
Definition setupCamera_resume (acq : Acquire) (s : State) : State * bool :=
  match acq with
  | Granted n =>
      (mkState (Some (List.length (streams s))) (mediaRecorder s) (recordedChunks s)
         (isRecording s) (currentCamera s) (streams s ++ [replicate n true])
         (downloads s) (alerts s), true)
  | Denied =>
      (alert "Unable to access camera. Please check your permissions and try again." s,
       false)
  end.

Definition setupCamera (acq : Acquire) (s : State) : State * bool :=
  setupCamera_resume acq (setupCamera_request s).

Definition switchCamera (acq : Acquire) (s : State) : State * bool :=
  let s := mkState (stream s) (mediaRecorder s) (recordedChunks s) (isRecording s)
             (if String.eqb (currentCamera s) "user" then "environment" else "user")
             (streams s) (downloads s) (alerts s) in
  setupCamera acq s.

Definition typesToCheck : list string :=
  [ "video/webm;codecs=vp9,opus"; "video/webm;codecs=vp8,opus"; "video/webm";
    "video/mp4;codecs=h264,aac"; "video/mp4" ].

(** Returns the supported types, or [None] for [false]. *)
Definition checkRecordingCompatibility (P : Platform) (s : State)
    : State * option (list string) :=
  if negb (hasMediaRecorder P) then
    (alert "Your browser does not support video recording. Please use a modern browser like Chrome, Firefox, or Safari." s, None)
  else
    let supportedTypes := List.filter (isTypeSupported P) typesToCheck in
    if Nat.eqb (List.length supportedTypes) 0 then
      (alert "Your browser does not support any compatible video recording formats." s, None)
    else (s, Some supportedTypes).

Definition startRecording (P : Platform) (s : State) : State * bool :=
  match stream s with
  | None => (s, false)
  | Some h =>
      match checkRecordingCompatibility P s with
      | (s, None) => (s, false)
      | (s, Some []) => (s, false)
      | (s, Some (mimeType :: _)) =>
          (setRecording
             (Some (mkRecorder h (Some mimeType) (recorderMimeType P (Some mimeType)) true))
             [] true s, true)
      end
  end.

Definition stopRecording (s : State) : State * bool :=
  match mediaRecorder s with
  | Some r =>
      if isRecording s then
        (setRecording (Some (mkRecorder (mr_stream r) (mr_requested r) (mimeType r) false))
           (recordedChunks s) false s, true)
      else (s, false)
  | None => (s, false)
  end.

(** The [ondataavailable] handler. *)
Definition ondataavailable (data : Blob) (s : State) : State :=
  if hasData data then
    setRecording (mediaRecorder s) (recordedChunks s ++ [data]) (isRecording s) s
  else s.

(** The [onstop] handler calls [downloadRecording]. *)
Definition downloadRecording (P : Platform) (s : State) : State :=
  match recordedChunks s with
  | [] => s
  | first :: _ =>
      let blob := newBlob (recordedChunks s) (blob_type first) in
      let extension :=
        match String.index 0 "mp4" (blob_type blob) with
        | Some _ => "mp4"
        | None => "webm"
        end in
      mkState (stream s) (mediaRecorder s) [] (isRecording s) (currentCamera s)
        (streams s) (downloads s ++ [mkDownload blob extension (isIOS P)]) (alerts s)
  end.

(** [getRecordingState()]: [isRecording], [currentCamera], [hasStream]. *)
Definition getRecordingState (s : State) : bool * string * bool :=
  (isRecording s, currentCamera s,
   match stream s with Some _ => true | None => false end).

(** While the component is recording it has a recorder and a stream. *)
Definition recordingHasRecorder (v : State) : Prop :=
  isRecording v = true -> mediaRecorder v <> None /\ stream v <> None.

End VideoComponent.

(** ** [ScriptComponent]: the scrolling interface used by the controls *)

Module ScriptComponent.

Local Open Scope Q_scope.

(** [state.isScrolling], [state.currentSpeed], [scrollAnimation], the
    view's [scrollTop], and the animation-frame requests not yet
    served.  Settings and the resize handles are not part of this
    interface. *)
Record State := mkState {
  isScrolling : bool;
  currentSpeed : Q;
  scrollAnimation : option positive;
  scrollTop : Q;
  frames : gset positive;
  nextFrame : positive
}.

Definition ANIMATION_FPS : Q := 60.
Definition DEFAULT_SPEED : Q := 120.

Definition construct : State :=
  mkState false DEFAULT_SPEED None 0 ∅ 1%positive.

(** [this.scrollAnimation = requestAnimationFrame(startScrollAnimation)] *)
Definition requestFrame (s : State) : State :=
  mkState (isScrolling s) (currentSpeed s) (Some (nextFrame s)) (scrollTop s)
    ({[nextFrame s]} ∪ frames s) (Pos.succ (nextFrame s)).

Definition startScroll (s : State) : State :=
  if isScrolling s then s else
  requestFrame
    (mkState true (currentSpeed s) (scrollAnimation s) (scrollTop s)
       (frames s) (nextFrame s)).

Definition stopScroll (s : State) : State :=
  match scrollAnimation s with
  | Some id =>
      mkState false (currentSpeed s) None (scrollTop s)
        (frames s ∖ {[id]}) (nextFrame s)
  | None =>
      mkState false (currentSpeed s) None (scrollTop s) (frames s) (nextFrame s)
  end.

(** The body of [startScrollAnimation], for a view of the given
    [scrollHeight] and [clientHeight]. *)
Definition startScrollAnimation (scrollHeight clientHeight : Q) (s : State) : State :=
  if negb (isScrolling s) then s else
  if Qle_bool scrollHeight (scrollTop s + clientHeight) then stopScroll s else
  let pixelsPerFrame := currentSpeed s / ANIMATION_FPS in
  requestFrame
    (mkState (isScrolling s) (currentSpeed s) (scrollAnimation s)
       (scrollTop s + pixelsPerFrame) (frames s) (nextFrame s)).

(** The browser serves the frame request [id], if it is still pending. *)
Definition animationFrame (id : positive) (scrollHeight clientHeight : Q)
    (s : State) : State :=
  if decide (id ∈ frames s) then
    startScrollAnimation scrollHeight clientHeight
      (mkState (isScrolling s) (currentSpeed s) (scrollAnimation s) (scrollTop s)
         (frames s ∖ {[id]}) (nextFrame s))
  else s.

Definition startScrolling (s : State) : State := startScroll s.
Definition stopScrolling (s : State) : State := stopScroll s.

End ScriptComponent.

(** ** [ControlsComponent] and [VideoTeleprompterApp] *)

Module ControlsComponent.
Import Media.

(** The two components the controls hold. *)
Record State := mkState {
  videoComponent : VideoComponent.State;
  scriptComponent : ScriptComponent.State
}.

Definition toggleRecording (P : Platform) (s : State) : State :=
  let '(isRecording, _, hasStream) :=
    VideoComponent.getRecordingState (videoComponent s) in
  if negb hasStream then
    mkState (VideoComponent.alert "Please allow camera access first." (videoComponent s))
      (scriptComponent s)
  else if isRecording then
    let '(v, success) := VideoComponent.stopRecording (videoComponent s) in
    if success then mkState v (ScriptComponent.stopScrolling (scriptComponent s))
    else mkState v (scriptComponent s)
  else
    let '(v, success) := VideoComponent.startRecording P (videoComponent s) in
    if success then mkState v (ScriptComponent.startScrolling (scriptComponent s))
    else mkState v (scriptComponent s).

Definition switchCamera (acq : Acquire) (s : State) : State :=
  mkState (fst (VideoComponent.switchCamera acq (videoComponent s))) (scriptComponent s).

(** [getControlState().isRecording] *)
Definition isRecording (s : State) : bool :=
  VideoComponent.isRecording (videoComponent s).

(** The actions of [triggerAction] that reach the recorder and the
    camera. *)
Inductive Action :=
| ToggleRecordingAction
| SwitchCameraAction (acq : Acquire).

Definition triggerAction (P : Platform) (a : Action) (s : State) : State :=
  match a with
  | ToggleRecordingAction => toggleRecording P s
  | SwitchCameraAction acq => switchCamera acq s
  end.

(** The page of the component split as a state machine. *)
Definition construct (acq : Acquire) : State :=
  mkState (fst (VideoComponent.setupCamera acq VideoComponent.construct))
    ScriptComponent.construct.

Inductive Event :=
| RecordClick
| CameraClick (acq : Acquire)
| DataAvailable (data : Blob)
| RecorderStop
| AnimationFrame (id : positive) (scrollHeight clientHeight : Q).

Definition handle (P : Platform) (e : Event) (s : State) : State :=
  match e with
  | RecordClick => toggleRecording P s
  | CameraClick acq => switchCamera acq s
  | DataAvailable data =>
      mkState (VideoComponent.ondataavailable data (videoComponent s)) (scriptComponent s)
  | RecorderStop =>
      mkState (VideoComponent.downloadRecording P (videoComponent s)) (scriptComponent s)
  | AnimationFrame id sh ch =>
      mkState (videoComponent s) (ScriptComponent.animationFrame id sh ch (scriptComponent s))
  end.

Inductive reachable (P : Platform) : State -> Prop :=
| reachable_init acq : reachable P (construct acq)
| reachable_step s e : reachable P s -> reachable P (handle P e s).

End ControlsComponent.

Module VideoTeleprompterApp.
Import Media.

(** The public methods "for external control". *)
Definition startRecording (P : Platform) (s : ControlsComponent.State)
    : ControlsComponent.State :=
  ControlsComponent.triggerAction P ControlsComponent.ToggleRecordingAction s.

Definition stopRecording (P : Platform) (s : ControlsComponent.State)
    : ControlsComponent.State :=
  if ControlsComponent.isRecording s then
    ControlsComponent.triggerAction P ControlsComponent.ToggleRecordingAction s
  else s.

End VideoTeleprompterApp.

(** ** A sample page *)

Module Sample.
Import Media.

(** A browser that records [video/webm] only and reports the type it
    was asked for. *)
Definition webmOnly : Platform :=
  mkPlatform true (fun t => String.eqb t "video/webm")
    (fun o => match o with Some t => t | None => "video/webm" end) false.

(** A small phone: 320 by 568 CSS pixels. *)
Definition smallPhone : Geometry.Viewport := Geometry.mkViewport 320 568.

(** A desktop window. *)
Definition desktop : Geometry.Viewport := Geometry.mkViewport 1280 800.

(** A page whose script view overflows: 500 px of text in 100 px. *)
Definition overflowing : VideoTeleprompter.Layout := VideoTeleprompter.mkLayout 500 100.

(** The page after the constructor, with the script of the scenario,
    the slider at 120 and an empty store. *)
Definition fresh : VideoTeleprompter.State :=
  VideoTeleprompter.construct "one two three four" "120" "24" ∅.

(** The same page once [init] has obtained a camera stream with a video
    and an audio track. *)
Definition ready : VideoTeleprompter.State :=
  VideoTeleprompter.init webmOnly (Granted 2) 0 overflowing fresh.

Definition chunk (bytes : list Byte.byte) : Blob := mkBlob bytes "video/webm".

(** The page while recording: the record button was clicked at time
    1000. *)
Definition recording : VideoTeleprompter.State :=
  VideoTeleprompter.handle webmOnly
    (VideoTeleprompter.RecordClick Denied 1000 overflowing) ready.

(** The component page with a camera stream, and the same while
    recording. *)
Definition components : ControlsComponent.State :=
  ControlsComponent.construct (Granted 2).

Definition componentsRecording : ControlsComponent.State :=
  ControlsComponent.handle webmOnly ControlsComponent.RecordClick components.

End Sample.

(** ** Teardown: [VideoComponent.destroy] and the application's [destroy] *)

Module VideoComponentTeardown.
Import Media VideoComponent.

(** [destroy()]: the tracks of the held stream are stopped, and a
    running recording is stopped through [stopRecording]. *)
Definition destroy (s : State) : State :=
  let s := match stream s with
           | Some h =>
               mkState (stream s) (mediaRecorder s) (recordedChunks s) (isRecording s)
                 (currentCamera s) (alter stopTracks h (streams s)) (downloads s)
                 (alerts s)
           | None => s
           end in
  match mediaRecorder s with
  | Some _ => if isRecording s then fst (stopRecording s) else s
  | None => s
  end.

End VideoComponentTeardown.

Module VideoTeleprompterAppTeardown.

(** [destroy()] of the application calls [videoComponent.destroy()]
    and drops its three references; nothing is called on the script
    component, whose frame callback keeps it alive. *)
Definition destroy (s : ControlsComponent.State) : ControlsComponent.State :=
  ControlsComponent.mkState
    (VideoComponentTeardown.destroy (ControlsComponent.videoComponent s))
    (ControlsComponent.scriptComponent s).

End VideoTeleprompterAppTeardown.

(** ** The speed and size presets of [ControlsComponent] *)

Module ControlsPresets.

Local Open Scope Q_scope.








End ControlsPresets.

(** ** The resize handles of [ScriptComponent] *)

Module ScriptResize.

Local Open Scope Q_scope.

(** [resizeDirection]: ['bottom'], ['left'] or ['right']. *)
Inductive Direction := Bottom | Left | Right.

(** [CONSTANTS.RESIZE], computed once from the window the class is
    loaded in. *)
Record Limits := mkLimits {
  MIN_HEIGHT : Q; MAX_HEIGHT : Q; MIN_WIDTH : Q; MAX_WIDTH : Q; HANDLE_HEIGHT : Q
}.

Definition RESIZE (vp : Geometry.Viewport) : Limits :=
  mkLimits 150 (Geometry.innerHeight vp * (8 # 10)) 300
    (Geometry.innerWidth vp * (9 # 10)) 10.

(** The resize fields of [state], the inline sizes of the script box
    and of the script input in pixels ([None]: never written), and the
    number of times the settings were written. *)
Record State := mkState {
  isResizing : bool;
  initialHeight : Q;
  initialMouseY : Q;
  isResizingWidth : bool;
  initialWidth : Q;
  initialMouseX : Q;
  resizeDirection : option Direction;
  scriptBox_height : option Q;
  scriptBox_width : option Q;
  scriptInput_height : option Q;
  saves : nat
}.

Definition construct : State :=
  mkState false 0 0 false 0 0 None None None None 0.

(** [_startResize(e, direction)] *)
Definition startResize (e : Geometry.Pointer) (direction : Direction)
    (box : Geometry.Rect) (s : State) : State :=
  match direction with
  | Bottom =>
      mkState true (Geometry.offsetHeight box) (Geometry.clientY e)
        (isResizingWidth s) (initialWidth s) (initialMouseX s) (Some direction)
        (scriptBox_height s) (scriptBox_width s) (scriptInput_height s) (saves s)
  | _ =>
      mkState (isResizing s) (initialHeight s) (initialMouseY s)
        true (Geometry.offsetWidth box) (Geometry.clientX e) (Some direction)
        (scriptBox_height s) (scriptBox_width s) (scriptInput_height s) (saves s)
  end.

(** [_handleHeightResize(e)] *)
Definition handleHeightResize (L : Limits) (e : Geometry.Pointer) (s : State) : State :=
  let deltaY := Geometry.clientY e - initialMouseY s in
  let newHeight := Qmax (MIN_HEIGHT L) (Qmin (MAX_HEIGHT L) (initialHeight s + deltaY)) in
  let inputHeight := newHeight - HANDLE_HEIGHT L in
  mkState (isResizing s) (initialHeight s) (initialMouseY s)
    (isResizingWidth s) (initialWidth s) (initialMouseX s) (resizeDirection s)
    (Some newHeight) (scriptBox_width s) (Some inputHeight) (saves s).

(** [resizeDirection === 'right'] *)
Definition isRight (d : option Direction) : bool :=
  match d with Some Right => true | _ => false end.

(** [resizeDirection === 'bottom'] *)
Definition isBottom (d : option Direction) : bool :=
  match d with Some Bottom => true | _ => false end.

(** [_handleWidthResize(e)] *)
Definition handleWidthResize (L : Limits) (e : Geometry.Pointer) (s : State) : State :=
  let deltaX := Geometry.clientX e - initialMouseX s in
  let newWidth :=
    if isRight (resizeDirection s) then initialWidth s + deltaX
    else initialWidth s - deltaX in
  let newWidth := Qmax (MIN_WIDTH L) (Qmin (MAX_WIDTH L) newWidth) in
  mkState (isResizing s) (initialHeight s) (initialMouseY s)
    (isResizingWidth s) (initialWidth s) (initialMouseX s) (resizeDirection s)
    (scriptBox_height s) (Some newWidth) (scriptInput_height s) (saves s).

(** [_handleResize(e)], the [mousemove] listener. *)
Definition handleResize (L : Limits) (e : Geometry.Pointer) (s : State) : State :=
  if negb (isResizing s) && negb (isResizingWidth s) then s else
  if isResizing s && isBottom (resizeDirection s) then handleHeightResize L e s
  else if isResizingWidth s then handleWidthResize L e s
  else s.

(** [_stopResize(e)], the [mouseup] listener. *)
Definition stopResize (s : State) : State :=
  if negb (isResizing s) && negb (isResizingWidth s) then s else
  mkState false (initialHeight s) (initialMouseY s)
    false (initialWidth s) (initialMouseX s) None
    (scriptBox_height s) (scriptBox_width s) (scriptInput_height s) (S (saves s)).

End ScriptResize.

(** ** The service worker ([service-worker.js]) *)

Module ServiceWorker.

(** What the worker reads of a response and of a request.  A request
    is matched against a cache by its URL. *)
Record Response := mkResponse { status : nat; type : string; body : string }.

Record Request := mkRequest { method : string; url : string; destination : string }.

(** A cache maps request URLs to responses; the cache storage keeps its
    caches in the order they were created, which is the order
    [caches.match] goes through them. *)
Definition Cache := gmap string Response.
Definition CacheStorage := list (string * Cache).

(** The network at the time of an event: what [fetch] resolves to for a
    URL, [None] when it rejects. *)
Definition Network := string -> option Response.

(** [location] of the worker. *)
Record Location := mkLocation { hostname : string; origin : string }.

Definition CACHE_NAME : string := "teleprompter-v1.0.0".

Definition BASE_PATH (loc : Location) : string :=
  if String.eqb (hostname loc) "localhost" || String.eqb (hostname loc) "127.0.0.1"
  then "" else "/video-prompter".

Definition STATIC_ASSETS (loc : Location) : list string :=
  [ BASE_PATH loc ++ "/";
    BASE_PATH loc ++ "/index.html";
    BASE_PATH loc ++ "/styles.css";
    BASE_PATH loc ++ "/app.js";
    BASE_PATH loc ++ "/components/DragHandler.js";
    BASE_PATH loc ++ "/components/ResizeHandler.js";
    BASE_PATH loc ++ "/components/TouchHandler.js";
    BASE_PATH loc ++ "/components/VideoComponent.js";
    BASE_PATH loc ++ "/components/ScriptComponent.js";
    BASE_PATH loc ++ "/components/ControlsComponent.js";
    BASE_PATH loc ++ "/manifest.json" ].

(** A path given to the cache API is resolved against the worker's
    origin. *)
Definition resolve (loc : Location) (path : string) : string := origin loc ++ path.

(** [caches.keys()] *)
Definition keys (cs : CacheStorage) : list string := List.map fst cs.

(** [caches.has(name)] *)
Definition has (name : string) (cs : CacheStorage) : bool :=
  existsb (String.eqb name) (keys cs).

(** [caches.open(name)] creates the cache when there is none. *)
Definition open (name : string) (cs : CacheStorage) : CacheStorage :=
  if has name cs then cs else (cs ++ [(name, ∅)])%list.

(** [cache.put(request, response)] on the cache [name]. *)
Fixpoint putIn (name u : string) (r : Response) (cs : CacheStorage) : CacheStorage :=
  match cs with
  | [] => []
  | (n, c) :: rest =>
      if String.eqb n name then (n, <[u := r]> c) :: rest
      else (n, c) :: putIn name u r rest
  end.

Definition put (name u : string) (r : Response) (cs : CacheStorage) : CacheStorage :=
  putIn name u r (open name cs).

(** [caches.delete(name)] *)
Definition delete (name : string) (cs : CacheStorage) : CacheStorage :=
  List.filter (fun nc => negb (String.eqb (fst nc) name)) cs.

(** [caches.match(request)]: the first cache, in creation order, that
    has the URL answers. *)
Fixpoint matchAll (u : string) (cs : CacheStorage) : option Response :=
  match cs with
  | [] => None
  | (_, c) :: rest =>
      match c !! u with
      | Some r => Some r
      | None => matchAll u rest
      end
  end.

(** [response.ok] *)
Definition ok (r : Response) : bool :=
  Nat.leb 200 (status r) && Nat.leb (status r) 299.

(** The fetches of [cache.addAll]: all of them must resolve to an [ok]
    response, otherwise [addAll] rejects and stores nothing. *)
Fixpoint fetchAll (net : Network) (urls : list string) : option (list (string * Response)) :=
  match urls with
  | [] => Some []
  | u :: rest =>
      match net u with
      | Some r =>
          if ok r then
            match fetchAll net rest with
            | Some entries => Some ((u, r) :: entries)
            | None => None
            end
          else None
      | None => None
      end
  end.

(** The [install] listener; a rejection of [addAll] is caught. *)
Definition install (loc : Location) (net : Network) (cs : CacheStorage) : CacheStorage :=
  let cs := open CACHE_NAME cs in
  match fetchAll net (List.map (resolve loc) (STATIC_ASSETS loc)) with
  | Some entries => fold_left (fun cs e => putIn CACHE_NAME (fst e) (snd e) cs) entries cs
  | None => cs
  end.

(** The [activate] listener: every cache listed by [caches.keys()]
    whose name is not [CACHE_NAME] is deleted. *)
Definition activate (cs : CacheStorage) : CacheStorage :=
  fold_left
    (fun cs cacheName =>
       if negb (String.eqb cacheName CACHE_NAME) then delete cacheName cs else cs)
    (keys cs) cs.

(** What the page gets for a request: the worker does not call
    [respondWith] and the browser handles the request itself, or the
    worker answers, or its answer is a network error. *)
Inductive Reply :=
| NotHandled
| Respond (r : Response)
| Failed.

(** The [fetch] listener. *)
Definition onfetch (loc : Location) (net : Network) (req : Request)
    (cs : CacheStorage) : Reply * CacheStorage :=
  if negb (String.eqb (method req) "GET") then (NotHandled, cs) else
  if negb (String.prefix "http" (url req)) then (NotHandled, cs) else
  match matchAll (url req) cs with
  | Some cachedResponse => (Respond cachedResponse, cs)
  | None =>
      match net (url req) with
      | Some response =>
          if negb (Nat.eqb (status response) 200)
             || negb (String.eqb (type response) "basic")
          then (Respond response, cs)
          else (Respond response, put CACHE_NAME (url req) response cs)
      | None =>
          if String.eqb (destination req) "document" then
            (match matchAll (resolve loc "/index.html") cs with
             | Some r => Respond r
             | None => Failed
             end, cs)
          else (Failed, cs)
      end
  end.

(** [cacheName === CACHE_NAME] for an entry of the storage. *)
Definition isCurrent (nc : string * Cache) : bool := String.eqb (fst nc) CACHE_NAME.

(** The cache of a given name, if it exists. *)
Fixpoint cacheNamed (name : string) (cs : CacheStorage) : option Cache :=
  match cs with
  | [] => None
  | (n, c) :: rest => if String.eqb n name then Some c else cacheNamed name rest
  end.

End ServiceWorker.

(** ** Recording in the second copy of [VideoTeleprompter] *)

Module VideoTeleprompterV2Recorder.
Import Media.

(** The second copy has the recorder and scroller fields of the first
    (its [startScrolling] and [stopScrolling] are the same text), no
    camera choice and no rotation, and reports through a status line
    instead of alerts.  Its state is the state of the first copy, of
    which [currentCamera], [isTextRotated] and [alerts] are not used,
    and the status text. *)
Record State := mkState {
  page : VideoTeleprompter.State;
  statusText : string
}.

Definition updateStatus (message : string) (s : State) : State :=
  mkState (page s) message.

(** [setupCamera]: the stream is requested and stored; a stream held
    before is not stopped.  A rejection is thrown to the caller. *)
Definition setupCamera (acq : Acquire) (p : VideoTeleprompter.State)
    : VideoTeleprompter.Outcome :=
  VideoTeleprompter.setupCamera_resume acq p.

Definition requestedType : string := "video/webm;codecs=vp9,opus".

(** [new MediaRecorder(stream, { mimeType })] throws when there is no
    [MediaRecorder] or when the type is not supported. *)
Definition canConstruct (P : Platform) : bool :=
  hasMediaRecorder P && isTypeSupported P requestedType.

Definition startRecording (P : Platform) (acq : Acquire) (now : Q)
    (lay : VideoTeleprompter.Layout) (s : State) : State :=
  let r := match VideoTeleprompter.stream (page s) with
           | None => setupCamera acq (page s)
           | Some _ => VideoTeleprompter.Returned (page s)
           end in
  match r with
  | VideoTeleprompter.Threw p => mkState p "Recording failed"
  | VideoTeleprompter.Returned p =>
      let p := VideoTeleprompter.set_recordedChunks [] p in
      if negb (canConstruct P) then mkState p "Recording failed" else
      match VideoTeleprompter.stream p with
      | None => mkState p "Recording failed"
      | Some h =>
          let p := VideoTeleprompter.set_mediaRecorder
                     (Some (VideoTeleprompter.newRecorder P h (Some requestedType))) p in
          let p := VideoTeleprompter.set_isRecording true p in
          mkState (VideoTeleprompter.startScrolling now lay p) "Recording"
      end
  end.

Definition stopRecording (s : State) : State :=
  match VideoTeleprompter.mediaRecorder (page s) with
  | Some r =>
      if VideoTeleprompter.isRecording (page s) then
        let p := VideoTeleprompter.set_mediaRecorder
                   (Some (VideoTeleprompter.stopRecorder r)) (page s) in
        let p := VideoTeleprompter.set_isRecording false p in
        mkState (VideoTeleprompter.stopScrolling p) "Processing..."
      else s
  | None => s
  end.

Definition toggleRecording (P : Platform) (acq : Acquire) (now : Q)
    (lay : VideoTeleprompter.Layout) (s : State) : State :=
  if VideoTeleprompter.isRecording (page s) then stopRecording s
  else startRecording P acq now lay s.

(** The [onstop] handler: the chunks are saved as they are, as
    [video/webm], to a [.webm] file. *)
Definition saveRecording (s : State) : State :=
  let blob := newBlob (VideoTeleprompter.recordedChunks (page s)) "video/webm" in
  mkState
    (VideoTeleprompter.set_downloads
       (VideoTeleprompter.downloads (page s) ++ [mkDownload blob "webm" false])%list
       (page s))
    "Recording saved".

End VideoTeleprompterV2Recorder.

(** ** Conditions on pages *)

Module Conditions.
Import Media.

(** The scroller of the single-class page is on only while a recording
    is running. *)
Definition scrollsWhileRecording (s : VideoTeleprompter.State) : Prop :=
  VideoTeleprompter.isScrolling s = true -> VideoTeleprompter.isRecording s = true.

(** A file sent to download holds bytes, has a type, and is named
    [.mp4] or [.webm]. *)
Definition playable (d : Download) : Prop :=
  0 < size (dl_blob d)
  /\ blob_type (dl_blob d) <> ""
  /\ (dl_extension d = "mp4" \/ dl_extension d = "webm").



(** The sizes written by the resize handles of [ScriptComponent] are
    within the limits [L], and the input is as much lower than the box
    as the bottom handle is high. *)
Definition sized (L : ScriptResize.Limits) (s : ScriptResize.State) : Prop :=
  (forall h, ScriptResize.scriptBox_height s = Some h ->
     (ScriptResize.MIN_HEIGHT L <= h)%Q
     /\ ((ScriptResize.MIN_HEIGHT L <= ScriptResize.MAX_HEIGHT L)%Q ->
         (h <= ScriptResize.MAX_HEIGHT L)%Q)
     /\ ScriptResize.scriptInput_height s = Some (h - ScriptResize.HANDLE_HEIGHT L)%Q)
  /\ (forall w, ScriptResize.scriptBox_width s = Some w ->
        (ScriptResize.MIN_WIDTH L <= w)%Q
        /\ ((ScriptResize.MIN_WIDTH L <= ScriptResize.MAX_WIDTH L)%Q ->
            (w <= ScriptResize.MAX_WIDTH L)%Q)).

(** Two style values are both unwritten, or both written with equal
    numbers. *)
Definition eqStyle (a b : option Q) : Prop :=
  match a, b with
  | Some x, Some y => (x == y)%Q
  | None, None => True
  | _, _ => False
  end.

(** [a <= b] on style values that are both written or both unwritten. *)
Definition leStyle (a b : option Q) : Prop :=
  match a, b with
  | Some x, Some y => (x <= y)%Q
  | None, None => True
  | _, _ => False
  end.

End Conditions.

(** ** Further sample pages *)

Module Cases.
Import Media.

(** A browser without [MediaRecorder]. *)
Definition noRecorder : Platform :=
  mkPlatform false (fun _ => false) (fun _ => "") false.

(** The sample page while it scrolls, and a page whose camera was
    refused at start-up. *)
Definition refused : VideoTeleprompter.State :=
  VideoTeleprompter.init Sample.webmOnly Denied 0 Sample.overflowing Sample.fresh.

(** A page with a blank script. *)
Definition blank : VideoTeleprompter.State :=
  VideoTeleprompter.init Sample.webmOnly (Granted 2) 0 Sample.overflowing
    (VideoTeleprompter.construct "  " "120" "24" ∅).



(** A deployed worker and a local one. *)
Definition deployed : ServiceWorker.Location :=
  ServiceWorker.mkLocation "example.github.io" "https://example.github.io".

Definition local : ServiceWorker.Location :=
  ServiceWorker.mkLocation "localhost" "http://localhost:8080".

(** A network that serves every URL with its own text. *)
Definition online : ServiceWorker.Network :=
  fun u => Some (ServiceWorker.mkResponse 200 "basic" u).

Definition offline : ServiceWorker.Network := fun _ => None.

End Cases.

(** * Properties *)

(** Case analysis on the tests a method makes. *)
Ltac cases :=
  repeat match goal with
    | |- context [if ?b then _ else _] => destruct b eqn:?
    | |- context [match ?x with _ => _ end] => destruct x eqn:?
    end.

(** ** Words *)

Section WordCount.
Import Text.

Lemma wordStarts_true (s : string) :
  wordStarts true s = ((if headIsWord s then 1 else 0) + wordStarts false s)%nat.
Proof.
  destruct s as [|c s']; simpl; [reflexivity|].
  destruct (isWhiteSpace c); reflexivity.
Qed.

Lemma tokenCount_trimStart (s : string) : tokenCount (trimStart s) = tokenCount s.
Proof.
  unfold tokenCount. induction s as [|c s' IH]; simpl; [reflexivity|].
  destruct (isWhiteSpace c) eqn:Hc; [exact IH|].
  simpl. rewrite Hc. reflexivity.
Qed.

Lemma wordStarts_trimEnd (s : string) :
  forall b, wordStarts b (trimEnd s) = wordStarts b s.
Proof.
  induction s as [|c s' IH]; intros b; simpl; [reflexivity|].
  destruct (trimEnd s') as [|c' t] eqn:Ht.
  - destruct (isWhiteSpace c) eqn:Hc; simpl.
    + rewrite <- IH. reflexivity.
    + rewrite Hc, <- IH. reflexivity.
  - cbn [wordStarts]. rewrite <- (IH true), <- (IH false). reflexivity.
Qed.

(** The pieces of [splitWs]: the first one is non-empty exactly when
    the text starts with a word, and the others are the words that
    start after the first white space. *)
Lemma splitWs_shape (s : string) :
  exists t r, splitWs s = t :: r
    /\ nonEmpty t = headIsWord s
    /\ List.length (List.filter nonEmpty r) = wordStarts false s.
Proof.
  induction s as [|c s' IH]; simpl.
  - exists EmptyString, []. repeat split.
  - destruct IH as (t & r & Hs & Ht & Hr).
    destruct (isWhiteSpace c) eqn:Hc; simpl.
    + destruct (startsWithWs s') eqn:Hw.
      * exists t, r. rewrite Hs. split; [reflexivity|].
        destruct s' as [|c' s'']; simpl in *; [discriminate|].
        rewrite Hw in *. simpl in Ht. split; [exact Ht|]. exact Hr.
      * exists EmptyString, (t :: r). rewrite Hs. split; [reflexivity|].
        split; [reflexivity|].
        simpl. rewrite (wordStarts_true s'), <- Hr, Ht.
        assert (Hh : headIsWord s' = true \/ s' = EmptyString).
        { destruct s' as [|c' s'']; [right; reflexivity|left].
          simpl in *. rewrite Hw. reflexivity. }
        destruct (headIsWord s') eqn:Hhead; simpl; [reflexivity|].
        reflexivity.
    + rewrite Hs. exists (String c t), r. repeat split. exact Hr.
Qed.

(** The count the code arrives at is the number of words of the
    untrimmed text. *)
Lemma wordCount_trim (s : string) : wordCount (trim s) = tokenCount s.
Proof.
  unfold wordCount, trim.
  destruct (splitWs_shape (trimEnd (trimStart s))) as (t & r & Hs & Ht & Hr).
  rewrite Hs. simpl. rewrite <- tokenCount_trimStart. unfold tokenCount.
  rewrite <- (wordStarts_trimEnd (trimStart s) true), wordStarts_true, <- Hr, Ht.
  destruct (headIsWord (trimEnd (trimStart s))); reflexivity.
Qed.

Lemma trim_nonempty (s : string) :
  (0 < tokenCount s)%nat -> Js.isEmptyStr (trim s) = false.
Proof.
  intros H. rewrite <- wordCount_trim in H.
  destruct (trim s); [cbv in H; lia | reflexivity].
Qed.

End WordCount.

(** ** Autoscroll duration *)

Section ScrollDuration.
Import Text Num Js Media VideoTeleprompter.
Local Open Scope Q_scope.





Lemma startScrolling_on (s : State) (now : Q) (lay : Layout) :
  isEmptyStr (trim (scriptInput_value s)) = false ->
  isScrolling (startScrolling now lay s) = true.
Proof.
  intros He. unfold startScrolling.
  destruct (isScrolling s) eqn:Hs; [exact Hs|]. rewrite He.
  destruct (Qle_bool (scrollHeight lay - clientHeight lay) 0); reflexivity.
Qed.




End ScrollDuration.

(** ** Recording: the chunk sequence and the saved file *)

Section Recording.
Import Text Num Js Media VideoTeleprompter.
Local Open Scope list_scope.

Variable P : Platform.

(** What recording keeps of the state when the scroller runs. *)
Lemma startScrolling_recording (now : Q) (lay : Layout) (s : State) :
  let s' := startScrolling now lay s in
  mediaRecorder s' = mediaRecorder s /\ recordedChunks s' = recordedChunks s
  /\ isRecording s' = isRecording s /\ downloads s' = downloads s
  /\ stream s' = stream s /\ streams s' = streams s /\ alerts s' = alerts s.
Proof. unfold startScrolling, setInterval. cases; simpl; repeat split. Qed.

Lemma stopScrolling_recording (s : State) :
  let s' := stopScrolling s in
  mediaRecorder s' = mediaRecorder s /\ recordedChunks s' = recordedChunks s
  /\ isRecording s' = isRecording s /\ downloads s' = downloads s
  /\ stream s' = stream s /\ streams s' = streams s /\ alerts s' = alerts s.
Proof. unfold stopScrolling, clearInterval. cases; simpl; repeat split. Qed.

(** A start with the camera at hand: the chunk sequence is emptied and
    a recorder is created on the held stream with the probed type. *)
Lemma startRecording_ready (acq : Acquire) (now : Q) (lay : Layout) (s : State) :
  canRecord P acq s = true ->
  let s' := startRecording P acq now lay s in
  exists h,
    stream s' = Some h
    /\ mediaRecorder s' = Some (newRecorder P h (recorderOptions (probeMimeType P)))
    /\ recordedChunks s' = []
    /\ isRecording s' = true
    /\ downloads s' = downloads s.
Proof.
  unfold canRecord, startRecording. intros H.
  apply andb_prop in H. destruct H as [HP H]. rewrite HP. cbn [negb].
  destruct (stream s) as [h|] eqn:Hst.
  - simpl. rewrite Hst.
    destruct (startScrolling_recording now lay
      (set_isRecording true
         (set_mediaRecorder (Some (newRecorder P h (recorderOptions (probeMimeType P))))
            (set_recordedChunks [] s)))) as (-> & -> & -> & -> & -> & _).
    exists h. simpl. rewrite Hst. repeat split.
  - destruct acq as [n|]; [|discriminate].
    unfold setupCamera, setupCamera_request, setupCamera_resume. rewrite Hst. simpl.
    match goal with |- context [startScrolling now lay ?x] =>
      destruct (startScrolling_recording now lay x) as (-> & -> & -> & -> & -> & _)
    end.
    eexists. simpl. repeat split.
Qed.

(** Data events only append to the chunk sequence, in order, and skip
    the events that carry no bytes. *)
Lemma deliver_spec (data : list Blob) (s : State) :
  let s' := deliver data s in
  recordedChunks s' = recordedChunks s ++ List.filter hasData data
  /\ mediaRecorder s' = mediaRecorder s /\ isRecording s' = isRecording s
  /\ downloads s' = downloads s /\ scrollInterval s' = scrollInterval s
  /\ timers s' = timers s /\ isScrolling s' = isScrolling s.
Proof.
  revert s. induction data as [|b data IH]; intros s; simpl.
  - rewrite app_nil_r. repeat split.
  - destruct (IH (ondataavailable b s)) as (H1 & H2 & H3 & H4 & H5 & H6 & H7).
    unfold deliver in *. simpl.
    rewrite H1, H2, H3, H4, H5, H6, H7. unfold ondataavailable.
    destruct (hasData b); simpl; [|repeat split].
    rewrite <- app_assoc. repeat split.
Qed.

(** Leaving out empty chunks does not change the concatenation. *)
Lemma concat_hasData (l : list Blob) :
  List.concat (List.map blob_bytes (List.filter hasData l))
  = List.concat (List.map blob_bytes l).
Proof.
  induction l as [|b l IH]; simpl; [reflexivity|].
  unfold hasData at 1, size.
  destruct (blob_bytes b) as [|x bs] eqn:Hb; simpl.
  - exact IH.
  - rewrite Hb, IH. reflexivity.
Qed.

Lemma stopRecording_recording (s : State) (r : MediaRecorder) :
  mediaRecorder s = Some r -> isRecording s = true ->
  let s' := stopRecording s in
  mediaRecorder s' = Some (stopRecorder r) /\ recordedChunks s' = recordedChunks s
  /\ isRecording s' = false /\ downloads s' = downloads s.
Proof.
  intros Hr Hon. unfold stopRecording. rewrite Hr, Hon.
  match goal with |- context [stopScrolling ?x] =>
    destruct (stopScrolling_recording x) as (-> & -> & -> & -> & _)
  end.
  repeat split.
Qed.

(** The page just before the recorder's stop event of a session. *)
Lemma session_before_stop (acq : Acquire) (now : Q) (lay : Layout)
    (during flushed : list Blob) (s : State) :
  canRecord P acq s = true ->
  let s1 := deliver flushed
              (stopRecording (deliver during (startRecording P acq now lay s))) in
  recordedChunks s1 = List.filter hasData (during ++ flushed)
  /\ mediaRecorder s1
     = option_map stopRecorder (mediaRecorder (startRecording P acq now lay s))
  /\ downloads s1 = downloads s.
Proof.
  intros Hready.
  destruct (startRecording_ready acq now lay s Hready) as (h & _ & Hr & Hc & Hon & Hd).
  destruct (deliver_spec during (startRecording P acq now lay s))
    as (Hc1 & Hr1 & Hon1 & Hd1 & _).
  rewrite Hc in Hc1. rewrite Hon in Hon1. rewrite Hd in Hd1.
  pose proof Hr1 as Hr1'. rewrite Hr in Hr1'.
  destruct (stopRecording_recording _ _ Hr1' Hon1) as (Hr2 & Hc2 & _ & Hd2).
  destruct (deliver_spec flushed
              (stopRecording (deliver during (startRecording P acq now lay s))))
    as (Hc3 & Hr3 & _ & Hd3 & _).
  cbv zeta. rewrite Hc3, Hr3, Hd3, Hc2, Hr2, Hd2, Hc1, Hd1, Hr.
  rewrite List.filter_app. repeat split.
Qed.


(** [saveRecording] on a chunk sequence that holds bytes: one file is
    sent to download, made of the chunks in order and tagged with the
    type [outputType] gives. *)
Lemma saveRecording_download (s : State) :
  List.concat (List.map blob_bytes (recordedChunks s)) <> [] ->
  downloads (saveRecording P s)
  = downloads s
    ++ [mkDownload
          (mkBlob (List.concat (List.map blob_bytes (recordedChunks s)))
             (fst (outputType (mediaRecorder s))))
          (snd (outputType (mediaRecorder s))) (isIOS P)].
Proof.
  intros Hne. unfold saveRecording.
  destruct (recordedChunks s) as [|c cs] eqn:Hc; [exfalso; apply Hne; reflexivity|].
  cbn [List.length Nat.eqb].
  destruct (outputType (mediaRecorder s)) as [ty ext]. cbn [fst snd].
  unfold newBlob, size. cbn [blob_bytes].
  destruct (List.concat (List.map blob_bytes (c :: cs))) as [|x xs] eqn:Hb;
    [exfalso; apply Hne; reflexivity|].
  reflexivity.
Qed.



End Recording.

Section RecordingWitness.
Import Media VideoTeleprompter.
Local Open Scope list_scope.


End RecordingWitness.

(** ** Recording: the MIME type *)

Section MimeType.
Import Text Num Js Media VideoTeleprompter.
Local Open Scope list_scope.

Variable P : Platform.

(** The nested tests pick the first supported type of [probeOrder]. *)
Lemma probeMimeType_first :
  recorderOptions (probeMimeType P) = List.find (isTypeSupported P) probeOrder.
Proof.
  unfold probeMimeType, probeOrder. simpl.
  repeat match goal with
    | |- context [if isTypeSupported P ?t then _ else _] =>
        destruct (isTypeSupported P t)
    end; reflexivity.
Qed.

Lemma outputType_reported (r : MediaRecorder) :
  mimeType r <> "" -> fst (outputType (Some r)) = mimeType r.
Proof.
  intros H. unfold outputType.
  destruct (mimeType r) eqn:E; [congruence|]. reflexivity.
Qed.

(** C3: the recorder is created with the first supported type of the
    probe, in the order the code tests them; when only [video/webm]
    passes the test it is created with [video/webm]; and the file
    saved at the end of the session carries the type the recorder
    reports, whatever was requested. *)
Theorem recorder_mime_type (acq : Acquire) (now : Q) (lay : Layout)
    (during flushed : list Blob) (s : State) :
  canRecord P acq s = true ->
  exists r,
    mediaRecorder (startRecording P acq now lay s) = Some r
    /\ mr_requested r = List.find (isTypeSupported P) probeOrder
    /\ mimeType r = recorderMimeType P (mr_requested r)
    /\ (isTypeSupported P "video/webm;codecs=vp9,opus" = false ->
        isTypeSupported P "video/mp4" = false ->
        isTypeSupported P "video/webm;codecs=vp8,opus" = false ->
        isTypeSupported P "video/webm" = true ->
        mr_requested r = Some "video/webm")
    /\ (List.concat (List.map blob_bytes (during ++ flushed)) <> [] ->
        mimeType r <> "" ->
        exists d,
          downloads (session P acq now lay during flushed s) = downloads s ++ [d]
          /\ blob_type (dl_blob d) = mimeType r).
Proof.
  intros Hready.
  destruct (startRecording_ready P acq now lay s Hready) as (h & _ & Hr & _).
  exists (newRecorder P h (recorderOptions (probeMimeType P))).
  split; [exact Hr|]. cbn [newRecorder mr_requested mimeType].
  split; [apply probeMimeType_first|].
  split; [reflexivity|].
  split.
  - intros H1 H2 H3 H4. rewrite probeMimeType_first. simpl.
    rewrite H1, H2, H3, H4. reflexivity.
  - intros Hne Hm. unfold session.
    destruct (session_before_stop P acq now lay during flushed s Hready)
      as (Hc & Hr' & Hd).
    rewrite Hr in Hr'. cbn [option_map] in Hr'.
    rewrite saveRecording_download; [|rewrite Hc, concat_hasData; exact Hne].
    rewrite Hd, Hr'. eexists. split; [reflexivity|]. cbn [dl_blob blob_type].
    exact (outputType_reported
             (stopRecorder (newRecorder P h (recorderOptions (probeMimeType P)))) Hm).
Qed.

End MimeType.

(** ** Invariants of the page *)

Section Invariants.
Import Text Num Js Media VideoTeleprompter.
Local Open Scope list_scope.

Variable P : Platform.

(** *** The scroller *)

Lemma ScrollInv_same (s s' : State) :
  timers s' = timers s -> scrollInterval s' = scrollInterval s ->
  isScrolling s' = isScrolling s -> ScrollInv s -> ScrollInv s'.
Proof. unfold ScrollInv. intros -> -> ->. exact id. Qed.

Lemma ScrollInv_no_timer (s : State) :
  ScrollInv s -> scrollInterval s = None -> timers s = ∅.
Proof.
  intros [Ht _] Hn. apply map_empty. intros id.
  destruct (timers s !! id) as [job|] eqn:E; [|reflexivity].
  apply Ht in E. congruence.
Qed.

Lemma ScrollInv_one_timer (s : State) (id : positive) :
  ScrollInv s -> scrollInterval s = Some id -> delete id (timers s) = ∅.
Proof.
  intros [Ht _] Hi. apply map_empty. intros id'.
  destruct (decide (id = id')) as [<-|Hne]; [apply lookup_delete_eq|].
  rewrite lookup_delete_ne by exact Hne.
  destruct (timers s !! id') as [job|] eqn:E; [|reflexivity].
  apply Ht in E. congruence.
Qed.

Lemma startScrolling_ScrollInv (now : Q) (lay : Layout) (s : State) :
  ScrollInv s -> ScrollInv (startScrolling now lay s).
Proof.
  intros Hinv. unfold startScrolling.
  destruct (isScrolling s) eqn:Hs; [exact Hinv|].
  destruct (isEmptyStr (trim (scriptInput_value s))); [exact Hinv|].
  destruct Hinv as [Ht Hidle]. specialize (Hidle Hs).
  destruct (negb (Qle_bool (scrollHeight lay - clientHeight lay) 0)); simpl.
  - split; simpl; [|discriminate].
    intros id job. rewrite Hidle.
    destruct (decide (nextTimer s = id)) as [<-|Hne]; [reflexivity|].
    rewrite lookup_insert_ne by exact Hne. rewrite lookup_empty. discriminate.
  - split; simpl; [exact Ht|discriminate].
Qed.

Lemma stopScrolling_ScrollInv (s : State) :
  ScrollInv s -> ScrollInv (stopScrolling s).
Proof.
  intros Hinv. unfold stopScrolling. simpl.
  destruct (scrollInterval s) as [id|] eqn:Hi; simpl.
  - rewrite (ScrollInv_one_timer s id Hinv Hi).
    split; simpl; [intros ? ?; rewrite lookup_empty; discriminate | reflexivity].
  - split; simpl; rewrite (ScrollInv_no_timer s Hinv Hi);
      [intros ? ?; rewrite lookup_empty; discriminate | reflexivity].
Qed.

Lemma fireTimer_ScrollInv (id : positive) (now : Q) (s : State) :
  ScrollInv s -> ScrollInv (fireTimer id now s).
Proof.
  intros Hinv. unfold fireTimer.
  destruct (timers s !! id) as [job|]; [|exact Hinv].
  unfold scrollTick.
  match goal with |- context [if ?b then _ else _] => destruct b end.
  - unfold clearInterval. simpl.
    destruct (scrollInterval s) as [i|] eqn:Hi; simpl.
    + rewrite (ScrollInv_one_timer s i Hinv Hi). destruct Hinv as [_ Hidle].
      split; simpl; [intros ? ?; rewrite lookup_empty; discriminate|reflexivity].
    + apply (ScrollInv_same s); [reflexivity..|exact Hinv].
  - apply (ScrollInv_same s); [reflexivity..|exact Hinv].
Qed.

Ltac scroll_steps s :=
  repeat first [ apply startScrolling_ScrollInv
               | apply stopScrolling_ScrollInv
               | apply fireTimer_ScrollInv ];
  try (apply (ScrollInv_same s); [reflexivity..|assumption]).

Lemma handle_ScrollInv (e : Event) (s : State) :
  ScrollInv s -> ScrollInv (handle P e s).
Proof.
  intros Hinv.
  destruct e; try match goal with acq : Acquire |- _ => destruct acq end;
    unfold handle, toggleRecording, stopRecording, startRecording,
    toggleTextRotation, switchCamera, setupCamera, setupCamera_request,
    setupCamera_resume, updateSpeedDisplay, saveSettings, ondataavailable,
    saveRecording, alert;
    repeat (cases; cbn -[startScrolling stopScrolling fireTimer]);
    scroll_steps s.
Qed.

(** Loading the settings touches the inputs, the camera choice and the
    rotation flag only. *)
Lemma applySettings_frame (settings : JsVal) (s : State) :
  let s' := applySettings settings s in
  timers s' = timers s /\ scrollInterval s' = scrollInterval s
  /\ isScrolling s' = isScrolling s /\ recordedChunks s' = recordedChunks s
  /\ isRecording s' = isRecording s /\ mediaRecorder s' = mediaRecorder s
  /\ streams s' = streams s /\ stream s' = stream s.
Proof.
  unfold applySettings.
  destruct (truthy (get settings "scriptText")),
    (truthy (get settings "scrollSpeed")), (truthy (get settings "textSize")),
    (truthy (get settings "currentCamera")), (truthy (get settings "isTextRotated"));
    repeat split.
Qed.

Lemma loadSettings_frame (s : State) :
  let s' := loadSettings s in
  timers s' = timers s /\ scrollInterval s' = scrollInterval s
  /\ isScrolling s' = isScrolling s /\ recordedChunks s' = recordedChunks s
  /\ isRecording s' = isRecording s /\ mediaRecorder s' = mediaRecorder s
  /\ streams s' = streams s /\ stream s' = stream s.
Proof.
  unfold loadSettings.
  destruct (absent (localStorage s !! settingsKey)); [repeat split|].
  destruct (localStorage s !! settingsKey ≫= JSON_parse); [|repeat split].
  apply applySettings_frame.
Qed.

Lemma checkCompatibility_frame (s : State) :
  let s' := checkCompatibility P s in
  timers s' = timers s /\ scrollInterval s' = scrollInterval s
  /\ isScrolling s' = isScrolling s /\ recordedChunks s' = recordedChunks s
  /\ isRecording s' = isRecording s /\ mediaRecorder s' = mediaRecorder s
  /\ streams s' = streams s /\ stream s' = stream s.
Proof. unfold checkCompatibility, alert. cases; repeat split. Qed.

Lemma setupCamera_frame (acq : Acquire) (s : State) :
  let s' := match setupCamera acq s with Returned s' => s' | Threw s' => s' end in
  timers s' = timers s /\ scrollInterval s' = scrollInterval s
  /\ isScrolling s' = isScrolling s /\ recordedChunks s' = recordedChunks s
  /\ isRecording s' = isRecording s /\ mediaRecorder s' = mediaRecorder s.
Proof.
  unfold setupCamera, setupCamera_request, setupCamera_resume.
  destruct acq, (stream s); repeat split.
Qed.

Lemma updateSpeedDisplay_ScrollInv (now : Q) (lay : Layout) (s : State) :
  ScrollInv s -> ScrollInv (updateSpeedDisplay now lay s).
Proof.
  intros H. unfold updateSpeedDisplay. destruct (isScrolling s); [|exact H].
  apply startScrolling_ScrollInv, stopScrolling_ScrollInv, H.
Qed.

Lemma init_ScrollInv (script speed textSize : string)
    (storage : gmap string StoredText) (acq : Acquire) (now : Q) (lay : Layout) :
  ScrollInv (init P acq now lay (construct script speed textSize storage)).
Proof.
  set (s0 := construct script speed textSize storage).
  assert (H0 : ScrollInv s0).
  { split; simpl; [intros ? ?; rewrite lookup_empty; discriminate|reflexivity]. }
  unfold init.
  destruct (checkCompatibility_frame s0) as (Ht & Hi & Hs & _).
  pose proof (ScrollInv_same s0 _ Ht Hi Hs H0) as H1. clear Ht Hi Hs.
  destruct (loadSettings_frame (checkCompatibility P s0)) as (Ht & Hi & Hs & _).
  pose proof (ScrollInv_same _ _ Ht Hi Hs H1) as H2. clear Ht Hi Hs.
  pose proof (updateSpeedDisplay_ScrollInv now lay _ H2) as H3.
  destruct (setupCamera_frame acq
              (updateSpeedDisplay now lay (loadSettings (checkCompatibility P s0))))
    as (Ht & Hi & Hs & _).
  exact (ScrollInv_same _ _ Ht Hi Hs H3).
Qed.

(** *** The recorder *)

Lemma RecInv_same (s s' : State) :
  recordedChunks s' = recordedChunks s -> isRecording s' = isRecording s ->
  mediaRecorder s' = mediaRecorder s -> RecInv s -> RecInv s'.
Proof. unfold RecInv. intros -> -> ->. exact id. Qed.

Lemma fireTimer_recording (id : positive) (now : Q) (s : State) :
  let s' := fireTimer id now s in
  mediaRecorder s' = mediaRecorder s /\ recordedChunks s' = recordedChunks s
  /\ isRecording s' = isRecording s /\ downloads s' = downloads s
  /\ stream s' = stream s /\ streams s' = streams s /\ alerts s' = alerts s.
Proof. unfold fireTimer, scrollTick, clearInterval. cases; simpl; repeat split. Qed.

Lemma startScrolling_RecInv (now : Q) (lay : Layout) (s : State) :
  RecInv s -> RecInv (startScrolling now lay s).
Proof.
  destruct (startScrolling_recording now lay s) as (Hr & Hc & Hon & _).
  exact (RecInv_same s _ Hc Hon Hr).
Qed.

Lemma stopScrolling_RecInv (s : State) : RecInv s -> RecInv (stopScrolling s).
Proof.
  destruct (stopScrolling_recording s) as (Hr & Hc & Hon & _).
  exact (RecInv_same s _ Hc Hon Hr).
Qed.

Lemma fireTimer_RecInv (id : positive) (now : Q) (s : State) :
  RecInv s -> RecInv (fireTimer id now s).
Proof.
  destruct (fireTimer_recording id now s) as (Hr & Hc & Hon & _).
  exact (RecInv_same s _ Hc Hon Hr).
Qed.

Lemma hasData_positive (b : Blob) : hasData b = true -> 0 < size b.
Proof. unfold hasData. intros H. apply Nat.ltb_lt in H. exact H. Qed.

Ltac rec_steps :=
  repeat first [ apply startScrolling_RecInv
               | apply stopScrolling_RecInv
               | apply fireTimer_RecInv ];
  match goal with
  | H : RecInv ?s |- RecInv _ =>
      let Hc := fresh "Hc" in let Hm := fresh "Hm" in
      destruct H as [Hc Hm]; split; cbn;
      [ first [ exact Hc | constructor
              | apply Forall_app; split;
                [exact Hc | repeat constructor; apply hasData_positive; assumption] ]
      | first [ exact Hm | discriminate | intros _; discriminate ] ]
  end.

Lemma handle_RecInv (e : Event) (s : State) :
  RecInv s -> RecInv (handle P e s).
Proof.
  intros Hinv.
  destruct e; try match goal with acq : Acquire |- _ => destruct acq end;
    unfold handle, toggleRecording, stopRecording, startRecording,
    toggleTextRotation, switchCamera, setupCamera, setupCamera_request,
    setupCamera_resume, updateSpeedDisplay, saveSettings, ondataavailable,
    saveRecording, alert;
    repeat (cases; cbn -[startScrolling stopScrolling fireTimer]);
    rec_steps.
Qed.

Lemma updateSpeedDisplay_RecInv (now : Q) (lay : Layout) (s : State) :
  RecInv s -> RecInv (updateSpeedDisplay now lay s).
Proof.
  intros H. unfold updateSpeedDisplay. destruct (isScrolling s); [|exact H].
  apply startScrolling_RecInv, stopScrolling_RecInv, H.
Qed.

Lemma init_RecInv (script speed textSize : string)
    (storage : gmap string StoredText) (acq : Acquire) (now : Q) (lay : Layout) :
  RecInv (init P acq now lay (construct script speed textSize storage)).
Proof.
  set (s0 := construct script speed textSize storage).
  assert (H0 : RecInv s0) by (split; simpl; [constructor|discriminate]).
  unfold init.
  destruct (checkCompatibility_frame s0) as (_ & _ & _ & Hc & Hon & Hr & _).
  pose proof (RecInv_same s0 _ Hc Hon Hr H0) as H1. clear Hc Hon Hr.
  destruct (loadSettings_frame (checkCompatibility P s0))
    as (_ & _ & _ & Hc & Hon & Hr & _).
  pose proof (RecInv_same _ _ Hc Hon Hr H1) as H2. clear Hc Hon Hr.
  pose proof (updateSpeedDisplay_RecInv now lay _ H2) as H3.
  destruct (setupCamera_frame acq
              (updateSpeedDisplay now lay (loadSettings (checkCompatibility P s0))))
    as (_ & _ & _ & Hc & Hon & Hr).
  exact (RecInv_same _ _ Hc Hon Hr H3).
Qed.

(** *** The camera *)

Lemma CamInv_same (s s' : State) :
  streams s' = streams s -> stream s' = stream s -> CamInv s -> CamInv s'.
Proof. unfold CamInv. intros -> ->. exact id. Qed.

Lemma isLive_stopTracks (st : MediaStream) : isLive (stopTracks st) = false.
Proof. unfold isLive, stopTracks. induction st; simpl; [reflexivity|assumption]. Qed.

(** Once [setupCamera] has reached its [await], no stream handed out so
    far has a live track. *)
Lemma setupCamera_request_stops (s : State) :
  CamInv s ->
  forall i st, streams (setupCamera_request s) !! i = Some st -> isLive st = false.
Proof.
  intros Hinv i st. unfold setupCamera_request.
  destruct (stream s) as [h|] eqn:Hh; simpl.
  - destruct (decide (h = i)) as [->|Hne].
    + rewrite list_lookup_alter_eq.
      destruct (streams s !! i); simpl; [|discriminate].
      intros [= <-]. apply isLive_stopTracks.
    + rewrite list_lookup_alter_ne by exact Hne. intros Hi.
      destruct (isLive st) eqn:Hl; [|reflexivity].
      specialize (Hinv i st Hi Hl). congruence.
  - intros Hi. destruct (isLive st) eqn:Hl; [|reflexivity].
    specialize (Hinv i st Hi Hl). congruence.
Qed.


Lemma setupCamera_resume_CamInv (acq : Acquire) (s : State) :
  (forall i st, streams s !! i = Some st -> isLive st = false) ->
  match setupCamera_resume acq s with
  | Returned s' => CamInv s' /\ stream s' = Some (List.length (streams s))
  | Threw s' => CamInv s' /\ s' = s
  end.
Proof.
  intros Hdead. destruct acq as [n|]; simpl.
  - split; [|reflexivity]. intros i st. simpl.
    destruct (decide (i < List.length (streams s))%nat) as [Hlt|Hge].
    + rewrite lookup_app_l by exact Hlt. intros Hi Hl.
      rewrite (Hdead i st Hi) in Hl. discriminate.
    + rewrite lookup_app_r by lia.
      destruct (i - List.length (streams s))%nat as [|k] eqn:Hk; simpl.
      * intros _ _. f_equal. lia.
      * discriminate.
  - split; [|reflexivity]. intros i st Hi Hl.
    rewrite (Hdead i st Hi) in Hl. discriminate.
Qed.

Lemma setupCamera_CamInv (acq : Acquire) (s : State) :
  CamInv s ->
  match setupCamera acq s with
  | Returned s' => CamInv s'
  | Threw s' => CamInv s'
  end.
Proof.
  intros Hinv. unfold setupCamera.
  pose proof (setupCamera_resume_CamInv acq _ (setupCamera_request_stops s Hinv)) as H.
  destruct (setupCamera_resume acq (setupCamera_request s)); apply H.
Qed.

Lemma switchCamera_CamInv (acq : Acquire) (s : State) :
  CamInv s -> CamInv (switchCamera acq s).
Proof.
  intros Hinv. unfold switchCamera.
  assert (H0 : CamInv (set_currentCamera (otherCamera (currentCamera s)) s))
    by (apply (CamInv_same s); [reflexivity..|exact Hinv]).
  pose proof (setupCamera_CamInv acq _ H0) as H.
  destruct (setupCamera acq (set_currentCamera (otherCamera (currentCamera s)) s));
    [exact H|].
  apply (CamInv_same s0); [reflexivity..|exact H].
Qed.

Lemma startScrolling_CamInv (now : Q) (lay : Layout) (s : State) :
  CamInv s -> CamInv (startScrolling now lay s).
Proof.
  destruct (startScrolling_recording now lay s) as (_ & _ & _ & _ & Hs & Hl & _).
  exact (CamInv_same s _ Hl Hs).
Qed.

Lemma stopScrolling_CamInv (s : State) : CamInv s -> CamInv (stopScrolling s).
Proof.
  destruct (stopScrolling_recording s) as (_ & _ & _ & _ & Hs & Hl & _).
  exact (CamInv_same s _ Hl Hs).
Qed.

Lemma fireTimer_CamInv (id : positive) (now : Q) (s : State) :
  CamInv s -> CamInv (fireTimer id now s).
Proof.
  destruct (fireTimer_recording id now s) as (_ & _ & _ & _ & Hs & Hl & _).
  exact (CamInv_same s _ Hl Hs).
Qed.

Lemma startRecording_CamInv (acq : Acquire) (now : Q) (lay : Layout) (s : State) :
  CamInv s -> CamInv (startRecording P acq now lay s).
Proof.
  intros Hinv. unfold startRecording.
  assert (H : match (match stream s with
                     | None => setupCamera acq s
                     | Some _ => Returned s
                     end) with
              | Returned s' => CamInv s'
              | Threw s' => CamInv s'
              end).
  { destruct (stream s); [exact Hinv|]. apply setupCamera_CamInv, Hinv. }
  destruct (match stream s with
            | None => setupCamera acq s
            | Some _ => Returned s
            end) as [s'|s'].
  - cbn. destruct (negb (hasMediaRecorder P));
      [apply (CamInv_same s'); [reflexivity..|exact H]|].
    destruct (stream s') eqn:Hs'.
    + apply startScrolling_CamInv. apply (CamInv_same s'); [reflexivity..|exact H].
    + apply (CamInv_same s'); [reflexivity..|exact H].
  - apply (CamInv_same s'); [reflexivity..|exact H].
Qed.

Lemma handle_CamInv (e : Event) (s : State) :
  CamInv s -> CamInv (handle P e s).
Proof.
  intros Hinv.
  destruct e; unfold handle;
    try (apply switchCamera_CamInv; exact Hinv);
    try (apply fireTimer_CamInv; exact Hinv).
  - unfold toggleRecording. destruct (isRecording s).
    + unfold stopRecording. cases; try exact Hinv.
      apply stopScrolling_CamInv. apply (CamInv_same s); [reflexivity..|exact Hinv].
    + apply startRecording_CamInv, Hinv.
  - apply (CamInv_same s); [reflexivity..|exact Hinv].
  - unfold updateSpeedDisplay. cbn. destruct (isScrolling s).
    + apply startScrolling_CamInv, stopScrolling_CamInv.
      apply (CamInv_same s); [reflexivity..|exact Hinv].
    + apply (CamInv_same s); [reflexivity..|exact Hinv].
  - apply (CamInv_same s); [reflexivity..|exact Hinv].
  - apply (CamInv_same s); [reflexivity..|exact Hinv].
  - apply (CamInv_same s); [reflexivity..|exact Hinv].
  - unfold ondataavailable. destruct (hasData data); [|exact Hinv].
    apply (CamInv_same s); [reflexivity..|exact Hinv].
  - unfold saveRecording, alert. cases; apply (CamInv_same s); try reflexivity; exact Hinv.
Qed.

Lemma init_CamInv (script speed textSize : string)
    (storage : gmap string StoredText) (acq : Acquire) (now : Q) (lay : Layout) :
  CamInv (init P acq now lay (construct script speed textSize storage)).
Proof.
  set (s0 := construct script speed textSize storage).
  assert (H0 : CamInv s0) by (intros i st; simpl; rewrite lookup_nil; discriminate).
  unfold init.
  destruct (checkCompatibility_frame s0) as (_ & _ & _ & _ & _ & _ & Hl & Hs).
  pose proof (CamInv_same s0 _ Hl Hs H0) as H1. clear Hl Hs.
  destruct (loadSettings_frame (checkCompatibility P s0))
    as (_ & _ & _ & _ & _ & _ & Hl & Hs).
  pose proof (CamInv_same _ _ Hl Hs H1) as H2. clear Hl Hs.
  assert (H3 : CamInv (updateSpeedDisplay now lay (loadSettings (checkCompatibility P s0)))).
  { unfold updateSpeedDisplay. destruct (isScrolling _); [|exact H2].
    apply startScrolling_CamInv, stopScrolling_CamInv, H2. }
  pose proof (setupCamera_CamInv acq _ H3) as H.
  destruct (setupCamera acq _); exact H.
Qed.

(** *** Every state the page reaches *)

Lemma reachable_invariant (s : State) :
  reachable P s -> ScrollInv s /\ RecInv s /\ CamInv s.
Proof.
  induction 1 as [script speed textSize storage acq now lay | s e _ (Hs & Hr & Hc)].
  - split; [apply init_ScrollInv|]. split; [apply init_RecInv|apply init_CamInv].
  - split; [apply handle_ScrollInv, Hs|].
    split; [apply handle_RecInv, Hr|apply handle_CamInv, Hc].
Qed.

End Invariants.

(** ** Stopping a recording *)

Section StopRecording.
Import Text Num Js Media VideoTeleprompter.
Local Open Scope list_scope.

(** C7: from any state the page reaches in which it is recording, the
    stop goes through: the recorder is stopped and [isRecording] is
    off; in the same step the scroller is stopped, its interval timer
    is cleared and forgotten, no timer is left pending, and the scroll
    offset is back at 0.  A click on the record button takes this
    step. *)
Theorem stop_recording_stops_autoscroll (P : Platform) (s : State) :
  reachable P s ->
  isRecording s = true ->
  let s' := stopRecording s in
  isRecording s' = false
  /\ (exists r, mediaRecorder s = Some r /\ mediaRecorder s' = Some (stopRecorder r))
  /\ isScrolling s' = false
  /\ scrollInterval s' = None
  /\ timers s' = ∅
  /\ scriptInput_scrollTop s' = Fin 0
  /\ (forall acq now lay, toggleRecording P acq now lay s = s').
Proof.
  intros Hreach Hon.
  destruct (reachable_invariant P s Hreach) as (Hscroll & (_ & Hrec) & _).
  destruct (mediaRecorder s) as [r|] eqn:Hr; [|exfalso; exact (Hrec Hon eq_refl)].
  cbv zeta. unfold toggleRecording, stopRecording. rewrite Hr, Hon.
  unfold stopScrolling. cbn.
  destruct (scrollInterval s) as [id|] eqn:Hi; cbn.
  - rewrite (ScrollInv_one_timer s id Hscroll Hi).
    repeat split; try (exists r; split; reflexivity).
  - rewrite (ScrollInv_no_timer s Hscroll Hi).
    repeat split; try (exists r; split; reflexivity). exact Hi.
Qed.

Lemma sample_recording_reachable : reachable Sample.webmOnly Sample.recording.
Proof. apply reachable_step, reachable_init. Qed.

(** C7, witness: the sample page, recording with its timer running. *)
Lemma stop_recording_stops_autoscroll_witness :
  timers Sample.recording !! 1%positive <> None
  /\ isRecording (stopRecording Sample.recording) = false
  /\ timers (stopRecording Sample.recording) = ∅
  /\ scriptInput_scrollTop (stopRecording Sample.recording) = Fin 0.
Proof.
  split; [vm_compute; discriminate|].
  destruct (stop_recording_stops_autoscroll Sample.webmOnly Sample.recording
              sample_recording_reachable eq_refl)
    as (H1 & _ & _ & _ & H2 & H3 & _).
  split; [exact H1|]. split; [exact H2|exact H3].
Defined.

End StopRecording.

(** ** The chunk sequence holds no empty blob *)

Section ChunkSizes.
Import Media.
Local Open Scope list_scope.

Lemma VideoComponent_stopRecording_chunks (v : VideoComponent.State) :
  VideoComponent.recordedChunks (fst (VideoComponent.stopRecording v))
  = VideoComponent.recordedChunks v.
Proof. unfold VideoComponent.stopRecording. cases; reflexivity. Qed.

Lemma VideoComponent_startRecording_chunks (P : Platform) (v : VideoComponent.State) :
  chunksHoldBytes (VideoComponent.recordedChunks v) ->
  chunksHoldBytes
    (VideoComponent.recordedChunks (fst (VideoComponent.startRecording P v))).
Proof.
  intros H. unfold VideoComponent.startRecording,
    VideoComponent.checkRecordingCompatibility, VideoComponent.alert.
  cases; cbn; first [exact H | constructor].
Qed.

Lemma VideoComponent_switchCamera_chunks (acq : Acquire) (v : VideoComponent.State) :
  VideoComponent.recordedChunks (fst (VideoComponent.switchCamera acq v))
  = VideoComponent.recordedChunks v.
Proof.
  unfold VideoComponent.switchCamera, VideoComponent.setupCamera,
    VideoComponent.setupCamera_request, VideoComponent.setupCamera_resume,
    VideoComponent.alert.
  destruct acq; cbn; cases; reflexivity.
Qed.

Lemma toggleRecording_chunks (P : Platform) (c : ControlsComponent.State) :
  chunksHoldBytes (VideoComponent.recordedChunks (ControlsComponent.videoComponent c)) ->
  chunksHoldBytes
    (VideoComponent.recordedChunks
       (ControlsComponent.videoComponent (ControlsComponent.toggleRecording P c))).
Proof.
  intros H. unfold ControlsComponent.toggleRecording, VideoComponent.getRecordingState.
  destruct (negb _); [exact H|].
  destruct (VideoComponent.isRecording (ControlsComponent.videoComponent c)).
  - pose proof (VideoComponent_stopRecording_chunks (ControlsComponent.videoComponent c)) as E.
    destruct (VideoComponent.stopRecording (ControlsComponent.videoComponent c)) as [v ok].
    cbn in E. destruct ok; cbn; rewrite E; exact H.
  - pose proof (VideoComponent_startRecording_chunks P _ H) as E.
    destruct (VideoComponent.startRecording P (ControlsComponent.videoComponent c)) as [v ok].
    cbn in E. destruct ok; exact E.
Qed.

Lemma component_chunks (P : Platform) (c : ControlsComponent.State) :
  ControlsComponent.reachable P c ->
  chunksHoldBytes (VideoComponent.recordedChunks (ControlsComponent.videoComponent c)).
Proof.
  induction 1 as [acq | c e _ IH].
  - destruct acq; cbn; constructor.
  - destruct e; cbn.
    + apply toggleRecording_chunks, IH.
    + rewrite VideoComponent_switchCamera_chunks. exact IH.
    + unfold VideoComponent.ondataavailable.
      destruct (hasData data) eqn:Hd; [|exact IH]. cbn.
      apply Forall_app. split; [exact IH|].
      repeat constructor. apply hasData_positive, Hd.
    + unfold VideoComponent.downloadRecording.
      destruct (VideoComponent.recordedChunks (ControlsComponent.videoComponent c))
        eqn:E; cbn; [rewrite E|]; constructor.
    + exact IH.
Qed.



End ChunkSizes.

Section ChunkSizesWitness.
Import Media.

Lemma sample_components_reachable :
  ControlsComponent.reachable Sample.webmOnly
    (ControlsComponent.handle Sample.webmOnly
       (ControlsComponent.DataAvailable (Sample.chunk [Byte.x01]))
       Sample.componentsRecording).
Proof. do 2 apply ControlsComponent.reachable_step. apply ControlsComponent.reachable_init. Qed.

Lemma sample_data_reachable :
  VideoTeleprompter.reachable Sample.webmOnly
    (VideoTeleprompter.handle Sample.webmOnly
       (VideoTeleprompter.DataAvailable (Sample.chunk [Byte.x01])) Sample.recording).
Proof. apply VideoTeleprompter.reachable_step, sample_recording_reachable. Qed.


End ChunkSizesWitness.

(** ** Switching cameras *)

Section Camera.
Import Text Num Js Media VideoTeleprompter.
Local Open Scope list_scope.





End Camera.

Section CameraWitness.
Import Media VideoTeleprompter.

Lemma sample_ready_reachable : reachable Sample.webmOnly Sample.ready.
Proof. apply reachable_init. Qed.


End CameraWitness.

(** ** The offsets written by a scroll job *)

Section ScrollOffsets.
Import Text Num Js Media VideoTeleprompter.
Local Open Scope list_scope.
Local Open Scope Q_scope.

Variables (t0 d m : Q).
Hypothesis d_pos : 0 < d.
Hypothesis m_nonneg : 0 <= m.









(** *** The code against the interpolation *)



End ScrollOffsets.

Section ScrollJob.
Import Text Num Js Media VideoTeleprompter.
Local Open Scope list_scope.
Local Open Scope Q_scope.



End ScrollJob.

(** ** The geometry of the script box *)

Section GeometryBounds.
Import Geometry.
Local Open Scope Q_scope.

Lemma keepWithin_bounds (v limit : Q) :
  0 <= keepWithin v limit /\ (0 <= limit -> keepWithin v limit <= limit).
Proof.
  unfold keepWithin. split; [apply Q.le_max_l|].
  intros H. apply Q.max_lub; [exact H|apply Q.le_min_r].
Qed.

Lemma clampWidth_bounds (vp : Viewport) (w : Q) :
  300 <= clampWidth vp w
  /\ (300 <= innerWidth vp * (9 # 10) -> clampWidth vp w <= innerWidth vp * (9 # 10)).
Proof.
  unfold clampWidth. split; [apply Q.le_max_l|].
  intros H. apply Q.max_lub; [exact H|apply Q.le_min_r].
Qed.

Lemma clampHeight_bounds (vp : Viewport) (h : Q) :
  200 <= clampHeight vp h
  /\ (200 <= innerHeight vp * (9 # 10) -> clampHeight vp h <= innerHeight vp * (9 # 10)).
Proof.
  unfold clampHeight. split; [apply Q.le_max_l|].
  intros H. apply Q.max_lub; [exact H|apply Q.le_min_r].
Qed.

(** C6 (amended): whatever the pointer delta, a resize update (by the
    handle or by a two-finger pinch) writes a width of at least 300 and
    a height of at least 200, and at most 0.9 of the viewport's width
    and height when the viewport is large enough for that bound to be
    no less than the minimum; a drag update writes a position with
    [left >= 0] and [top >= 0], and with the box inside the viewport
    on the right and at the bottom when the box is no larger than the
    viewport. *)
Theorem geometry_updates_clamped (vp : Viewport) (e : Pointer) (box : Rect)
    (distance : Q) (gr gp gd : Gesture) :
  isResizing gr = true ->
  isDragging gp = false -> noDistance (lastDistance gp) = false ->
  isDragging gd = true ->
  sizeWithin vp (style (resize vp e gr))
  /\ sizeWithin vp (style (pinch vp distance box gp))
  /\ positionWithin vp box (style (drag vp e box gd)).
Proof.
  intros Hr Hp Hd Hg. repeat split.
  - unfold resize. rewrite Hr. cbn.
    eexists _, _. split; [reflexivity|]. split; [reflexivity|].
    split; [apply clampWidth_bounds|]. split; [apply clampHeight_bounds|].
    split; [apply clampWidth_bounds|apply clampHeight_bounds].
  - unfold pinch. rewrite Hp, Hd. cbn.
    eexists _, _. split; [reflexivity|]. split; [reflexivity|].
    split; [apply clampWidth_bounds|]. split; [apply clampHeight_bounds|].
    split; [apply clampWidth_bounds|apply clampHeight_bounds].
  - unfold drag. rewrite Hg. cbn.
    eexists _, _. split; [reflexivity|]. split; [reflexivity|].
    split; [apply keepWithin_bounds|]. split; [apply keepWithin_bounds|].
    split; intros H; apply keepWithin_bounds; lra.
Qed.

End GeometryBounds.

Section GeometryCases.
Import Geometry.
Local Open Scope Q_scope.

(** C6, witness: a resize by (40, 25) and a drag by (-500, 30) in a
    desktop window. *)
Lemma geometry_updates_clamped_witness :
  let box := mkRect 100 100 400 300 in
  let gr := startResize (mkPointer 500 400) box initial in
  let gd := startDrag false (mkPointer 120 110) box initial in
  sizeWithin Sample.desktop (style (resize Sample.desktop (mkPointer 540 425) gr))
  /\ positionWithin Sample.desktop box
       (style (drag Sample.desktop (mkPointer (-380) 140) box gd)).
Proof.
  intros box gr gd.
  destruct (geometry_updates_clamped Sample.desktop (mkPointer 540 425) box 10 gr
              (setLastDistance (Some 5) initial) gd eq_refl eq_refl eq_refl eq_refl)
    as (H1 & _ & _).
  destruct (geometry_updates_clamped Sample.desktop (mkPointer (-380) 140) box 10 gr
              (setLastDistance (Some 5) initial) gd eq_refl eq_refl eq_refl eq_refl)
    as (_ & _ & H2).
  split; [exact H1|exact H2].
Defined.

(** C6, counterexample: on a phone 320 px wide the upper bound on the
    width is 288 px, below the minimum; a resize that does not move
    the pointer writes 300 px.  And a box 400 px wide cannot be kept
    inside that viewport: a drag writes [left = 0], beyond
    [320 - 400]. *)
Lemma resize_leaves_bounds_on_small_viewport :
  let box := mkRect 10 10 400 200 in
  let gr := resize Sample.smallPhone (mkPointer 0 0)
              (startResize (mkPointer 0 0) (mkRect 10 10 300 200) initial) in
  let gd := drag Sample.smallPhone (mkPointer 0 0) box
              (startDrag false (mkPointer 0 0) box initial) in
  (exists w, width (style gr) = Some w /\ w == 300
             /\ ~ w <= innerWidth Sample.smallPhone * (9 # 10))
  /\ (exists l, left (style gd) = Some l /\ l == 0
                /\ ~ l <= innerWidth Sample.smallPhone - offsetWidth box).
Proof.
  cbv zeta. split; eexists; (split; [reflexivity|]); vm_compute;
    (split; [reflexivity|]); intros H; apply H; reflexivity.
Qed.

End GeometryCases.

(** ** Saving and loading the settings *)

Section Settings.
Import Js.
Local Open Scope list_scope.

(** What [loadSettings] of the first copy leaves in a page [s0] whose
    store holds the settings saved from [s]. *)
Lemma loadSettings_after_save (s s0 : VideoTeleprompter.State) (cam : string) (rot : bool) :
  VideoTeleprompter.currentCamera s = JStr cam ->
  VideoTeleprompter.isTextRotated s = JBool rot ->
  VideoTeleprompter.localStorage s0
  = VideoTeleprompter.localStorage (VideoTeleprompter.saveSettings s) ->
  VideoTeleprompter.preferences (VideoTeleprompter.loadSettings s0)
  = (orKeep (VideoTeleprompter.scriptInput_value s) (VideoTeleprompter.scriptInput_value s0),
     orKeep (VideoTeleprompter.speedSlider_value s) (VideoTeleprompter.speedSlider_value s0),
     orKeep (VideoTeleprompter.textSizeSlider_value s)
       (VideoTeleprompter.textSizeSlider_value s0),
     if isEmptyStr cam then VideoTeleprompter.currentCamera s0 else JStr cam,
     if rot then JBool true else VideoTeleprompter.isTextRotated s0).
Proof.
  intros Hcam Hrot Hstore.
  unfold VideoTeleprompter.loadSettings. rewrite Hstore.
  unfold VideoTeleprompter.saveSettings. cbn [VideoTeleprompter.localStorage
    VideoTeleprompter.set_localStorage].
  rewrite lookup_insert_eq.
  unfold VideoTeleprompter.settingsObject. rewrite Hcam, Hrot.
  cbn [JSON_stringify jsonImage absent mbind option_bind JSON_parse].
  unfold VideoTeleprompter.applySettings, VideoTeleprompter.preferences, orKeep.
  cbn [get assoc String.eqb Ascii.eqb Bool.eqb truthy toString].
  destruct (isEmptyStr (VideoTeleprompter.scriptInput_value s)),
    (isEmptyStr (VideoTeleprompter.speedSlider_value s)),
    (isEmptyStr (VideoTeleprompter.textSizeSlider_value s)),
    (isEmptyStr cam), rot; reflexivity.
Qed.

(** The same for the second copy, which stores the box geometry. *)
Lemma loadSettings_after_save_V2 (t t0 : VideoTeleprompterV2.State) :
  VideoTeleprompterV2.localStorage t0
  = VideoTeleprompterV2.localStorage (VideoTeleprompterV2.saveSettings t) ->
  let st := VideoTeleprompterV2.scriptBox_style t in
  let st0 := VideoTeleprompterV2.scriptBox_style t0 in
  VideoTeleprompterV2.preferences (VideoTeleprompterV2.loadSettings t0)
  = (orKeep (VideoTeleprompterV2.scriptInput_value t)
       (VideoTeleprompterV2.scriptInput_value t0),
     orKeep (VideoTeleprompterV2.speedSlider_value t)
       (VideoTeleprompterV2.speedSlider_value t0),
     orKeep (VideoTeleprompterV2.textSizeSlider_value t)
       (VideoTeleprompterV2.textSizeSlider_value t0),
     VideoTeleprompterV2.mkBoxStyle
       (orKeep (VideoTeleprompterV2.left st) (VideoTeleprompterV2.left st0))
       (orKeep (VideoTeleprompterV2.top st) (VideoTeleprompterV2.top st0))
       (orKeep (VideoTeleprompterV2.width st) (VideoTeleprompterV2.width st0))
       (orKeep (VideoTeleprompterV2.height st) (VideoTeleprompterV2.height st0))
       (orKeep (VideoTeleprompterV2.transform st) (VideoTeleprompterV2.transform st0))).
Proof.
  intros Hstore st st0.
  unfold VideoTeleprompterV2.loadSettings. rewrite Hstore.
  unfold VideoTeleprompterV2.saveSettings. cbn [VideoTeleprompterV2.localStorage].
  rewrite lookup_insert_eq.
  unfold VideoTeleprompterV2.settingsObject.
  cbn [JSON_stringify jsonImage absent mbind option_bind JSON_parse].
  unfold VideoTeleprompterV2.applySettings, VideoTeleprompterV2.preferences,
    VideoTeleprompterV2.applyPosition, VideoTeleprompterV2.applyProp, orKeep.
  cbn [get assoc String.eqb Ascii.eqb Bool.eqb truthy toString
       VideoTeleprompterV2.scriptInput_value VideoTeleprompterV2.speedSlider_value
       VideoTeleprompterV2.textSizeSlider_value VideoTeleprompterV2.scriptBox_style].
  subst st st0.
  destruct (isEmptyStr (VideoTeleprompterV2.scriptInput_value t)),
    (isEmptyStr (VideoTeleprompterV2.speedSlider_value t)),
    (isEmptyStr (VideoTeleprompterV2.textSizeSlider_value t)),
    (isEmptyStr (VideoTeleprompterV2.left (VideoTeleprompterV2.scriptBox_style t))),
    (isEmptyStr (VideoTeleprompterV2.top (VideoTeleprompterV2.scriptBox_style t))),
    (isEmptyStr (VideoTeleprompterV2.width (VideoTeleprompterV2.scriptBox_style t))),
    (isEmptyStr (VideoTeleprompterV2.height (VideoTeleprompterV2.scriptBox_style t))),
    (isEmptyStr (VideoTeleprompterV2.transform (VideoTeleprompterV2.scriptBox_style t)));
    reflexivity.
Qed.

Lemma orKeep_agrees (saved current : string) :
  (saved = "" -> current = "") -> orKeep saved current = saved.
Proof.
  intros H. unfold orKeep. destruct saved; simpl; [|reflexivity].
  apply H. reflexivity.
Qed.

(** C5 (amended): a page that starts on the store left by
    [saveSettings] gets back, field for field, the preferences that
    were saved, provided each field saved as the empty string (or the
    rotation saved as off) has that value on the startup page already:
    [loadSettings] writes only the fields whose saved value is truthy.
    The first copy persists script text, speed, text size, camera and
    rotation and no geometry; the second persists script text, speed,
    text size and the box geometry. *)
Theorem settings_round_trip (s s0 : VideoTeleprompter.State) (cam : string) (rot : bool)
    (t t0 : VideoTeleprompterV2.State) :
  VideoTeleprompter.currentCamera s = JStr cam -> cam <> "" ->
  VideoTeleprompter.isTextRotated s = JBool rot ->
  VideoTeleprompter.localStorage s0
  = VideoTeleprompter.localStorage (VideoTeleprompter.saveSettings s) ->
  VideoTeleprompter.startupAgrees s s0 ->
  VideoTeleprompterV2.localStorage t0
  = VideoTeleprompterV2.localStorage (VideoTeleprompterV2.saveSettings t) ->
  VideoTeleprompterV2.startupAgrees t t0 ->
  VideoTeleprompter.preferences (VideoTeleprompter.loadSettings s0)
  = VideoTeleprompter.preferences s
  /\ VideoTeleprompterV2.preferences (VideoTeleprompterV2.loadSettings t0)
     = VideoTeleprompterV2.preferences t.
Proof.
  intros Hcam Hne Hrot Hstore (A1 & A2 & A3 & A4) Hstore2
    (B1 & B2 & B3 & B4 & B5 & B6 & B7 & B8).
  split.
  - rewrite (loadSettings_after_save s s0 cam rot Hcam Hrot Hstore).
    unfold VideoTeleprompter.preferences.
    rewrite !orKeep_agrees by assumption. rewrite Hcam, Hrot.
    destruct cam; [congruence|]. cbn [isEmptyStr].
    destruct rot; [reflexivity|]. rewrite (A4 Hrot). reflexivity.
  - rewrite (loadSettings_after_save_V2 t t0 Hstore2).
    unfold VideoTeleprompterV2.preferences.
    rewrite !orKeep_agrees by assumption.
    destruct (VideoTeleprompterV2.scriptBox_style t). reflexivity.
Qed.

End Settings.

Section SettingsCases.
Import Js.

(** C5, witness: the sample page saved, then loaded by a page that
    starts with other values in its inputs. *)
Lemma settings_round_trip_witness :
  let s0 := VideoTeleprompter.construct "" "100" "20"
              (VideoTeleprompter.localStorage
                 (VideoTeleprompter.saveSettings Sample.fresh)) in
  let t := VideoTeleprompterV2.mkState "one two" "120" "24"
             (VideoTeleprompterV2.mkBoxStyle "10px" "20px" "400px" "300px" "none") ∅ in
  let t0 := VideoTeleprompterV2.mkState "" "100" "20"
              (VideoTeleprompterV2.mkBoxStyle "" "" "" "" "")
              (VideoTeleprompterV2.localStorage (VideoTeleprompterV2.saveSettings t)) in
  VideoTeleprompter.preferences (VideoTeleprompter.loadSettings s0)
  = VideoTeleprompter.preferences Sample.fresh
  /\ VideoTeleprompterV2.preferences (VideoTeleprompterV2.loadSettings t0)
     = VideoTeleprompterV2.preferences t.
Proof.
  intros s0 t t0.
  apply (settings_round_trip Sample.fresh s0 "user" false t t0);
    try reflexivity; try discriminate;
    repeat split; cbn; intros; try reflexivity; discriminate.
Defined.

(** C5, counterexample: an empty script is saved; a page whose script
    input starts with a text of its own loads the settings and keeps
    that text, because [if (settings.scriptText)] skips the empty
    string. *)
Lemma empty_script_is_not_restored :
  let s := VideoTeleprompter.construct "" "120" "24" ∅ in
  let s0 := VideoTeleprompter.construct "Welcome" "120" "24"
              (VideoTeleprompter.localStorage (VideoTeleprompter.saveSettings s)) in
  VideoTeleprompter.scriptInput_value s = ""
  /\ VideoTeleprompter.scriptInput_value (VideoTeleprompter.loadSettings s0) = "Welcome"
  /\ VideoTeleprompter.preferences (VideoTeleprompter.loadSettings s0)
     <> VideoTeleprompter.preferences s.
Proof.
  cbv zeta. split; [reflexivity|]. split; [vm_compute; reflexivity|].
  vm_compute. discriminate.
Qed.

End SettingsCases.

(** ** The public start and stop methods *)

Section PublicControl.
Import Media.

Ltac settle :=
  cbn;
  repeat match goal with
    | E : ?x = _ |- context [?x] => rewrite E
    end;
  intuition (try discriminate; try congruence).

Lemma stopRecording_hasRecorder (v : VideoComponent.State) :
  VideoComponent.recordingHasRecorder v -> VideoComponent.recordingHasRecorder (fst (VideoComponent.stopRecording v)).
Proof.
  unfold VideoComponent.recordingHasRecorder, VideoComponent.stopRecording.
  destruct (VideoComponent.mediaRecorder v) eqn:Hr;
    destruct (VideoComponent.isRecording v) eqn:Hon; settle.
Qed.

Lemma startRecording_hasRecorder (P : Platform) (v : VideoComponent.State) :
  VideoComponent.recordingHasRecorder v -> VideoComponent.recordingHasRecorder (fst (VideoComponent.startRecording P v)).
Proof.
  unfold VideoComponent.recordingHasRecorder, VideoComponent.startRecording,
    VideoComponent.checkRecordingCompatibility, VideoComponent.alert.
  destruct (VideoComponent.stream v) eqn:Hst; [|settle].
  destruct (negb (hasMediaRecorder P)); [settle|].
  destruct (List.filter (isTypeSupported P) VideoComponent.typesToCheck); settle.
Qed.

Lemma switchCamera_hasRecorder (acq : Acquire) (v : VideoComponent.State) :
  VideoComponent.recordingHasRecorder v ->
  VideoComponent.recordingHasRecorder (fst (VideoComponent.switchCamera acq v)).
Proof.
  unfold VideoComponent.recordingHasRecorder, VideoComponent.switchCamera, VideoComponent.setupCamera,
    VideoComponent.setupCamera_request, VideoComponent.setupCamera_resume,
    VideoComponent.alert.
  destruct acq; destruct (VideoComponent.stream v) eqn:Hst; settle.
Qed.

Lemma component_recorder (P : Platform) (c : ControlsComponent.State) :
  ControlsComponent.reachable P c ->
  VideoComponent.recordingHasRecorder (ControlsComponent.videoComponent c).
Proof.
  induction 1 as [acq | c e _ IH].
  - destruct acq; intros H; cbn in H; discriminate.
  - destruct e; cbn.
    + unfold ControlsComponent.toggleRecording, VideoComponent.getRecordingState.
      destruct (negb _); [exact IH|].
      destruct (VideoComponent.isRecording (ControlsComponent.videoComponent c)).
      * pose proof (stopRecording_hasRecorder _ IH) as H.
        destruct (VideoComponent.stopRecording (ControlsComponent.videoComponent c))
          as [v ok]. destruct ok; exact H.
      * pose proof (startRecording_hasRecorder P _ IH) as H.
        destruct (VideoComponent.startRecording P (ControlsComponent.videoComponent c))
          as [v ok]. destruct ok; exact H.
    + apply switchCamera_hasRecorder, IH.
    + unfold VideoComponent.ondataavailable.
      destruct (hasData data); exact IH.
    + unfold VideoComponent.downloadRecording.
      destruct (VideoComponent.recordedChunks (ControlsComponent.videoComponent c));
        exact IH.
    + exact IH.
Qed.

(** C2, the code at the failing input: [startRecording] of the
    application object is the toggle, so while a recording is running
    it stops the recorder, switches [isRecording] off and stops the
    scroller.  The stop methods do check the state: while idle they
    change nothing. *)
Theorem app_start_while_recording_stops (P : Platform) (c : ControlsComponent.State) :
  ControlsComponent.reachable P c ->
  ControlsComponent.isRecording c = true ->
  let c' := VideoTeleprompterApp.startRecording P c in
  ControlsComponent.isRecording c' = false
  /\ (exists r,
        VideoComponent.mediaRecorder (ControlsComponent.videoComponent c') = Some r
        /\ mr_recording r = false)
  /\ ScriptComponent.isScrolling (ControlsComponent.scriptComponent c') = false
  /\ c' <> c
  /\ (forall c0, ControlsComponent.isRecording c0 = false ->
                 VideoTeleprompterApp.stopRecording P c0 = c0)
  /\ (forall s, VideoTeleprompter.isRecording s = false ->
                VideoTeleprompter.stopRecording s = s).
Proof.
  intros Hreach Hon c'.
  destruct (component_recorder P c Hreach Hon) as [Hr Hs].
  unfold ControlsComponent.isRecording in Hon.
  subst c'. unfold VideoTeleprompterApp.startRecording, ControlsComponent.triggerAction,
    ControlsComponent.toggleRecording, VideoComponent.getRecordingState,
    VideoComponent.stopRecording, ControlsComponent.isRecording.
  rewrite Hon.
  destruct (VideoComponent.stream (ControlsComponent.videoComponent c)); [|congruence].
  destruct (VideoComponent.mediaRecorder (ControlsComponent.videoComponent c)) as [r|];
    [|congruence].
  cbn.
  split; [reflexivity|].
  split; [eexists; split; reflexivity|].
  split; [unfold ScriptComponent.stopScrolling, ScriptComponent.stopScroll;
          destruct (ScriptComponent.scrollAnimation _); reflexivity|].
  split.
  { intros E. apply (f_equal ControlsComponent.videoComponent) in E.
    apply (f_equal VideoComponent.isRecording) in E. cbn in E. congruence. }
  split.
  - intros c0 H0.
    unfold VideoTeleprompterApp.stopRecording, ControlsComponent.isRecording.
    rewrite H0. reflexivity.
  - intros s H0. unfold VideoTeleprompter.stopRecording. rewrite H0.
    destruct (VideoTeleprompter.mediaRecorder s); reflexivity.
Qed.

End PublicControl.

Section PublicControlWitness.
Import Media.

Lemma sample_componentsRecording_reachable :
  ControlsComponent.reachable Sample.webmOnly Sample.componentsRecording.
Proof. apply ControlsComponent.reachable_step, ControlsComponent.reachable_init. Qed.

(** C2, witness: the sample component page, recording, when
    [startRecording] is invoked again. *)
Lemma app_start_while_recording_stops_witness :
  ControlsComponent.isRecording Sample.componentsRecording = true
  /\ ControlsComponent.isRecording
       (VideoTeleprompterApp.startRecording Sample.webmOnly Sample.componentsRecording)
     = false.
Proof.
  split; [reflexivity|].
  exact (proj1 (app_start_while_recording_stops Sample.webmOnly
                  Sample.componentsRecording sample_componentsRecording_reachable
                  eq_refl)).
Defined.

End PublicControlWitness.

Section MimeTypeWitness.
Import Media VideoTeleprompter.
Local Open Scope list_scope.

(** C3, witness: a browser that supports [video/webm] only. *)
Lemma recorder_mime_type_witness :
  exists r d,
    mediaRecorder (startRecording Sample.webmOnly Denied 0 Sample.overflowing Sample.ready)
    = Some r
    /\ mr_requested r = Some "video/webm"
    /\ downloads (session Sample.webmOnly Denied 0 Sample.overflowing
                    [Sample.chunk [Byte.x01]] [] Sample.ready)
       = downloads Sample.ready ++ [d]
    /\ blob_type (dl_blob d) = "video/webm".
Proof.
  destruct (recorder_mime_type Sample.webmOnly Denied 0 Sample.overflowing
              [Sample.chunk [Byte.x01]] [] Sample.ready eq_refl)
    as (r & Hr & Hreq & Hm & Hscen & Hsave).
  pose proof (Hscen eq_refl eq_refl eq_refl eq_refl) as Hwebm.
  rewrite Hwebm in Hm. cbn in Hm.
  destruct Hsave as (d & Hd & Ht); [discriminate | rewrite Hm; discriminate |].
  exists r, d. split; [exact Hr|]. split; [exact Hwebm|].
  split; [exact Hd|]. rewrite Ht. exact Hm.
Defined.

End MimeTypeWitness.

(** * Further properties of the code *)

(** ** The scroller and the recorder together *)

Section Lockstep.
Import Text Num Js Media VideoTeleprompter Conditions.
Local Open Scope list_scope.

Variable P : Platform.

Lemma startScrolling_isScrolling (now : Q) (lay : Layout) (s : State) :
  isScrolling (startScrolling now lay s) = true ->
  isScrolling s = true \/ isEmptyStr (trim (scriptInput_value s)) = false.
Proof.
  unfold startScrolling. destruct (isScrolling s) eqn:Hs; [left; reflexivity|].
  destruct (isEmptyStr (trim (scriptInput_value s))); [|right; reflexivity].
  intros H. rewrite Hs in H. discriminate.
Qed.

Lemma stopScrolling_off (s : State) : isScrolling (stopScrolling s) = false.
Proof. unfold stopScrolling, clearInterval. cases; reflexivity. Qed.

Lemma fireTimer_isScrolling (id : positive) (now : Q) (s : State) :
  isScrolling (fireTimer id now s) = isScrolling s.
Proof. unfold fireTimer, scrollTick, clearInterval. cases; reflexivity. Qed.

Lemma startScrolling_lockstep (now : Q) (lay : Layout) (s : State) :
  isRecording s = true -> scrollsWhileRecording (startScrolling now lay s).
Proof.
  intros H _. destruct (startScrolling_recording now lay s) as (_ & _ & -> & _). exact H.
Qed.

Lemma stopScrolling_lockstep (s : State) : scrollsWhileRecording (stopScrolling s).
Proof. intros H. rewrite stopScrolling_off in H. discriminate. Qed.

Lemma lockstep_same (s s' : State) :
  isScrolling s' = isScrolling s -> isRecording s' = isRecording s ->
  scrollsWhileRecording s -> scrollsWhileRecording s'.
Proof. unfold scrollsWhileRecording. intros -> ->. exact id. Qed.

Lemma updateSpeedDisplay_lockstep (now : Q) (lay : Layout) (s : State) :
  scrollsWhileRecording s -> scrollsWhileRecording (updateSpeedDisplay now lay s).
Proof.
  intros H. unfold updateSpeedDisplay. destruct (isScrolling s) eqn:Hs; [|exact H].
  apply startScrolling_lockstep.
  destruct (stopScrolling_recording s) as (_ & _ & -> & _). exact (H Hs).
Qed.

Lemma handle_lockstep (e : Event) (s : State) :
  scrollsWhileRecording s -> scrollsWhileRecording (handle P e s).
Proof.
  intros H. destruct e; unfold handle.
  - unfold toggleRecording. destruct (isRecording s) eqn:Hon.
    + unfold stopRecording. rewrite Hon.
      destruct (mediaRecorder s); [apply stopScrolling_lockstep|].
      intros Hs. exact Hon.
    + assert (Hoff : isScrolling s = false).
      { destruct (isScrolling s) eqn:Hs; [|reflexivity]. rewrite (H Hs) in Hon.
        discriminate. }
      unfold startRecording, setupCamera, setupCamera_request, setupCamera_resume, alert.
      destruct acq, (stream s) eqn:Hst; cbn -[startScrolling]; rewrite ?Hst;
        cbn -[startScrolling];
        destruct (negb (hasMediaRecorder P)); cbn -[startScrolling];
        try (apply startScrolling_lockstep; reflexivity);
        intros Hs; cbn in Hs; congruence.
  - apply (lockstep_same s); [reflexivity..|exact H].
  - unfold scrollsWhileRecording in *.
    unfold switchCamera, setupCamera, setupCamera_request, setupCamera_resume.
    cbn. destruct acq, (stream s); cbn; exact H.
  - apply updateSpeedDisplay_lockstep. apply (lockstep_same s); [reflexivity..|exact H].
  - apply (lockstep_same s); [reflexivity..|exact H].
  - apply (lockstep_same s); [reflexivity..|exact H].
  - apply (lockstep_same s); [reflexivity..|exact H].
  - unfold ondataavailable. destruct (hasData data); [|exact H].
    apply (lockstep_same s); [reflexivity..|exact H].
  - unfold saveRecording, alert. cases; apply (lockstep_same s); try reflexivity; exact H.
  - apply (lockstep_same s); [apply fireTimer_isScrolling| |exact H].
    destruct (fireTimer_recording id now s) as (_ & _ & -> & _). reflexivity.
Qed.

Lemma reachable_lockstep (s : State) : reachable P s -> scrollsWhileRecording s.
Proof.
  induction 1 as [script speed textSize storage acq now lay | s e _ IH].
  - intros Hs. exfalso. revert Hs. unfold init.
    set (s0 := construct script speed textSize storage).
    destruct (loadSettings_frame (checkCompatibility P s0)) as (_ & _ & Hs1 & _).
    destruct (checkCompatibility_frame P s0) as (_ & _ & Hs0 & _).
    assert (Hoff : isScrolling (loadSettings (checkCompatibility P s0)) = false)
      by (rewrite Hs1, Hs0; reflexivity).
    unfold updateSpeedDisplay. rewrite Hoff.
    destruct (setupCamera_frame acq (loadSettings (checkCompatibility P s0)))
      as (_ & _ & Hs2 & _).
    cbv zeta in Hs2. rewrite Hs2, Hoff. discriminate.
  - apply handle_lockstep, IH.
Qed.

End Lockstep.

Section LockstepCases.
Import Text Num Js Media VideoTeleprompter Conditions.
Local Open Scope list_scope.

(** X1: in every state the single-class page reaches, the scroller
    runs only while a recording runs: when [isRecording] is off,
    [isScrolling] is off and no interval timer is set. *)
Theorem scroller_runs_only_while_recording (P : Platform) (s : State) :
  reachable P s ->
  isRecording s = false ->
  isScrolling s = false /\ timers s = ∅.
Proof.
  intros Hr Hoff.
  pose proof (reachable_lockstep P s Hr) as Hl.
  destruct (reachable_invariant P s Hr) as ((_ & Hnone) & _ & _).
  assert (Hs : isScrolling s = false).
  { destruct (isScrolling s) eqn:Hs; [|reflexivity]. rewrite (Hl Hs) in Hoff.
    discriminate. }
  split; [exact Hs|exact (Hnone Hs)].
Qed.

(** X1, witness: the sample page before the record button is clicked. *)
Lemma scroller_runs_only_while_recording_witness :
  isScrolling Sample.ready = false /\ timers Sample.ready = ∅.
Proof.
  exact (scroller_runs_only_while_recording Sample.webmOnly Sample.ready
           sample_ready_reachable eq_refl).
Defined.

End LockstepCases.

(** ** Starting: failures, blank scripts, restarts *)

Section Starting.
Import Text Num Js Media VideoTeleprompter Conditions.
Local Open Scope list_scope.

Lemma startScrolling_downloads (now : Q) (lay : Layout) (s : State) :
  downloads (startScrolling now lay s) = downloads s.
Proof. destruct (startScrolling_recording now lay s) as (_ & _ & _ & H & _). exact H. Qed.

Lemma stopScrolling_downloads (s : State) : downloads (stopScrolling s) = downloads s.
Proof. destruct (stopScrolling_recording s) as (_ & _ & _ & H & _). exact H. Qed.

Lemma fireTimer_downloads (id : positive) (now : Q) (s : State) :
  downloads (fireTimer id now s) = downloads s.
Proof. destruct (fireTimer_recording id now s) as (_ & _ & _ & H & _). exact H. Qed.

(** X2: a start that cannot go through (no [MediaRecorder], or no
    stream and the camera refused) leaves the page idle: no recorder
    is made, the scroller and its timers are untouched, nothing is
    downloaded, and one alert is shown (the text "Recording failed",
    which the source completes with the message of the error).  The
    chunks are emptied unless the camera request itself failed; a
    stream obtained on the way is kept. *)
Theorem failed_start_stays_idle (P : Platform) (acq : Acquire) (now : Q)
    (lay : Layout) (s : State) :
  isRecording s = false ->
  canRecord P acq s = false ->
  let s' := toggleRecording P acq now lay s in
  isRecording s' = false
  /\ mediaRecorder s' = mediaRecorder s
  /\ isScrolling s' = isScrolling s
  /\ timers s' = timers s
  /\ downloads s' = downloads s
  /\ alerts s' = alerts s ++ ["Recording failed"]
  /\ recordedChunks s'
     = match stream s, acq with
       | None, Denied => recordedChunks s
       | _, _ => []
       end
  /\ stream s'
     = match stream s, acq with
       | None, Granted _ => Some (List.length (streams s))
       | _, _ => stream s
       end.
Proof.
  intros Hoff Hcan. unfold toggleRecording. rewrite Hoff.
  unfold canRecord in Hcan. unfold startRecording, setupCamera, setupCamera_request.
  destruct (stream s) as [h|] eqn:Hst.
  - rewrite andb_true_r in Hcan. rewrite Hcan. cbn. rewrite ?Hst. repeat split; assumption.
  - destruct acq as [n|]; cbn.
    + rewrite andb_true_r in Hcan. rewrite Hcan. cbn. rewrite ?Hst.
      repeat split; assumption.
    + rewrite ?Hst. repeat split; assumption.
Qed.

(** X2, witness: the camera was refused at start-up and is refused
    again. *)
Lemma failed_start_stays_idle_witness :
  isRecording
    (toggleRecording Sample.webmOnly Denied 5 Sample.overflowing Cases.refused) = false
  /\ alerts (toggleRecording Sample.webmOnly Denied 5 Sample.overflowing Cases.refused)
     = alerts Cases.refused ++ ["Recording failed"].
Proof.
  destruct (failed_start_stays_idle Sample.webmOnly Denied 5 Sample.overflowing
              Cases.refused eq_refl eq_refl)
    as (H1 & _ & _ & _ & _ & H2 & _).
  split; [exact H1|exact H2].
Defined.

(** X3: [startScrolling] does nothing the second time: calling it
    again, at any later time and for any layout, returns the state of
    the first call (no second timer, no reset of the offset or of the
    start time). *)
Theorem startScrolling_twice (now now' : Q) (lay lay' : Layout) (s : State) :
  startScrolling now' lay' (startScrolling now lay s) = startScrolling now lay s.
Proof.
  assert (Hon : forall t l u, isScrolling u = true -> startScrolling t l u = u).
  { intros t l u Hu. unfold startScrolling. rewrite Hu. reflexivity. }
  destruct (isScrolling s) eqn:Hs.
  - rewrite (Hon now lay s Hs). exact (Hon now' lay' s Hs).
  - destruct (isEmptyStr (trim (scriptInput_value s))) eqn:He.
    + assert (Hb : forall t l, startScrolling t l s = s)
        by (intros; unfold startScrolling; rewrite Hs, He; reflexivity).
      rewrite (Hb now lay). apply Hb.
    + apply Hon. apply startScrolling_on. exact He.
Qed.

Lemma tokenCount_none (t : string) : tokenCount t = 0%nat -> trimEnd t = "".
Proof.
  unfold tokenCount. induction t as [|c t IH]; [reflexivity|].
  cbn. destruct (isWhiteSpace c) eqn:Hc.
  - intros H. rewrite (IH H). reflexivity.
  - intros H. lia.
Qed.

Lemma trim_blank (t : string) : tokenCount t = 0%nat -> trim t = "".
Proof.
  intros H. unfold trim. apply tokenCount_none. rewrite tokenCount_trimStart. exact H.
Qed.

(** X4: a script without a word never starts the scroller:
    [startScrolling] returns the state as it is, and a start of the
    recorder leaves [isScrolling], the timers and the scroll offset as
    they were. *)
Theorem blank_script_never_scrolls (P : Platform) (acq : Acquire) (now : Q)
    (lay : Layout) (s : State) :
  tokenCount (scriptInput_value s) = 0%nat ->
  startScrolling now lay s = s
  /\ isScrolling (startRecording P acq now lay s) = isScrolling s
  /\ timers (startRecording P acq now lay s) = timers s
  /\ scriptInput_scrollTop (startRecording P acq now lay s) = scriptInput_scrollTop s.
Proof.
  intros H. apply trim_blank in H.
  assert (Hsame : forall s', scriptInput_value s' = scriptInput_value s ->
                             startScrolling now lay s' = s').
  { intros s' E. unfold startScrolling. rewrite E, H. cbn.
    destruct (isScrolling s'); reflexivity. }
  split; [apply Hsame; reflexivity|].
  unfold startRecording, setupCamera, setupCamera_request, setupCamera_resume.
  destruct (stream s) as [h|] eqn:Hst; [|destruct acq as [n|]]; cbn -[startScrolling];
    rewrite ?Hst; cbn -[startScrolling];
    destruct (hasMediaRecorder P); cbn -[startScrolling];
    rewrite ?Hsame by reflexivity; repeat split; reflexivity.
Qed.

(** X4, witness: a page whose script is two spaces. *)
Lemma blank_script_never_scrolls_witness :
  isScrolling (startRecording Sample.webmOnly Denied 7 Sample.overflowing Cases.blank)
  = false
  /\ isRecording (startRecording Sample.webmOnly Denied 7 Sample.overflowing Cases.blank)
     = true.
Proof.
  split; [|reflexivity].
  destruct (blank_script_never_scrolls Sample.webmOnly Denied 7 Sample.overflowing
              Cases.blank eq_refl) as (_ & H & _).
  exact H.
Defined.

End Starting.

Section Restart.
Import Text Num Js Media VideoTeleprompter Conditions.
Local Open Scope list_scope.

(** X5: a move of the speed slider while the script scrolls restarts
    the scroll from the top: the old interval timer is cleared, and
    exactly one timer is left, a new job whose duration is computed
    from the new slider value and whose clock starts at the time of the
    move. *)
Theorem speed_change_restarts_scroll (P : Platform) (v : string) (now : Q)
    (lay : Layout) (s : State) :
  reachable P s ->
  isScrolling s = true ->
  (0 < tokenCount (scriptInput_value s))%nat ->
  (0 < scrollHeight lay - clientHeight lay)%Q ->
  let s' := handle P (SpeedInput v now lay) s in
  isScrolling s' = true
  /\ scriptInput_scrollTop s' = Fin 0
  /\ scrollInterval s' = Some (nextTimer s)
  /\ timers s'
     = {[ nextTimer s :=
            mkJob (scrollDuration (trim (scriptInput_value s)) v)
              (scrollHeight lay - clientHeight lay)%Q ]}
  /\ scrollStartTime s' = Some now
  /\ speedSlider_value s' = v.
Proof.
  intros Hr Hs Hw Hover.
  destruct (reachable_invariant P s Hr) as (HI & _ & _).
  pose proof (trim_nonempty _ Hw) as Hne.
  cbn [handle]. unfold updateSpeedDisplay.
  change (isScrolling (set_speedSlider_value v s)) with (isScrolling s). rewrite Hs.
  set (s1 := stopScrolling (set_speedSlider_value v s)).
  assert (HI1 : ScrollInv s1).
  { apply stopScrolling_ScrollInv. apply (ScrollInv_same s); [reflexivity..|exact HI]. }
  assert (Hoff : isScrolling s1 = false) by apply stopScrolling_off.
  assert (Hempty : timers s1 = ∅) by (apply HI1, Hoff).
  assert (Hnext : nextTimer s1 = nextTimer s).
  { unfold s1, stopScrolling, clearInterval. cbn. destruct (scrollInterval s); reflexivity. }
  assert (Hscript : scriptInput_value s1 = scriptInput_value s).
  { unfold s1, stopScrolling, clearInterval. cbn. destruct (scrollInterval s); reflexivity. }
  assert (Hspeed : speedSlider_value s1 = v).
  { unfold s1, stopScrolling, clearInterval. cbn. destruct (scrollInterval s); reflexivity. }
  assert (Hgt : negb (Qle_bool (scrollHeight lay - clientHeight lay) 0) = true).
  { apply negb_true_iff. destruct (Qle_bool _ 0) eqn:E; [|reflexivity].
    apply Qle_bool_iff in E. lra. }
  clearbody s1. unfold startScrolling. rewrite Hoff, Hscript, Hne. cbn -[scrollDuration].
  rewrite Hgt. cbn -[scrollDuration]. rewrite Hempty, Hnext, Hspeed.
  repeat split; reflexivity.
Qed.

(** X5, witness: the sample page while recording, the slider moved to
    60 at time 1500. *)
Lemma speed_change_restarts_scroll_witness :
  timers (handle Sample.webmOnly (SpeedInput "60" 1500 Sample.overflowing)
            Sample.recording)
  = {[ nextTimer Sample.recording :=
         mkJob (scrollDuration (trim (scriptInput_value Sample.recording)) "60")
           (scrollHeight Sample.overflowing - clientHeight Sample.overflowing)%Q ]}.
Proof.
  destruct (speed_change_restarts_scroll Sample.webmOnly "60" 1500 Sample.overflowing
              Sample.recording sample_recording_reachable eq_refl)
    as (_ & _ & _ & H & _).
  - vm_compute. lia.
  - reflexivity.
  - exact H.
Defined.

End Restart.

(** ** The files sent to download *)

Section Downloads.
Import Text Num Js Media VideoTeleprompter Conditions.
Local Open Scope list_scope.

Variable P : Platform.

Lemma outputType_shape (r : option MediaRecorder) :
  fst (outputType r) <> ""
  /\ (snd (outputType r) = "mp4" \/ snd (outputType r) = "webm").
Proof.
  unfold outputType. destruct r as [r|]; [|split; [discriminate|right; reflexivity]].
  destruct (isEmptyStr (mimeType r)) eqn:E; cbn.
  - split; [discriminate|right; reflexivity].
  - split.
    + intros H. rewrite H in E. discriminate.
    + destruct (includes "mp4" (mimeType r)); [left|right]; reflexivity.
Qed.

Lemma saveRecording_playable (s : State) :
  Forall playable (downloads s) -> Forall playable (downloads (saveRecording P s)).
Proof.
  intros H. unfold saveRecording.
  destruct (Nat.eqb (List.length (recordedChunks s)) 0); [exact H|].
  destruct (outputType_shape (mediaRecorder s)) as [Ht He].
  destruct (outputType (mediaRecorder s)) as [mimeType extension].
  destruct (Nat.eqb (size (newBlob (recordedChunks s) mimeType)) 0) eqn:Hz; [exact H|].
  cbn. apply Forall_app. split; [exact H|]. constructor; [|constructor].
  unfold playable. cbn [dl_blob dl_extension]. split.
  - apply Nat.eqb_neq in Hz. lia.
  - split; [exact Ht|exact He].
Qed.

Lemma handle_downloads (e : Event) (s : State) :
  e <> RecorderStop -> downloads (handle P e s) = downloads s.
Proof.
  intros Hne. destruct e; cbn [handle]; try reflexivity; try congruence.
  - unfold toggleRecording, stopRecording, startRecording, setupCamera,
      setupCamera_request, setupCamera_resume, alert.
    destruct (isRecording s).
    + destruct (mediaRecorder s); [|reflexivity].
      rewrite stopScrolling_downloads. reflexivity.
    + destruct acq, (stream s) eqn:Hst; cbn -[startScrolling]; rewrite ?Hst;
        cbn -[startScrolling]; destruct (hasMediaRecorder P); cbn -[startScrolling];
        rewrite ?startScrolling_downloads; reflexivity.
  - unfold switchCamera, setupCamera, setupCamera_request, setupCamera_resume. cbn.
    destruct acq, (stream s); reflexivity.
  - unfold updateSpeedDisplay. cbn. destruct (isScrolling s); [|reflexivity].
    rewrite startScrolling_downloads, stopScrolling_downloads. reflexivity.
  - unfold ondataavailable. destruct (hasData data); reflexivity.
  - apply fireTimer_downloads.
Qed.

Lemma init_downloads (acq : Acquire) (now : Q) (lay : Layout) (s : State) :
  downloads (init P acq now lay s) = downloads s.
Proof.
  unfold init.
  assert (H0 : downloads (checkCompatibility P s) = downloads s).
  { unfold checkCompatibility, alert. cases; reflexivity. }
  assert (H1 : forall u, downloads (loadSettings u) = downloads u).
  { intros u. unfold loadSettings, applySettings. cases; reflexivity. }
  assert (H2 : forall u, downloads (updateSpeedDisplay now lay u) = downloads u).
  { intros u. unfold updateSpeedDisplay. destruct (isScrolling u); [|reflexivity].
    rewrite startScrolling_downloads, stopScrolling_downloads. reflexivity. }
  assert (H3 : forall u, downloads match setupCamera acq u with
                                   | Returned s' => s' | Threw s' => s' end
                         = downloads u).
  { intros u. unfold setupCamera, setupCamera_request, setupCamera_resume.
    destruct acq, (stream u); reflexivity. }
  rewrite H3, H2, H1, H0. reflexivity.
Qed.

End Downloads.

Section DownloadsCases.
Import Text Num Js Media VideoTeleprompter Conditions.
Local Open Scope list_scope.

(** X6: every file the single-class page has sent to download, in any
    state it reaches, holds at least one byte, carries a non-empty MIME
    type, and is named [.mp4] or [.webm]; only the recorder's stop
    event adds a file. *)
Theorem downloads_are_playable (P : Platform) (s : State) :
  reachable P s ->
  Forall playable (downloads s)
  /\ (forall e, e <> RecorderStop -> downloads (handle P e s) = downloads s).
Proof.
  intros Hr. split; [|intros e He; apply handle_downloads, He].
  induction Hr as [script speed textSize storage acq now lay | s e Hr IH].
  - rewrite init_downloads. constructor.
  - destruct e; try (rewrite handle_downloads by discriminate; exact IH).
    apply saveRecording_playable, IH.
Qed.

(** X6, witness: the sample page after a recording of one chunk. *)
Lemma downloads_are_playable_witness :
  Forall playable
    (downloads
       (handle Sample.webmOnly RecorderStop
          (handle Sample.webmOnly (RecordClick Denied 2000 Sample.overflowing)
             (handle Sample.webmOnly (DataAvailable (Sample.chunk [Byte.x01]))
                Sample.recording))))
  /\ List.length
       (downloads
          (handle Sample.webmOnly RecorderStop
             (handle Sample.webmOnly (RecordClick Denied 2000 Sample.overflowing)
                (handle Sample.webmOnly (DataAvailable (Sample.chunk [Byte.x01]))
                   Sample.recording)))) = 1%nat.
Proof.
  split; [|reflexivity].
  apply (downloads_are_playable Sample.webmOnly).
  do 2 apply reachable_step. apply sample_data_reachable.
Defined.

End DownloadsCases.

(** ** Settings: loading, saving in place, the rotation *)

Section SettingsInPlace.
Import Text Num Js Media VideoTeleprompter.
Local Open Scope list_scope.

Lemma applySettings_storage (doc : JsVal) (s : State) :
  localStorage (applySettings doc s) = localStorage s.
Proof. unfold applySettings. cases; reflexivity. Qed.

Lemma applySettings_twice (doc : JsVal) (s : State) :
  applySettings doc (applySettings doc s) = applySettings doc s.
Proof.
  unfold applySettings.
  destruct (truthy (get doc "scriptText")), (truthy (get doc "scrollSpeed")),
    (truthy (get doc "textSize")), (truthy (get doc "currentCamera")),
    (truthy (get doc "isTextRotated")); reflexivity.
Qed.

Lemma loadSettings_storage (s : State) :
  localStorage (loadSettings s) = localStorage s.
Proof.
  unfold loadSettings. destruct (absent _); [reflexivity|].
  destruct (_ ≫= JSON_parse); [apply applySettings_storage|reflexivity].
Qed.

(** X7: [loadSettings] is fail-soft and repeatable.  It never writes
    to storage, loading twice is the same as loading once, and the
    page is left exactly as it was when the key is missing, holds the
    empty text, holds a text that is not JSON, or holds a JSON document
    that is not an object. *)
Theorem loadSettings_fail_soft (s : State) :
  localStorage (loadSettings s) = localStorage s
  /\ loadSettings (loadSettings s) = loadSettings s
  /\ match localStorage s !! settingsKey with
     | Some (JsonText (JObj _)) => True
     | _ => loadSettings s = s
     end.
Proof.
  split; [apply loadSettings_storage|]. split.
  - unfold loadSettings at 1. rewrite loadSettings_storage.
    unfold loadSettings.
    destruct (absent (localStorage s !! settingsKey)); [reflexivity|].
    destruct (localStorage s !! settingsKey ≫= JSON_parse) as [doc|]; [|reflexivity].
    apply applySettings_twice.
  - unfold loadSettings. destruct (localStorage s !! settingsKey) as [[doc|raw]|];
      cbn; try reflexivity.
    + destruct doc; first [reflexivity | exact I].
    + destruct (isEmptyStr raw); reflexivity.
Qed.

(** X8: saving and then loading on the same page changes nothing more:
    for a page whose camera is a string and whose rotation is a
    boolean, [loadSettings] after [saveSettings] returns the saved
    page.  [saveSettings] writes one key only and is idempotent. *)
Theorem save_then_load_in_place (s : State) (cam : string) (rot : bool) :
  currentCamera s = JStr cam ->
  isTextRotated s = JBool rot ->
  loadSettings (saveSettings s) = saveSettings s
  /\ saveSettings (saveSettings s) = saveSettings s
  /\ (forall k, k <> settingsKey ->
        localStorage (saveSettings s) !! k = localStorage s !! k).
Proof.
  intros Hcam Hrot. split; [|split].
  - unfold loadSettings, saveSettings.
    cbn [localStorage set_localStorage]. rewrite lookup_insert_eq.
    unfold settingsObject. rewrite Hcam, Hrot.
    cbn [JSON_stringify jsonImage absent mbind option_bind JSON_parse].
    unfold applySettings.
    cbn [get assoc String.eqb Ascii.eqb Bool.eqb truthy toString].
    destruct s as [mr ch ir isc st cc itr si sst sv stp spv tsv tm nt sts ls dl al].
    cbn in Hcam, Hrot. subst cc itr. cbn.
    destruct (isEmptyStr sv), (isEmptyStr spv), (isEmptyStr tsv), (isEmptyStr cam), rot;
      reflexivity.
  - unfold saveSettings. cbn.
    rewrite insert_insert_eq. reflexivity.
  - intros k Hk. unfold saveSettings. cbn. apply lookup_insert_ne. congruence.
Qed.

(** X8, witness: the sample page. *)
Lemma save_then_load_in_place_witness :
  loadSettings (saveSettings Sample.recording) = saveSettings Sample.recording.
Proof.
  exact (proj1 (save_then_load_in_place Sample.recording "user" false eq_refl eq_refl)).
Defined.

(** X9: the rotation button flips the rotation to a boolean and stores
    it, so that a page started on that store comes up with the same
    rotation; a second click brings back the rotation the page had (as
    a boolean). *)
Theorem rotation_survives_reload (s : State) (script speed textSize : string) :
  let s1 := toggleTextRotation s in
  isTextRotated s1 = JBool (negb (truthy (isTextRotated s)))
  /\ isTextRotated (loadSettings (construct script speed textSize (localStorage s1)))
     = isTextRotated s1
  /\ isTextRotated (toggleTextRotation s1) = JBool (truthy (isTextRotated s)).
Proof.
  cbv zeta. split; [reflexivity|]. split.
  - unfold loadSettings, toggleTextRotation, saveSettings.
    cbn [localStorage set_localStorage construct]. rewrite lookup_insert_eq.
    unfold settingsObject. cbn [isTextRotated set_isTextRotated currentCamera
      scriptInput_value speedSlider_value textSizeSlider_value].
    cbn [JSON_stringify absent mbind option_bind JSON_parse].
    unfold applySettings.
    destruct (currentCamera s) as [|b|c|ps];
      cbn [jsonImage get assoc String.eqb Ascii.eqb Bool.eqb truthy toString];
      destruct (isEmptyStr (scriptInput_value s)), (isEmptyStr (speedSlider_value s)),
        (isEmptyStr (textSizeSlider_value s)), (truthy (isTextRotated s));
      try destruct b; try destruct (isEmptyStr c); reflexivity.
  - unfold toggleTextRotation. cbn. rewrite negb_involutive. reflexivity.
Qed.

End SettingsInPlace.

(** ** The camera choice *)

Section CameraChoice.
Import Text Num Js Media VideoTeleprompter.
Local Open Scope list_scope.

Lemma otherCamera_twice (c : string) :
  c = "user" \/ c = "environment" -> otherCamera (otherCamera (JStr c)) = JStr c.
Proof. intros [-> | ->]; reflexivity. Qed.

(** X10: the camera button on the single-class page.  When the new
    stream is granted, the camera choice is flipped, the page holds
    the new stream with all its tracks live, and a second granted
    switch brings the choice back.  When it is refused, the choice is
    put back and nothing is shown.  Neither outcome touches the
    store: the camera choice is not saved by the switch. *)
Theorem switchCamera_outcome (acq : Acquire) (s : State) (c : string) :
  currentCamera s = JStr c ->
  c = "user" \/ c = "environment" ->
  let s' := switchCamera acq s in
  localStorage s' = localStorage s
  /\ alerts s' = alerts s
  /\ match acq with
     | Granted n =>
         currentCamera s' = otherCamera (JStr c)
         /\ currentCamera s' <> JStr c
         /\ stream s' = Some (List.length (streams s))
         /\ streams s' !! List.length (streams s) = Some (replicate n true)
         /\ forall m, currentCamera (switchCamera (Granted m) s') = JStr c
     | Denied =>
         currentCamera s' = JStr c /\ stream s' = stream s
     end.
Proof.
  intros Hc Hcase. pose proof (otherCamera_twice c Hcase) as Hback.
  unfold switchCamera, setupCamera, setupCamera_request, setupCamera_resume.
  cbn [stream set_currentCamera currentCamera]. rewrite Hc.
  destruct acq as [n|].
  - assert (Hlen : forall h, List.length (alter stopTracks h (streams s))
                             = List.length (streams s))
      by (intros h; apply length_alter).
    destruct (stream s) as [h|]; cbn; rewrite ?Hlen.
    + repeat split; try reflexivity.
      * destruct Hcase as [-> | ->]; discriminate.
      * apply list_lookup_middle. symmetry. apply Hlen.
      * intros m. exact Hback.
    + repeat split; try reflexivity.
      * destruct Hcase as [-> | ->]; discriminate.
      * apply list_lookup_middle. reflexivity.
      * intros m. exact Hback.
  - destruct (stream s) as [h|] eqn:Hst; cbn; rewrite Hback, ?Hst;
      repeat split; reflexivity.
Qed.

(** X10, witness: the sample page, whose camera is ['user']. *)
Lemma switchCamera_outcome_witness :
  currentCamera (switchCamera (Granted 2) Sample.ready) = JStr "environment"
  /\ currentCamera (switchCamera Denied Sample.ready) = JStr "user".
Proof.
  split.
  - destruct (switchCamera_outcome (Granted 2) Sample.ready "user" eq_refl
                (or_introl eq_refl)) as (_ & _ & H & _).
    exact H.
  - destruct (switchCamera_outcome Denied Sample.ready "user" eq_refl
                (or_introl eq_refl)) as (_ & _ & H & _).
    exact H.
Defined.


End CameraChoice.

Section CameraChoiceCases.
Import Text Num Js Media VideoTeleprompter.
Local Open Scope list_scope.


End CameraChoiceCases.

(** ** Dragging and resizing: the latest pointer position decides *)

Section GeometryMoves.
Import Geometry Conditions.
Local Open Scope Q_scope.

Lemma keepWithin_mono (a b limit : Q) : a <= b -> keepWithin a limit <= keepWithin b limit.
Proof.
  intros H. unfold keepWithin. apply Q.max_le_compat_l. apply Q.min_le_compat_r. exact H.
Qed.

Lemma clampWidth_mono (vp : Viewport) (a b : Q) :
  a <= b -> clampWidth vp a <= clampWidth vp b.
Proof.
  intros H. unfold clampWidth. apply Q.max_le_compat_l. apply Q.min_le_compat_r. exact H.
Qed.

Lemma clampHeight_mono (vp : Viewport) (a b : Q) :
  a <= b -> clampHeight vp a <= clampHeight vp b.
Proof.
  intros H. unfold clampHeight. apply Q.max_le_compat_l. apply Q.min_le_compat_r. exact H.
Qed.

Lemma leStyle_refl (a : option Q) : leStyle a a.
Proof. destruct a; cbn; [apply Qle_refl|exact I]. Qed.

(** X12: during a gesture the box follows the pointer, not the path:
    the style after two pointer moves is the style after the second
    one alone, whatever the first was.  A move with no gesture in
    progress changes nothing, and ending a gesture keeps the style. *)
Theorem pointer_moves_do_not_accumulate (vp : Viewport) (e1 e2 : Pointer)
    (box1 box2 : Rect) (g : Gesture) :
  pointerMove vp e2 box2 (pointerMove vp e1 box1 g) = pointerMove vp e2 box2 g
  /\ (if isDragging g || isResizing g then True else pointerMove vp e1 box1 g = g)
  /\ style (pointerUp g) = style g
  /\ style (touchEnd g) = style g.
Proof.
  destruct g as [d r sx sy sl st sw sh ld sty].
  unfold pointerMove, resize, drag, pointerUp, touchEnd, endResize, endDrag,
    setLastDistance, setSize.
  destruct d, r; cbn; repeat split; reflexivity.
Qed.

(** X13: the clamps are monotone: a pointer further right or further
    down never leaves the box further left or further up, nor
    narrower or shorter, than a pointer to its upper left would. *)
Theorem pointer_moves_are_monotone (vp : Viewport) (e1 e2 : Pointer) (box : Rect)
    (g : Gesture) :
  clientX e1 <= clientX e2 ->
  clientY e1 <= clientY e2 ->
  let a := style (pointerMove vp e1 box g) in
  let b := style (pointerMove vp e2 box g) in
  leStyle (left a) (left b) /\ leStyle (top a) (top b)
  /\ leStyle (width a) (width b) /\ leStyle (height a) (height b).
Proof.
  intros Hx Hy.
  destruct g as [d r sx sy sl st sw sh ld sty].
  unfold pointerMove, resize, drag, setSize.
  destruct d, r; cbn -[keepWithin clampWidth clampHeight];
    repeat split;
    try apply leStyle_refl;
    first [ apply keepWithin_mono | apply clampWidth_mono | apply clampHeight_mono ];
    lra.
Qed.

(** X13, witness: a drag on the desktop, the pointer moved from
    (100, 100) to (140, 130). *)
Lemma pointer_moves_are_monotone_witness :
  let g := startDrag false (mkPointer 90 90) (mkRect 50 50 400 300) initial in
  leStyle (left (style (pointerMove Sample.desktop (mkPointer 100 100)
                          (mkRect 50 50 400 300) g)))
          (left (style (pointerMove Sample.desktop (mkPointer 140 130)
                          (mkRect 50 50 400 300) g))).
Proof.
  cbv zeta.
  refine (proj1 (pointer_moves_are_monotone Sample.desktop (mkPointer 100 100)
                   (mkPointer 140 130) (mkRect 50 50 400 300) _ _ _)).
  - vm_compute. discriminate.
  - vm_compute. discriminate.
Defined.

End GeometryMoves.

(** ** The component split: camera, recorder, frames *)

Section Components.
Import Media Conditions.
Local Open Scope list_scope.

Variable P : Platform.

Abbreviation video := ControlsComponent.videoComponent.
Abbreviation script := ControlsComponent.scriptComponent.

(** *** The camera *)




Lemma VideoComponent_startRecording_camera (v : VideoComponent.State) :
  VideoComponent.streams (fst (VideoComponent.startRecording P v)) = VideoComponent.streams v
  /\ VideoComponent.stream (fst (VideoComponent.startRecording P v)) = VideoComponent.stream v
  /\ VideoComponent.downloads (fst (VideoComponent.startRecording P v))
     = VideoComponent.downloads v
  /\ VideoComponent.currentCamera (fst (VideoComponent.startRecording P v))
     = VideoComponent.currentCamera v.
Proof.
  unfold VideoComponent.startRecording, VideoComponent.checkRecordingCompatibility,
    VideoComponent.alert.
  destruct (VideoComponent.stream v) eqn:Hst; [|cbn; rewrite ?Hst; repeat split; reflexivity].
  destruct (negb (hasMediaRecorder P)); [cbn; rewrite ?Hst; repeat split; reflexivity|].
  destruct (List.filter (isTypeSupported P) VideoComponent.typesToCheck);
    cbn; rewrite ?Hst; repeat split; reflexivity.
Qed.

Lemma VideoComponent_stopRecording_camera (v : VideoComponent.State) :
  VideoComponent.streams (fst (VideoComponent.stopRecording v)) = VideoComponent.streams v
  /\ VideoComponent.stream (fst (VideoComponent.stopRecording v)) = VideoComponent.stream v
  /\ VideoComponent.downloads (fst (VideoComponent.stopRecording v))
     = VideoComponent.downloads v
  /\ VideoComponent.currentCamera (fst (VideoComponent.stopRecording v))
     = VideoComponent.currentCamera v.
Proof.
  unfold VideoComponent.stopRecording.
  destruct (VideoComponent.mediaRecorder v), (VideoComponent.isRecording v);
    repeat split; reflexivity.
Qed.

Lemma toggleRecording_camera (c : ControlsComponent.State) :
  VideoComponent.streams (video (ControlsComponent.toggleRecording P c))
  = VideoComponent.streams (video c)
  /\ VideoComponent.stream (video (ControlsComponent.toggleRecording P c))
     = VideoComponent.stream (video c)
  /\ VideoComponent.downloads (video (ControlsComponent.toggleRecording P c))
     = VideoComponent.downloads (video c)
  /\ VideoComponent.currentCamera (video (ControlsComponent.toggleRecording P c))
     = VideoComponent.currentCamera (video c).
Proof.
  unfold ControlsComponent.toggleRecording, VideoComponent.getRecordingState.
  destruct (negb _); [repeat split; reflexivity|].
  destruct (VideoComponent.isRecording (video c)).
  - pose proof (VideoComponent_stopRecording_camera (video c)) as H.
    destruct (VideoComponent.stopRecording (video c)) as [v ok]. destruct ok; exact H.
  - pose proof (VideoComponent_startRecording_camera (video c)) as H.
    destruct (VideoComponent.startRecording P (video c)) as [v ok]. destruct ok; exact H.
Qed.


(** *** The frames of the scroller *)










End Components.

Section ComponentCases.
Import Media Conditions.
Local Open Scope list_scope.

Abbreviation video := ControlsComponent.videoComponent.
Abbreviation script := ControlsComponent.scriptComponent.





Lemma size_newBlob (first : Blob) (rest : list Blob) (t : string) :
  (0 < size first)%nat -> (0 < size (newBlob (first :: rest) t))%nat.
Proof.
  unfold size, newBlob. cbn. rewrite length_app. lia.
Qed.

Lemma downloadRecording_holds (P : Platform) (v : VideoComponent.State) :
  chunksHoldBytes (VideoComponent.recordedChunks v) ->
  Forall (fun d => 0 < size (dl_blob d))%nat (VideoComponent.downloads v) ->
  Forall (fun d => 0 < size (dl_blob d))%nat
    (VideoComponent.downloads (VideoComponent.downloadRecording P v)).
Proof.
  intros Hc Hd. unfold VideoComponent.downloadRecording.
  destruct (VideoComponent.recordedChunks v) as [|first rest]; [exact Hd|].
  cbn [VideoComponent.downloads]. apply Forall_app. split; [exact Hd|].
  constructor; [|constructor]. cbn [dl_blob].
  apply size_newBlob. inversion Hc; assumption.
Qed.

(** X16: the files of the component page.  In every state it reaches,
    each file sent to download holds at least one byte.  The stop
    event of the recorder empties the chunk list, so that a second
    stop event downloads nothing more. *)
Theorem component_downloads_hold_bytes (P : Platform) (c : ControlsComponent.State) :
  ControlsComponent.reachable P c ->
  Forall (fun d => 0 < size (dl_blob d))%nat (VideoComponent.downloads (video c))
  /\ VideoComponent.recordedChunks (VideoComponent.downloadRecording P (video c)) = []
  /\ ControlsComponent.handle P ControlsComponent.RecorderStop
       (ControlsComponent.handle P ControlsComponent.RecorderStop c)
     = ControlsComponent.handle P ControlsComponent.RecorderStop c.
Proof.
  intros Hr. split; [|split].
  - induction Hr as [acq | c e Hr IH].
    + destruct acq; constructor.
    + destruct e; cbn [ControlsComponent.handle video].
      * destruct (toggleRecording_camera P c) as (_ & _ & -> & _). exact IH.
      * unfold ControlsComponent.switchCamera, VideoComponent.switchCamera,
          VideoComponent.setupCamera, VideoComponent.setupCamera_request,
          VideoComponent.setupCamera_resume, VideoComponent.alert.
        cbn. destruct acq, (VideoComponent.stream (video c)); exact IH.
      * unfold VideoComponent.ondataavailable. destruct (hasData data); exact IH.
      * apply downloadRecording_holds; [|exact IH]. apply (component_chunks P), Hr.
      * exact IH.
  - unfold VideoComponent.downloadRecording.
    destruct (VideoComponent.recordedChunks (video c)) eqn:E; [exact E|reflexivity].
  - cbn [ControlsComponent.handle video script]. f_equal.
    unfold VideoComponent.downloadRecording at 1.
    destruct (VideoComponent.recordedChunks (video c)) eqn:E.
    + unfold VideoComponent.downloadRecording. rewrite E, E. reflexivity.
    + unfold VideoComponent.downloadRecording. rewrite E. reflexivity.
Qed.

(** X16, witness: the sample component page after one chunk, a stop
    and the recorder's stop event. *)
Lemma component_downloads_hold_bytes_witness :
  let c := ControlsComponent.handle Sample.webmOnly ControlsComponent.RecorderStop
             (ControlsComponent.handle Sample.webmOnly ControlsComponent.RecordClick
                (ControlsComponent.handle Sample.webmOnly
                   (ControlsComponent.DataAvailable (Sample.chunk [Byte.x01]))
                   Sample.componentsRecording)) in
  List.length (VideoComponent.downloads (video c)) = 1%nat
  /\ Forall (fun d => 0 < size (dl_blob d))%nat (VideoComponent.downloads (video c)).
Proof.
  cbv zeta. split; [reflexivity|].
  refine (proj1 (component_downloads_hold_bytes Sample.webmOnly _ _)).
  do 2 apply ControlsComponent.reachable_step. apply sample_components_reachable.
Defined.



End ComponentCases.

(** ** Teardown and the public stop *)

Section Teardown.
Import Media Conditions.
Local Open Scope list_scope.

Abbreviation video := ControlsComponent.videoComponent.
Abbreviation script := ControlsComponent.scriptComponent.






End Teardown.

(** ** The presets of the controls *)

Section Presets.
Import ControlsPresets.
Local Open Scope Q_scope.



End Presets.

(** ** The resize handles of the script component *)

Section ResizeHandles.
Import Geometry ScriptResize Conditions.
Local Open Scope Q_scope.

Lemma clamp_bounds (lo hi x : Q) :
  lo <= Qmax lo (Qmin hi x) /\ (lo <= hi -> Qmax lo (Qmin hi x) <= hi).
Proof.
  split; [apply Q.le_max_l|]. intros H. apply Q.max_lub; [exact H|apply Q.le_min_l].
Qed.

Lemma clamp_wd (lo hi x y : Q) : x == y -> Qmax lo (Qmin hi x) == Qmax lo (Qmin hi y).
Proof.
  intros H. apply Qle_antisym; apply Q.max_le_compat_l, Q.min_le_compat_l; lra.
Qed.

(** X21: the resize handles keep the script box within the limits.
    A size written by a handle is at least the minimum (150 high, 300
    wide) and, when the window the class was loaded in leaves room for
    that, at most the maximum (0.8 of its height, 0.9 of its width);
    the script input is always 10 px lower than the box.  This holds
    at construction and is kept by every start, move and end of a
    gesture. *)
Theorem resize_handles_keep_limits (vp : Viewport) (e : Pointer) (d : Direction)
    (box : Rect) (s : State) :
  sized (RESIZE vp) s ->
  sized (RESIZE vp) (startResize e d box s)
  /\ sized (RESIZE vp) (handleResize (RESIZE vp) e s)
  /\ sized (RESIZE vp) (stopResize s)
  /\ sized (RESIZE vp) construct.
Proof.
  intros [Hh Hw]. split; [|split; [|split]].
  - destruct d; split; cbn; assumption.
  - unfold handleResize.
    destruct (negb (isResizing s) && negb (isResizingWidth s)); [split; assumption|].
    destruct (isResizing s && isBottom (resizeDirection s)).
    + split; cbn [handleHeightResize scriptBox_height scriptBox_width scriptInput_height].
      * intros h [= <-]. split; [apply clamp_bounds|]. split; [apply clamp_bounds|].
        reflexivity.
      * exact Hw.
    + destruct (isResizingWidth s); [|split; assumption].
      split; cbn [handleWidthResize scriptBox_height scriptBox_width scriptInput_height].
      * exact Hh.
      * intros w [= <-]. split; apply clamp_bounds.
  - unfold stopResize.
    destruct (negb (isResizing s) && negb (isResizingWidth s)); split; cbn; assumption.
  - split; intros x; discriminate.
Qed.

(** X21, witness: the bottom handle dragged far down on the desktop
    window stops at 640 px, the input at 630 px. *)
Lemma resize_handles_keep_limits_witness :
  let s := handleResize (RESIZE Sample.desktop) (mkPointer 0 5000)
             (startResize (mkPointer 0 400) Bottom (mkRect 0 0 600 300) construct) in
  sized (RESIZE Sample.desktop) s
  /\ eqStyle (scriptBox_height s) (Some 640)
  /\ eqStyle (scriptInput_height s) (Some 630).
Proof.
  cbv zeta. split; [|split; reflexivity].
  refine (proj1 (proj2 (resize_handles_keep_limits Sample.desktop (mkPointer 0 5000)
                          Bottom (mkRect 0 0 600 300) _ _))).
  refine (proj1 (resize_handles_keep_limits Sample.desktop (mkPointer 0 400) Bottom
                   (mkRect 0 0 600 300) construct _)).
  split; intros x; discriminate.
Defined.

(** X22: how the three handles act.  The left and the right handle
    mirror each other: moving the pointer by [dx] to the left on the
    left handle gives the width that moving it by [dx] to the right on
    the right handle gives.  A gesture on a side handle never writes
    the height and one on the bottom handle never writes the width.
    The size follows the latest pointer position, not the path.  The
    end of a gesture writes the settings once, a [mouseup] without a
    gesture writes nothing, and after the end pointer moves are
    ignored. *)
Theorem resize_handles_behave (L : Limits) (e0 e1 e2 : Pointer) (dx y : Q)
    (box : Rect) (s : State) :
  eqStyle
    (scriptBox_width
       (handleResize L (mkPointer (clientX e0 - dx) y) (startResize e0 Left box s)))
    (scriptBox_width
       (handleResize L (mkPointer (clientX e0 + dx) y) (startResize e0 Right box s)))
  /\ scriptBox_height (handleResize L e1 (startResize e0 Left box s)) = scriptBox_height s
  /\ scriptBox_height (handleResize L e1 (startResize e0 Right box s)) = scriptBox_height s
  /\ scriptBox_width (handleResize L e1 (startResize e0 Bottom box s)) = scriptBox_width s
  /\ handleResize L e2 (handleResize L e1 s) = handleResize L e2 s
  /\ handleResize L e1 (stopResize s) = stopResize s
  /\ stopResize (stopResize s) = stopResize s
  /\ saves (stopResize s)
     = (if isResizing s || isResizingWidth s then S (saves s) else saves s).
Proof.
  destruct s as [r ih iy rw iw ix dir bh bw inh sv].
  split.
  { unfold handleResize, startResize, handleWidthResize. cbn.
    destruct r; cbn; apply clamp_wd; lra. }
  split.
  { unfold handleResize, startResize. cbn. destruct r; reflexivity. }
  split.
  { unfold handleResize, startResize. cbn. destruct r; reflexivity. }
  split.
  { unfold handleResize, startResize. cbn. reflexivity. }
  split.
  { unfold handleResize, handleHeightResize, handleWidthResize. cbn.
    destruct r, rw, dir as [[]|]; reflexivity. }
  split.
  { unfold handleResize, stopResize. cbn. destruct r, rw; reflexivity. }
  split.
  { unfold stopResize. cbn. destruct r, rw; reflexivity. }
  unfold stopResize. cbn. destruct r, rw; reflexivity.
Qed.

End ResizeHandles.

(** ** The service worker *)

Section Worker.
Import ServiceWorker.
Local Open Scope list_scope.

Lemma delete_filter (f : string * Cache -> bool) (n : string) (cs : CacheStorage) :
  List.filter f (delete n cs)
  = List.filter (fun nc => f nc && negb (String.eqb (fst nc) n)) cs.
Proof.
  unfold delete. induction cs as [|nc cs IH]; [reflexivity|].
  cbn. destruct (String.eqb (fst nc) n); cbn; rewrite ?andb_true_r, ?andb_false_r.
  - exact IH.
  - destruct (f nc); [f_equal|]; exact IH.
Qed.

Lemma activate_fold (names : list string) (cs : CacheStorage) :
  fold_left
    (fun cs cacheName =>
       if negb (String.eqb cacheName CACHE_NAME) then delete cacheName cs else cs)
    names cs
  = List.filter
      (fun nc => isCurrent nc || negb (existsb (String.eqb (fst nc)) names)) cs.
Proof.
  revert cs. induction names as [|n names IH]; intros cs.
  - cbn. induction cs as [|nc cs IHcs]; [reflexivity|].
    cbn. rewrite orb_true_r. f_equal. exact IHcs.
  - cbn [fold_left]. rewrite IH. destruct (String.eqb n CACHE_NAME) eqn:En; cbn [negb].
    + apply String.eqb_eq in En. subst n. apply List.filter_ext. intros nc.
      unfold isCurrent. cbn. destruct (String.eqb (fst nc) CACHE_NAME); reflexivity.
    + unfold delete. rewrite (delete_filter _ n cs). apply List.filter_ext. intros nc.
      unfold isCurrent. cbn. destruct (String.eqb (fst nc) n) eqn:E; cbn.
      * apply String.eqb_eq in E. rewrite E, En. rewrite andb_false_r. reflexivity.
      * rewrite andb_true_r. reflexivity.
Qed.

Lemma activate_filter (cs : CacheStorage) : activate cs = List.filter isCurrent cs.
Proof.
  unfold activate. rewrite activate_fold. apply List.filter_ext_in. intros nc Hin.
  assert (H : existsb (String.eqb (fst nc)) (keys cs) = true).
  { apply existsb_exists. exists (fst nc). split; [|apply String.eqb_refl].
    unfold keys. apply List.in_map. exact Hin. }
  rewrite H. apply orb_false_r.
Qed.

Lemma cacheNamed_filter (n : string) (cs : CacheStorage) :
  cacheNamed n (List.filter isCurrent cs)
  = if String.eqb n CACHE_NAME then cacheNamed n cs else None.
Proof.
  induction cs as [|[n' c] cs IH]; [destruct (String.eqb n CACHE_NAME); reflexivity|].
  cbn [List.filter]. unfold isCurrent at 1. cbn [fst].
  destruct (String.eqb n' CACHE_NAME) eqn:E'.
  - cbn [cacheNamed]. destruct (String.eqb n' n) eqn:E.
    + apply String.eqb_eq in E. subst n'. rewrite E'. reflexivity.
    + exact IH.
  - rewrite IH. cbn [cacheNamed]. destruct (String.eqb n CACHE_NAME) eqn:E; [|reflexivity].
    apply String.eqb_eq in E. subst n. rewrite E'. reflexivity.
Qed.

(** X23: after activation only the current cache is left, with its
    content: [activate] keeps exactly the caches named [CACHE_NAME],
    so a look-up of any other name finds nothing, and activating
    again changes nothing. *)
Theorem activate_keeps_current_cache (cs : CacheStorage) (n : string) :
  activate cs = List.filter (fun nc => String.eqb (fst nc) CACHE_NAME) cs
  /\ cacheNamed n (activate cs)
     = (if String.eqb n CACHE_NAME then cacheNamed n cs else None)
  /\ Forall (fun name => name = CACHE_NAME) (keys (activate cs))
  /\ activate (activate cs) = activate cs.
Proof.
  split; [apply activate_filter|]. split; [|split].
  - rewrite activate_filter. apply cacheNamed_filter.
  - rewrite activate_filter. unfold keys. apply List.Forall_map.
    apply List.Forall_forall. intros nc Hin. apply List.filter_In in Hin.
    destruct Hin as [_ H]. apply String.eqb_eq. exact H.
  - rewrite !activate_filter. induction cs as [|nc cs IH]; [reflexivity|].
    cbn. destruct (isCurrent nc) eqn:E; cbn; rewrite ?E, IH; reflexivity.
Qed.

(** *** Look-ups after a put *)

Lemma has_cons (n n' : string) (c : Cache) (cs : CacheStorage) :
  has n ((n', c) :: cs) = String.eqb n' n || has n cs.
Proof. unfold has, keys. cbn. rewrite (String.eqb_sym n n'). reflexivity. Qed.

Lemma matchAll_putIn (n u : string) (r : Response) (cs : CacheStorage) :
  has n cs = true -> matchAll u cs = None -> matchAll u (putIn n u r cs) = Some r.
Proof.
  induction cs as [|[n' c] cs IH]; [discriminate|].
  rewrite has_cons. cbn [matchAll putIn]. destruct (c !! u) eqn:Hc; [discriminate|].
  destruct (String.eqb n' n); cbn [orb matchAll].
  - intros _ _. unfold Cache in *. rewrite lookup_insert_eq. reflexivity.
  - intros Hhas Hnone. rewrite Hc. apply IH; assumption.
Qed.

Lemma has_open (n : string) (cs : CacheStorage) : has n (open n cs) = true.
Proof.
  unfold open. destruct (has n cs) eqn:E; [exact E|].
  unfold has, keys. rewrite List.map_app, existsb_app. cbn.
  rewrite String.eqb_refl. apply orb_true_r.
Qed.

Lemma matchAll_open (n u : string) (cs : CacheStorage) :
  matchAll u (open n cs) = matchAll u cs.
Proof.
  unfold open. destruct (has n cs); [reflexivity|].
  induction cs as [|[n' c] cs IH]; [reflexivity|].
  cbn [app matchAll]. destruct (c !! u); [reflexivity|exact IH].
Qed.

Lemma matchAll_put (u : string) (r : Response) (cs : CacheStorage) :
  matchAll u cs = None -> matchAll u (put CACHE_NAME u r cs) = Some r.
Proof.
  intros H. unfold put. apply matchAll_putIn; [apply has_open|].
  rewrite matchAll_open. exact H.
Qed.

(** X24: read-through caching.  A GET for an http(s) URL that is not
    cached and that the network answers with a [basic] response of
    status 200 is answered with that response, and from then on the
    same request is answered with it from the cache, whatever the
    network does, without any further change of the storage. *)
Theorem fetched_once_then_served_from_cache (loc : Location) (net net' : Network)
    (req : Request) (cs : CacheStorage) (r : Response) :
  method req = "GET" ->
  String.prefix "http" (url req) = true ->
  matchAll (url req) cs = None ->
  net (url req) = Some r ->
  status r = 200%nat ->
  type r = "basic" ->
  let cs' := snd (onfetch loc net req cs) in
  fst (onfetch loc net req cs) = Respond r
  /\ cs' = put CACHE_NAME (url req) r cs
  /\ onfetch loc net' req cs' = (Respond r, cs').
Proof.
  intros Hm Hp Hmiss Hnet Hst Hty.
  assert (E : onfetch loc net req cs = (Respond r, put CACHE_NAME (url req) r cs)).
  { unfold onfetch. rewrite Hm, Hp, Hmiss, Hnet, Hst, Hty. reflexivity. }
  rewrite E. cbn [fst snd]. split; [reflexivity|]. split; [reflexivity|].
  unfold onfetch. rewrite Hm, Hp. cbn [String.eqb negb].
  rewrite (matchAll_put _ r cs Hmiss). reflexivity.
Qed.

(** X25: what the worker never caches.  If handling a request changed
    the cache storage, then the request was a GET for an http(s) URL,
    nothing in any cache matched it, and the network answered it with
    a [basic] response of status 200, which is the reply. *)
Theorem onfetch_caches_only_good_responses (loc : Location) (net : Network)
    (req : Request) (cs : CacheStorage) :
  snd (onfetch loc net req cs) <> cs ->
  method req = "GET"
  /\ String.prefix "http" (url req) = true
  /\ matchAll (url req) cs = None
  /\ exists r, net (url req) = Some r /\ status r = 200%nat /\ type r = "basic"
               /\ fst (onfetch loc net req cs) = Respond r.
Proof.
  unfold onfetch.
  destruct (String.eqb (method req) "GET") eqn:Hm; cbn [negb]; [|intros H; destruct H; reflexivity].
  destruct (String.prefix "http" (url req)) eqn:Hp; cbn [negb];
    [|intros H; destruct H; reflexivity].
  destruct (matchAll (url req) cs) eqn:Hmiss; [intros H; destruct H; reflexivity|].
  destruct (net (url req)) as [r|] eqn:Hnet.
  - destruct (Nat.eqb (status r) 200) eqn:Hst; cbn [negb orb];
      [|intros H; destruct H; reflexivity].
    destruct (String.eqb (type r) "basic") eqn:Hty; cbn [negb];
      [|intros H; destruct H; reflexivity].
    intros _. apply String.eqb_eq in Hm, Hty. apply Nat.eqb_eq in Hst.
    split; [exact Hm|]. split; [reflexivity|]. split; [reflexivity|].
    exists r. repeat split; assumption.
  - destruct (String.eqb (destination req) "document"); intros H; destruct H; reflexivity.
Qed.

End Worker.

Section WorkerCases.
Import ServiceWorker.
Local Open Scope list_scope.

(** X24, witness: a first visit on an empty storage, then offline. *)
Lemma fetched_once_then_served_from_cache_witness :
  let req := mkRequest "GET" "https://example.github.io/video-prompter/logo.png" "image" in
  onfetch Cases.deployed Cases.offline req (snd (onfetch Cases.deployed Cases.online req []))
  = (Respond (mkResponse 200 "basic" (url req)),
     snd (onfetch Cases.deployed Cases.online req [])).
Proof.
  cbv zeta.
  exact (proj2 (proj2
    (fetched_once_then_served_from_cache Cases.deployed Cases.online Cases.offline
       (mkRequest "GET" "https://example.github.io/video-prompter/logo.png" "image") []
       (mkResponse 200 "basic" "https://example.github.io/video-prompter/logo.png")
       eq_refl eq_refl eq_refl eq_refl eq_refl eq_refl))).
Defined.

(** X25, witness: the same first visit does change the storage. *)
Lemma onfetch_caches_only_good_responses_witness :
  matchAll "https://example.github.io/video-prompter/logo.png" [] = None
  /\ method (mkRequest "GET" "https://example.github.io/video-prompter/logo.png" "image")
     = "GET".
Proof.
  destruct (onfetch_caches_only_good_responses Cases.deployed Cases.online
              (mkRequest "GET" "https://example.github.io/video-prompter/logo.png" "image")
              []) as (H1 & _ & H2 & _).
  - vm_compute. discriminate.
  - split; [exact H2|exact H1].
Defined.

End WorkerCases.

Section WorkerInstall.
Import ServiceWorker.
Local Open Scope list_scope.

Lemma cacheNamed_has (n : string) (cs : CacheStorage) :
  has n cs = true -> exists c, cacheNamed n cs = Some c.
Proof.
  induction cs as [|[n' c] cs IH]; [discriminate|].
  rewrite has_cons. cbn [cacheNamed]. destruct (String.eqb n' n); [eauto|exact IH].
Qed.

Lemma cacheNamed_putIn (n u : string) (r : Response) (cs : CacheStorage) :
  cacheNamed n (putIn n u r cs) = option_map (fun c => <[u := r]> c) (cacheNamed n cs).
Proof.
  induction cs as [|[n' c] cs IH]; [reflexivity|].
  cbn [putIn cacheNamed]. destruct (String.eqb n' n) eqn:E; cbn [cacheNamed]; rewrite E.
  - reflexivity.
  - exact IH.
Qed.

Lemma cacheNamed_fold (n : string) (entries : list (string * Response))
    (cs : CacheStorage) :
  cacheNamed n (fold_left (fun cs e => putIn n (fst e) (snd e) cs) entries cs)
  = option_map (fun c : Cache => fold_left (fun c e => <[fst e := snd e]> c) entries c)
      (cacheNamed n cs).
Proof.
  revert cs. induction entries as [|e entries IH]; intros cs.
  - cbn. destruct (cacheNamed n cs); reflexivity.
  - cbn [fold_left]. rewrite IH, cacheNamed_putIn.
    destruct (cacheNamed n cs); reflexivity.
Qed.

Lemma fetchAll_entries (net : Network) (urls : list string)
    (entries : list (string * Response)) :
  fetchAll net urls = Some entries ->
  List.map fst entries = urls
  /\ Forall (fun e => net (fst e) = Some (snd e)) entries.
Proof.
  revert entries. induction urls as [|u urls IH]; intros entries.
  - intros [= <-]. split; [reflexivity|constructor].
  - cbn [fetchAll]. destruct (net u) as [r|] eqn:Hu; [|discriminate].
    destruct (ok r); [|discriminate].
    destruct (fetchAll net urls) as [es|]; [|discriminate].
    intros [= <-]. destruct (IH es eq_refl) as [H1 H2]. split.
    + cbn. rewrite H1. reflexivity.
    + constructor; [exact Hu|exact H2].
Qed.

Lemma fold_insert_other (entries : list (string * Response)) (c : gmap string Response)
    (u : string) :
  ~ In u (List.map fst entries) ->
  fold_left (fun c e => <[fst e := snd e]> c) entries c !! u = c !! u.
Proof.
  revert c. induction entries as [|e entries IH]; intros c Hn; [reflexivity|].
  cbn [fold_left]. rewrite IH.
  - apply lookup_insert_ne. intros E. apply Hn. left. exact E.
  - intros Hin. apply Hn. right. exact Hin.
Qed.

Lemma fold_insert_lookup (net : Network) (entries : list (string * Response))
    (c : gmap string Response) (u : string) (r : Response) :
  Forall (fun e => net (fst e) = Some (snd e)) entries ->
  net u = Some r ->
  In u (List.map fst entries) \/ c !! u = Some r ->
  fold_left (fun c e => <[fst e := snd e]> c) entries c !! u = Some r.
Proof.
  intros Hall Hu. revert c. induction Hall as [|e entries He Hall IH]; intros c Hc.
  - destruct Hc as [[]|Hc]. exact Hc.
  - cbn [fold_left]. apply IH.
    destruct (decide (fst e = u)) as [E|E].
    + right. rewrite E. rewrite E, Hu in He. injection He as <-.
      apply lookup_insert_eq.
    + destruct Hc as [[Hc|Hc]|Hc].
      * contradiction.
      * left. exact Hc.
      * right. rewrite lookup_insert_ne by exact E. exact Hc.
Qed.

Lemma matchAll_current (cs : CacheStorage) (c : Cache) (u : string) (r : Response) :
  cacheNamed CACHE_NAME cs = Some c -> c !! u = Some r ->
  matchAll u (List.filter isCurrent cs) = Some r.
Proof.
  induction cs as [|[n' c'] cs IH]; [discriminate|].
  cbn [cacheNamed List.filter]. unfold isCurrent at 1. cbn [fst].
  destruct (String.eqb n' CACHE_NAME).
  - intros [= ->] Hu. cbn [matchAll]. unfold Cache in *. rewrite Hu. reflexivity.
  - exact IH.
Qed.

Lemma prefix_app (p s t : string) :
  String.prefix p s = true -> String.prefix p (s ++ t) = true.
Proof.
  revert s. induction p as [|a p IH]; intros s;
    [intros _; destruct (s +:+ t); reflexivity|].
  destruct s as [|b s]; [discriminate|].
  change (String b s +:+ t) with (String b (s +:+ t)).
  change (String.prefix (String a p) (String b s))
    with (if Ascii.ascii_dec a b then String.prefix p s else false).
  change (String.prefix (String a p) (String b (s +:+ t)))
    with (if Ascii.ascii_dec a b then String.prefix p (s +:+ t) else false).
  destruct (Ascii.ascii_dec a b); [apply IH|discriminate].
Qed.

Lemma append_inj (s a b : string) : (s ++ a = s ++ b)%string -> a = b.
Proof. induction s as [|x s IH]; cbn; [tauto|]. intros [= H]. exact (IH H). Qed.

(** X26: after a successful installation and the activation, every
    static asset is served from the cache whatever the network does:
    the reply to a GET for an asset is the response the network gave
    at installation time, also when an older cache held something
    else for it, and the storage is not changed. *)
Theorem installed_assets_served_offline (loc : Location) (net net' : Network)
    (cs : CacheStorage) (entries : list (string * Response)) (path : string)
    (req : Request) :
  fetchAll net (List.map (resolve loc) (STATIC_ASSETS loc)) = Some entries ->
  In path (STATIC_ASSETS loc) ->
  String.prefix "http" (origin loc) = true ->
  method req = "GET" ->
  url req = resolve loc path ->
  let cs' := activate (install loc net cs) in
  exists r, net (url req) = Some r /\ onfetch loc net' req cs' = (Respond r, cs').
Proof.
  intros Hall Hin Horigin Hm Hurl cs'.
  destruct (fetchAll_entries _ _ _ Hall) as [Hkeys Hnet].
  assert (Hu : In (url req) (List.map fst entries)).
  { rewrite Hkeys, Hurl. apply List.in_map. exact Hin. }
  assert (Hr : exists r, net (url req) = Some r).
  { apply List.in_map_iff in Hu. destruct Hu as (e & He & Hine).
    rewrite List.Forall_forall in Hnet. specialize (Hnet e Hine).
    rewrite He in Hnet. eauto. }
  destruct Hr as [r Hr]. exists r. split; [exact Hr|].
  destruct (cacheNamed_has CACHE_NAME (open CACHE_NAME cs) (has_open _ _)) as [c0 Hc0].
  assert (Hhit : matchAll (url req) cs' = Some r).
  { subst cs'. rewrite activate_filter.
    apply (matchAll_current _
             (fold_left (fun c e => <[fst e := snd e]> c) entries c0)).
    - unfold install. rewrite Hall, cacheNamed_fold, Hc0. reflexivity.
    - apply (fold_insert_lookup net); [exact Hnet|exact Hr|left; exact Hu]. }
  unfold onfetch. rewrite Hm. cbn [String.eqb Ascii.eqb Bool.eqb negb].
  rewrite Hurl at 1. unfold resolve at 1. rewrite (prefix_app _ _ _ Horigin).
  cbn [negb]. rewrite Hhit. reflexivity.
Qed.

Lemma filter_current_fresh (cs : CacheStorage) (c : Cache) :
  has CACHE_NAME cs = false ->
  List.filter isCurrent (cs ++ [(CACHE_NAME, c)]) = [(CACHE_NAME, c)].
Proof.
  induction cs as [|[n' c'] cs IH]; [reflexivity|].
  rewrite has_cons. intros H. apply orb_false_iff in H. destruct H as [E H].
  cbn [app List.filter]. unfold isCurrent at 1. cbn [fst]. rewrite E. exact (IH H).
Qed.

Lemma putIn_fresh (u : string) (r : Response) (cs : CacheStorage) (c : Cache) :
  has CACHE_NAME cs = false ->
  putIn CACHE_NAME u r (cs ++ [(CACHE_NAME, c)]) = cs ++ [(CACHE_NAME, <[u := r]> c)].
Proof.
  induction cs as [|[n' c'] cs IH]; [reflexivity|].
  rewrite has_cons. intros H. apply orb_false_iff in H. destruct H as [E H].
  cbn [app putIn]. rewrite E, (IH H). reflexivity.
Qed.

Lemma install_fresh (loc : Location) (net : Network) (cs : CacheStorage)
    (entries : list (string * Response)) :
  fetchAll net (List.map (resolve loc) (STATIC_ASSETS loc)) = Some entries ->
  has CACHE_NAME cs = false ->
  install loc net cs
  = cs ++ [(CACHE_NAME, fold_left (fun c e => <[fst e := snd e]> c) entries ∅)].
Proof.
  intros Hall Hfresh. unfold install, open. rewrite Hall, Hfresh.
  generalize (∅ : Cache). clear Hall.
  induction entries as [|e entries IH]; intros c; [reflexivity|].
  cbn [fold_left]. rewrite putIn_fresh by exact Hfresh. apply IH.
Qed.

(** X27: the offline fallback looks for [/index.html] at the root of
    the origin.  After the first installation of this version and its
    activation, a navigation that is not cached and finds the network
    down is answered with the cached index page when the worker runs
    on localhost, where the assets are cached under the root; on any
    other host the assets are cached under [/video-prompter], the
    look-up finds nothing, and the navigation fails. *)
Theorem offline_fallback_needs_root_index (loc : Location) (net net' : Network)
    (cs : CacheStorage) (entries : list (string * Response)) (req : Request) :
  fetchAll net (List.map (resolve loc) (STATIC_ASSETS loc)) = Some entries ->
  has CACHE_NAME cs = false ->
  method req = "GET" ->
  String.prefix "http" (url req) = true ->
  destination req = "document" ->
  ~ In (url req) (List.map (resolve loc) (STATIC_ASSETS loc)) ->
  net' (url req) = None ->
  let reply := fst (onfetch loc net' req (activate (install loc net cs))) in
  if String.eqb (BASE_PATH loc) "" then
    exists r, net (resolve loc "/index.html") = Some r /\ reply = Respond r
  else reply = Failed.
Proof.
  intros Hall Hfresh Hm Hp Hd Hnot Hdown.
  destruct (fetchAll_entries _ _ _ Hall) as [Hkeys Hnet].
  rewrite (install_fresh loc net cs entries Hall Hfresh), activate_filter,
    (filter_current_fresh _ _ Hfresh).
  set (c1 := fold_left (fun c e => <[fst e := snd e]> c) entries ∅).
  assert (Hmiss : c1 !! url req = None).
  { unfold c1. rewrite fold_insert_other by (rewrite Hkeys; exact Hnot).
    apply lookup_empty. }
  cbv zeta. unfold onfetch. rewrite Hm, Hp, Hd, Hdown.
  cbn [String.eqb Ascii.eqb Bool.eqb negb matchAll]. unfold Cache in *. rewrite Hmiss.
  cbn [fst].
  unfold BASE_PATH in *.
  destruct (String.eqb (hostname loc) "localhost" || String.eqb (hostname loc) "127.0.0.1")
    eqn:Hhost; cbn [String.eqb Ascii.eqb Bool.eqb].
  - assert (Hidx : In (resolve loc "/index.html") (List.map fst entries)).
    { rewrite Hkeys. unfold STATIC_ASSETS, BASE_PATH. rewrite Hhost. cbn. tauto. }
    assert (Hr : exists r, net (resolve loc "/index.html") = Some r).
    { apply List.in_map_iff in Hidx. destruct Hidx as (e & He & Hine).
      rewrite List.Forall_forall in Hnet. specialize (Hnet e Hine).
      rewrite He in Hnet. eauto. }
    destruct Hr as [r Hr]. exists r. split; [exact Hr|].
    assert (Hhit : c1 !! resolve loc "/index.html" = Some r).
    { apply (fold_insert_lookup net); [exact Hnet|exact Hr|left; exact Hidx]. }
    rewrite Hhit. reflexivity.
  - assert (Hidx : ~ In (resolve loc "/index.html") (List.map fst entries)).
    { rewrite Hkeys. unfold STATIC_ASSETS, BASE_PATH. rewrite Hhost. unfold resolve. cbn.
      intros H. repeat destruct H as [H|H]; try (apply append_inj in H; discriminate).
      exact H. }
    unfold c1. rewrite fold_insert_other by exact Hidx. rewrite lookup_empty.
    reflexivity.
Qed.

Lemma fetchAll_ok (net : Network) (urls : list string)
    (entries : list (string * Response)) :
  fetchAll net urls = Some entries ->
  Forall (fun u => exists r, net u = Some r /\ ok r = true) urls.
Proof.
  revert entries. induction urls as [|u urls IH]; intros entries; [constructor|].
  cbn [fetchAll]. destruct (net u) as [r|] eqn:Hu; [|discriminate].
  destruct (ok r) eqn:Hok; [|discriminate].
  destruct (fetchAll net urls) as [es|]; [|discriminate].
  intros _. constructor; [eauto|]. exact (IH es eq_refl).
Qed.

Lemma fetchAll_rejects (net : Network) (urls : list string) :
  fetchAll net urls = None ->
  Exists (fun u => match net u with Some r => ok r = false | None => True end) urls.
Proof.
  induction urls as [|u urls IH]; [discriminate|].
  cbn [fetchAll]. destruct (net u) as [r|] eqn:Hu.
  - destruct (ok r) eqn:Hok.
    + destruct (fetchAll net urls); [discriminate|].
      intros _. apply Exists_cons_tl. apply IH. reflexivity.
    + intros _. apply Exists_cons_hd. rewrite Hu. exact Hok.
  - intros _. apply Exists_cons_hd. rewrite Hu. exact I.
Qed.

(** X30: installation stores all the static assets or none.  Either
    every asset was fetched with an [ok] response, and the current
    cache then holds for each asset the response the network gave; or
    some asset could not be fetched or came back not [ok], and then no
    look-up in the storage gives anything it did not give before. *)
Theorem install_is_all_or_nothing (loc : Location) (net : Network) (cs : CacheStorage) :
  let urls := List.map (resolve loc) (STATIC_ASSETS loc) in
  (Forall (fun u => exists r, net u = Some r /\ ok r = true) urls
   /\ exists c : Cache,
        cacheNamed CACHE_NAME (install loc net cs) = Some c
        /\ Forall (fun u => c !! u = net u) urls)
  \/ (Exists (fun u => match net u with Some r => ok r = false | None => True end) urls
      /\ forall u, matchAll u (install loc net cs) = matchAll u cs).
Proof.
  cbv zeta. destruct (fetchAll net (List.map (resolve loc) (STATIC_ASSETS loc)))
    as [entries|] eqn:Hall.
  - left. split; [exact (fetchAll_ok _ _ _ Hall)|].
    destruct (fetchAll_entries _ _ _ Hall) as [Hkeys Hnet].
    destruct (cacheNamed_has CACHE_NAME (open CACHE_NAME cs) (has_open _ _)) as [c0 Hc0].
    exists (fold_left (fun c e => <[fst e := snd e]> c) entries c0). split.
    + unfold install. rewrite Hall, cacheNamed_fold, Hc0. reflexivity.
    + apply List.Forall_forall. intros u Hu.
      assert (Hr : exists r, net u = Some r).
      { pose proof (fetchAll_ok _ _ _ Hall) as Hok. rewrite List.Forall_forall in Hok.
        destruct (Hok u Hu) as (r & Hr & _). eauto. }
      destruct Hr as [r Hr]. rewrite Hr.
      apply (fold_insert_lookup net); [exact Hnet|exact Hr|left; rewrite Hkeys; exact Hu].
  - right. split; [exact (fetchAll_rejects _ _ Hall)|].
    intros u. unfold install. rewrite Hall. apply matchAll_open.
Qed.

End WorkerInstall.

Section WorkerInstallCases.
Import ServiceWorker.
Local Open Scope list_scope.

(** X26, witness: the deployed worker, installed while online, asked
    for its style sheet while offline. *)
Lemma installed_assets_served_offline_witness :
  exists r,
    fst (onfetch Cases.deployed Cases.offline
           (mkRequest "GET" "https://example.github.io/video-prompter/styles.css" "style")
           (activate (install Cases.deployed Cases.online [])))
    = Respond r.
Proof.
  destruct (installed_assets_served_offline Cases.deployed Cases.online Cases.offline []
              _ "/video-prompter/styles.css"
              (mkRequest "GET" "https://example.github.io/video-prompter/styles.css" "style")
              eq_refl) as (r & _ & H).
  - cbn. tauto.
  - reflexivity.
  - reflexivity.
  - reflexivity.
  - exists r. rewrite H. reflexivity.
Defined.

(** X27, witness: the deployed worker, a navigation to a page that is
    not an asset while offline. *)
Lemma offline_fallback_needs_root_index_witness :
  fst (onfetch Cases.deployed Cases.offline
         (mkRequest "GET" "https://example.github.io/video-prompter/help" "document")
         (activate (install Cases.deployed Cases.online [])))
  = Failed.
Proof.
  refine (offline_fallback_needs_root_index Cases.deployed Cases.online Cases.offline []
            _ (mkRequest "GET" "https://example.github.io/video-prompter/help" "document")
            eq_refl eq_refl eq_refl eq_refl eq_refl _ eq_refl).
  cbn. intros H. repeat destruct H as [H|H]; try discriminate. exact H.
Defined.

End WorkerInstallCases.

(** ** Recording in the second copy *)

Section SecondCopy.
Import Text Num Js Media VideoTeleprompter.
Local Open Scope list_scope.

Abbreviation page := VideoTeleprompterV2Recorder.page.


(** X29: the second copy saves whatever it has.  The stop event of
    its recorder always sends one file to download, of type
    [video/webm] and named [.webm], holding the concatenation of the
    chunks kept; with no chunk kept this is an empty file, where the
    first copy downloads nothing and shows an alert. *)
Theorem second_copy_saves_unconditionally (P : Platform)
    (s : VideoTeleprompterV2Recorder.State) :
  let s' := VideoTeleprompterV2Recorder.saveRecording s in
  (exists d, downloads (page s') = downloads (page s) ++ [d]
             /\ blob_bytes (dl_blob d)
                = List.concat (List.map blob_bytes (recordedChunks (page s)))
             /\ blob_type (dl_blob d) = "video/webm" /\ dl_extension d = "webm")
  /\ match recordedChunks (page s) with
     | [] =>
         (exists d, downloads (page s') = downloads (page s) ++ [d]
                    /\ size (dl_blob d) = 0%nat)
         /\ downloads (saveRecording P (page s)) = downloads (page s)
         /\ alerts (saveRecording P (page s))
            = alerts (page s)
              ++ ["No recording data available. Recording may have failed."]
     | _ :: _ => True
     end.
Proof.
  cbv zeta. split.
  - eexists. split; [reflexivity|]. repeat split; reflexivity.
  - destruct (recordedChunks (page s)) as [|b l] eqn:E; [|exact I].
    split; [|split].
    + eexists. split; [reflexivity|]. cbn. rewrite E. reflexivity.
    + unfold saveRecording. rewrite E. reflexivity.
    + unfold saveRecording. rewrite E. reflexivity.
Qed.

End SecondCopy.

Section SecondCopyCases.
Import Text Num Js Media VideoTeleprompter.
Local Open Scope list_scope.


End SecondCopyCases.
